(** * Speeddial: a shallow embedding of the speed-dial directory manager

    The development follows [speeddial1000nos5dir.c] (five named directories
    of at most 200 speed-dial entries each, kept in one global manager) and,
    in module [Spddia], the index-addressed list of [Spddia.c].

    Conventions of the embedding.
    - A C string is the [string] of the characters before its terminator;
      [strcmp (a, b) == 0] is [streq a b].
    - An [int] is a [Z]; every increment in the source is guarded so that it
      stays far inside the 32-bit range.
    - The global [manager] is passed explicitly; a function of the source
      becomes a function from the manager before the call to the returned
      value, the events of the call (what was printed, what was released)
      and the manager after the call.
    - A result [None] stands for undefined behaviour of the C program
      (dereferencing [NULL], indexing outside a block, reading a slot that
      was never written). *)

From Stdlib Require Import ZArith String Lia.
From stdpp Require Import base option list strings pretty.

Local Open Scope string_scope.
Local Open Scope nat_scope.
Local Open Scope list_scope.

(** ** Constants *)

Definition MAX_DIRECTORIES : Z := 5.
Definition TOTAL_NUMBERS : Z := 1000.
Definition MAX_NUMBERS_PER_DIRECTORY : Z := Z.quot TOTAL_NUMBERS MAX_DIRECTORIES.

Definition MAX_CODE_LENGTH : nat := 50.
Definition MAX_PHONE_LENGTH : nat := 20.
Definition MAX_DIR_NAME_LENGTH : nat := 50.

Definition EXIT_FAILURE : Z := 1.

(** ** Strings *)

(** [strcmp (a, b) == 0]. *)
Definition streq (a b : string) : bool := String.eqb a b.

(** The first [n] characters of [s] (all of [s] when it is shorter). *)
Fixpoint strprefix (n : nat) (s : string) : string :=
  match n, s with
  | S n', String c s' => String c (strprefix n' s')
  | _, _ => EmptyString
  end.

(** [strncpy (dst, src, size - 1); dst[size - 1] = '\0';] into a buffer of
    [size] characters: [dst] then holds the first [size - 1] characters of
    [src], the rest of the buffer being zero. *)
Definition strncpy_terminated (size : nat) (src : string) : string :=
  strprefix (size - 1) src.

(** [snprintf (dst, size, "Directory %d", k)]. *)
Definition directoryNameOf (k : Z) : string :=
  strprefix (MAX_DIR_NAME_LENGTH - 1) ("Directory " +:+ pretty k).

(** ** Data structures *)

Record SpeedDialEntry : Type := mkEntry {
  speedDialCode : string;
  phoneNumber : string
}.

(** A block returned by [malloc]: one slot per entry, [None] for a slot whose
    contents are still indeterminate. *)
Abbreviation Block := (list (option SpeedDialEntry)).

Record Directory : Type := mkDirectory {
  name : string;
  entries : option Block;        (* [None] is the [NULL] pointer *)
  currentCount : Z
}.

Record SpeedDialManager : Type := mkManager {
  directories : list Directory;  (* the array [directories[MAX_DIRECTORIES]] *)
  initialized : bool
}.

(** The zero-initialised global [manager]. *)
Definition manager0 : SpeedDialManager :=
  {| directories :=
       replicate (Z.to_nat MAX_DIRECTORIES)
         {| name := ""; entries := None; currentCount := 0 |};
     initialized := false |}.

(** ** Events of a call *)

(** One constructor per [printf] of the source, with its arguments. *)
Inductive Message : Type :=
| MsgAlreadyInitialized
| MsgInitializing (n : Z)
| MsgInitialized
| MsgNotInitialized
| MsgAddNoDirectory (directoryName : string)
| MsgDirectoryFull (directoryName : string) (max : Z)
| MsgDuplicateCode (speedDialCode directoryName : string)
| MsgAdded (speedDialCode phoneNumber directoryName : string)
| MsgGetNoDirectory (directoryName : string)
| MsgRetrieved (speedDialCode directoryName phoneNumber : string)
| MsgCodeNotFound (speedDialCode directoryName : string)
| MsgRemoveNoDirectory (directoryName : string)
| MsgNothingRemoved (speedDialCode directoryName : string)
| MsgRemoved (speedDialCode phoneNumber directoryName : string)
| MsgListNoDirectory (directoryName : string)
| MsgListHeader (directoryName : string) (count max : Z)
| MsgDirectoryEmpty
| MsgListEntry (speedDialCode phoneNumber : string)
| MsgAllDirectories
| MsgDirectoryName (directoryName : string)
| MsgNotInitializedOrFreed
| MsgFreeing
| MsgFreed.

Inductive Event : Type :=
| Print (msg : Message)
| Perror
| Malloc (i : nat) (ok : bool)   (* [malloc] for [directories[i]] *)
| Free (i : nat).                (* [free (directories[i].entries)] *)

(** How a call ends: it returns a value or it terminates the process. *)
Inductive Completion (A : Type) : Type :=
| Returned (a : A)
| Exited (status : Z).
Arguments Returned {A} a.
Arguments Exited {A} status.

Definition Run (A : Type) : Type := option (A * list Event * SpeedDialManager).

(** ** The loops shared by the operations *)

(** [for (i = 0; i < MAX_DIRECTORIES; i++) if (strcmp (name, directoryName) == 0)
    { dirIndex = i; break; }] with [dirIndex] starting at [-1]. *)
Fixpoint findDirectoryFrom (dirs : list Directory) (directoryName : string) (i : Z) : Z :=
  match dirs with
  | [] => (-1)%Z
  | d :: rest =>
      if streq (name d) directoryName then i
      else findDirectoryFrom rest directoryName (i + 1)%Z
  end.

Definition findDirectory (m : SpeedDialManager) (directoryName : string) : Z :=
  findDirectoryFrom (directories m) directoryName 0.

(** [for (i = ...; i < dir->currentCount; i++)
      if (strcmp (dir->entries[i].speedDialCode, speedDialCode) == 0) ...]
    with [n] iterations left: the index of the first match, or [-1]. *)
Fixpoint findEntryFrom (ents : option Block) (code : string) (i n : nat) : option Z :=
  match n with
  | O => Some (-1)%Z
  | S n' =>
      blk ← ents;
      slot ← blk !! i;
      e ← slot;
      if streq (speedDialCode e) code then Some (Z.of_nat i)
      else findEntryFrom ents code (S i) n'
  end.

Definition findEntry (dir : Directory) (code : string) : option Z :=
  findEntryFrom (entries dir) code 0 (Z.to_nat (currentCount dir)).

(** [for (i = ...; i < dir->currentCount - 1; i++)
      dir->entries[i] = dir->entries[i + 1];] with [n] iterations left. *)
Fixpoint shiftEntriesFrom (blk : Block) (i n : nat) : option Block :=
  match n with
  | O => Some blk
  | S n' =>
      slot ← blk !! S i;
      shiftEntriesFrom (<[i := slot]> blk) (S i) n'
  end.

(** [for (i = ...; i < dir->currentCount; i++) printf ("  %s: %s\n", ...)]. *)
Fixpoint printEntriesFrom (ents : option Block) (i n : nat) : option (list Event) :=
  match n with
  | O => Some []
  | S n' =>
      blk ← ents;
      slot ← blk !! i;
      e ← slot;
      rest ← printEntriesFrom ents (S i) n';
      Some (Print (MsgListEntry (speedDialCode e) (phoneNumber e)) :: rest)
  end.

(** The loop of [freeSpeedDialManager], from directory [i] on. *)
Fixpoint freeDirectoriesFrom (dirs : list Directory) (i : nat)
  : list Event * list Directory :=
  match dirs with
  | [] => ([], [])
  | d :: rest =>
      let '(evs, rest') := freeDirectoriesFrom rest (S i) in
      match entries d with
      | Some _ =>
          (Free i :: evs,
           {| name := name d; entries := None; currentCount := currentCount d |} :: rest')
      | None => (evs, d :: rest')
      end
  end.

(** The block [malloc (MAX_NUMBERS_PER_DIRECTORY * sizeof (SpeedDialEntry))]
    returns: no slot written yet. *)
Definition freshBlock : Block :=
  replicate (Z.to_nat MAX_NUMBERS_PER_DIRECTORY) None.
Arguments freshBlock : simpl never.

(** The loop of [initializeSpeedDialManager], from directory [i] on.
    [mallocOk i] tells whether the allocation for [directories[i]] succeeds;
    the third component is [false] when the loop was left at a failed
    allocation. *)
Fixpoint initDirectoriesFrom (mallocOk : nat → bool) (dirs : list Directory) (i : nat)
  : list Event * list Directory * bool :=
  match dirs with
  | [] => ([], [], true)
  | d :: rest =>
      let nm := directoryNameOf (Z.of_nat i + 1) in
      if mallocOk i then
        let '(evs, rest', ok) := initDirectoriesFrom mallocOk rest (S i) in
        (Malloc i true :: evs,
         {| name := nm;
            entries := Some freshBlock;
            currentCount := 0 |} :: rest',
         ok)
      else
        ([Malloc i false],
         {| name := nm; entries := None; currentCount := 0 |} :: rest,
         false)
  end.

(** ** The operations *)

Definition freeSpeedDialManager (m : SpeedDialManager) : Run unit :=
  if negb (initialized m) then
    Some (tt, [Print MsgNotInitializedOrFreed], m)
  else
    let '(evs, dirs') := freeDirectoriesFrom (directories m) 0 in
    Some (tt,
          Print MsgFreeing :: evs ++ [Print MsgFreed],
          {| directories := dirs'; initialized := false |}).

Definition initializeSpeedDialManager (mallocOk : nat → bool) (m : SpeedDialManager)
  : Run (Completion unit) :=
  if initialized m then
    Some (Returned tt, [Print MsgAlreadyInitialized], m)
  else
    let '(evs, dirs', ok) := initDirectoriesFrom mallocOk (directories m) 0 in
    if ok then
      Some (Returned tt,
            Print (MsgInitializing MAX_DIRECTORIES) :: evs ++ [Print MsgInitialized],
            {| directories := dirs'; initialized := true |})
    else
      (* perror; freeSpeedDialManager (); exit (EXIT_FAILURE); *)
      '(_, fevs, m') ← freeSpeedDialManager
                         {| directories := dirs'; initialized := initialized m |};
      Some (Exited EXIT_FAILURE,
            Print (MsgInitializing MAX_DIRECTORIES) :: evs ++ Perror :: fevs,
            m').

Definition addNumber (directoryName speedDialCode phoneNumber : string)
    (m : SpeedDialManager) : Run bool :=
  if negb (initialized m) then
    Some (false, [Print MsgNotInitialized], m)
  else
    let dirIndex := findDirectory m directoryName in
    if (dirIndex =? -1)%Z then
      Some (false, [Print (MsgAddNoDirectory directoryName)], m)
    else
      dir ← directories m !! Z.to_nat dirIndex;
      if (currentCount dir >=? MAX_NUMBERS_PER_DIRECTORY)%Z then
        Some (false,
              [Print (MsgDirectoryFull directoryName MAX_NUMBERS_PER_DIRECTORY)], m)
      else
        dup ← findEntry dir speedDialCode;
        if negb (dup =? -1)%Z then
          Some (false, [Print (MsgDuplicateCode speedDialCode directoryName)], m)
        else
          blk ← entries dir;
          if bool_decide (0 ≤ currentCount dir < Z.of_nat (length blk))%Z
          then
            let e := {| speedDialCode := strncpy_terminated MAX_CODE_LENGTH speedDialCode;
                        phoneNumber := strncpy_terminated MAX_PHONE_LENGTH phoneNumber |} in
            let dir' := {| name := name dir;
                           entries := Some (<[Z.to_nat (currentCount dir) := Some e]> blk);
                           currentCount := currentCount dir + 1 |} in
            Some (true,
                  [Print (MsgAdded speedDialCode phoneNumber directoryName)],
                  {| directories := <[Z.to_nat dirIndex := dir']> (directories m);
                     initialized := initialized m |})
          else None.

(** The returned pointer is modelled by the string it points to at the time
    of the return; [None] is [NULL]. *)
Definition getPhoneNumber (directoryName speedDialCode : string)
    (m : SpeedDialManager) : Run (option string) :=
  if negb (initialized m) then
    Some (None, [Print MsgNotInitialized], m)
  else
    let dirIndex := findDirectory m directoryName in
    if (dirIndex =? -1)%Z then
      Some (None, [Print (MsgGetNoDirectory directoryName)], m)
    else
      dir ← directories m !! Z.to_nat dirIndex;
      idx ← findEntry dir speedDialCode;
      if (idx =? -1)%Z then
        Some (None, [Print (MsgCodeNotFound speedDialCode directoryName)], m)
      else
        blk ← entries dir;
        slot ← blk !! Z.to_nat idx;
        e ← slot;
        Some (Some (phoneNumber e),
              [Print (MsgRetrieved speedDialCode directoryName (phoneNumber e))],
              m).

Definition removeNumber (directoryName speedDialCode : string)
    (m : SpeedDialManager) : Run bool :=
  if negb (initialized m) then
    Some (false, [Print MsgNotInitialized], m)
  else
    let dirIndex := findDirectory m directoryName in
    if (dirIndex =? -1)%Z then
      Some (false, [Print (MsgRemoveNoDirectory directoryName)], m)
    else
      dir ← directories m !! Z.to_nat dirIndex;
      entryIndex ← findEntry dir speedDialCode;
      if (entryIndex =? -1)%Z then
        Some (false, [Print (MsgNothingRemoved speedDialCode directoryName)], m)
      else
        blk ← entries dir;
        slot ← blk !! Z.to_nat entryIndex;
        e ← slot;
        blk' ← shiftEntriesFrom blk (Z.to_nat entryIndex)
                 (Z.to_nat (currentCount dir - 1 - entryIndex));
        let dir' := {| name := name dir;
                       entries := Some blk';
                       currentCount := currentCount dir - 1 |} in
        let '(mkEntry removedCode removedNumber) := e in
        Some (true,
              [Print (MsgRemoved removedCode removedNumber directoryName)],
              {| directories := <[Z.to_nat dirIndex := dir']> (directories m);
                 initialized := initialized m |}).

Definition listNumbersInDirectory (directoryName : string) (m : SpeedDialManager)
  : Run unit :=
  if negb (initialized m) then
    Some (tt, [Print MsgNotInitialized], m)
  else
    let dirIndex := findDirectory m directoryName in
    if (dirIndex =? -1)%Z then
      Some (tt, [Print (MsgListNoDirectory directoryName)], m)
    else
      dir ← directories m !! Z.to_nat dirIndex;
      let header :=
        Print (MsgListHeader directoryName (currentCount dir) MAX_NUMBERS_PER_DIRECTORY) in
      if (currentCount dir =? 0)%Z then
        Some (tt, [header; Print MsgDirectoryEmpty], m)
      else
        lines ← printEntriesFrom (entries dir) 0 (Z.to_nat (currentCount dir));
        Some (tt, header :: lines, m).

Definition listAllDirectoryNames (m : SpeedDialManager) : Run unit :=
  if negb (initialized m) then
    Some (tt, [Print MsgNotInitialized], m)
  else
    Some (tt,
          Print MsgAllDirectories
            :: map (λ d, Print (MsgDirectoryName (name d))) (directories m),
          m).

(** ** The index-addressed list of [Spddia.c] *)

Module Spddia.

Definition MAX_SPEED_DIALS : Z := 10.
Definition MAX_PHONE_NUMBER_LEN : nat := 15.
Definition CONTACT_NAME_SIZE : nat := 20.   (* [sizeof (contactName)] *)

Record SpeedDialEntry : Type := mkEntry {
  phoneNumber : string;
  contactName : string
}.

(** [SpeedDialEntry speedDialList[MAX_SPEED_DIALS] = {0};] *)
Definition speedDialList0 : list SpeedDialEntry :=
  replicate (Z.to_nat MAX_SPEED_DIALS) {| phoneNumber := ""; contactName := "" |}.

Inductive Message : Type :=
| MsgInvalidIndex (index : Z) (max : Z)
| MsgNumberTooLong (index : Z)
| MsgAssigned (index : Z) (phoneNumber contactName : string).

(** [name] is [None] for a [NULL] pointer. *)
Definition assignSpeedDial (index : Z) (number : string) (name : option string)
    (speedDialList : list SpeedDialEntry)
  : Z * list Message * list SpeedDialEntry :=
  if ((index <? 0) || (index >=? MAX_SPEED_DIALS))%Z then
    ((-1)%Z, [MsgInvalidIndex index (MAX_SPEED_DIALS - 1)], speedDialList)
  else if (MAX_PHONE_NUMBER_LEN <=? String.length number)%nat then
    ((-1)%Z, [MsgNumberTooLong index], speedDialList)
  else
    let contact :=
      match name with
      | Some s => if (String.length s <? CONTACT_NAME_SIZE)%nat then s else ""
      | None => ""
      end in
    (0%Z,
     [MsgAssigned index number contact],
     <[Z.to_nat index := {| phoneNumber := number; contactName := contact |}]>
       speedDialList).

(** The other functions of [Spddia.c]. *)

Definition emptyEntry : SpeedDialEntry := {| phoneNumber := ""; contactName := "" |}.

(** [speedDialList[index]], for an index inside the array. *)
Definition entryAt (speedDialList : list SpeedDialEntry) (index : Z) : SpeedDialEntry :=
  default emptyEntry (speedDialList !! Z.to_nat index).

(** What the functions of the file print: the messages of [assignSpeedDial]
    and one constructor per other [printf] (the fixed lines of [main] are
    kept as text, without their line breaks). *)
Inductive Report : Type :=
| RepAssign (msg : Message)
| RepInitialized
| RepInvalidIndex (index : Z)
| RepNotAssigned (index : Z)
| RepDialing (number : string) (index : Z) (contactName : string)
| RepCannotDial (index : Z)
| RepText (line : string).

Definition initializeSpeedDial (speedDialList : list SpeedDialEntry)
  : list Report * list SpeedDialEntry :=
  ([RepInitialized],
   <[2 := {| phoneNumber := "5551234567"; contactName := "Work" |}]>
     (<[1 := {| phoneNumber := "1234567890"; contactName := "Home" |}]>
        (<[0 := {| phoneNumber := "9876543210"; contactName := "Emergency" |}]>
           speedDialList))).

(** The returned pointer is modelled by the string it points to; [None] is
    [NULL]. *)
Definition getSpeedDialNumber (index : Z) (speedDialList : list SpeedDialEntry)
  : option string * list Report :=
  if ((index <? 0) || (index >=? MAX_SPEED_DIALS))%Z then
    (None, [RepInvalidIndex index])
  else
    match phoneNumber (entryAt speedDialList index) with
    | EmptyString => (None, [RepNotAssigned index])
    | number => (Some number, [])
    end.

Definition dialSpeedDial (index : Z) (speedDialList : list SpeedDialEntry)
  : list Report :=
  let '(numberToDial, out) := getSpeedDialNumber index speedDialList in
  match numberToDial with
  | Some number =>
      out ++ [RepDialing number index (contactName (entryAt speedDialList index))]
  | None => out ++ [RepCannotDial index]
  end.

(** [main]: the returned value, what was printed, and the list at the end. *)
Definition main (speedDialList : list SpeedDialEntry)
  : Z * list Report * list SpeedDialEntry :=
  let '(out0, l1) := initializeSpeedDial speedDialList in
  let out1 := dialSpeedDial 1 l1 in
  let out2 := dialSpeedDial 0 l1 in
  let out3 := dialSpeedDial 5 l1 in
  let '(_, out4, l2) := assignSpeedDial 5 "9998887777" (Some "Friend") l1 in
  let out5 := dialSpeedDial 5 l2 in
  (0%Z,
   out0
   ++ [RepText "--- Demonstrating Speed Dial ---"]
   ++ [RepText "Simulating dialing speed dial 1..."] ++ out1
   ++ [RepText "Simulating dialing speed dial 0..."] ++ out2
   ++ [RepText "Simulating dialing an unassigned speed dial 5..."] ++ out3
   ++ [RepText "Assigning new speed dial 5..."] ++ (RepAssign <$> out4)
   ++ [RepText "Simulating dialing newly assigned speed dial 5..."] ++ out5
   ++ [RepText "--- End of Demonstration ---"],
   l2).

(** Every string of the list fits its buffer together with the terminator. *)
Definition fits (speedDialList : list SpeedDialEntry) : Prop :=
  Forall (λ e, String.length (phoneNumber e) < MAX_PHONE_NUMBER_LEN ∧
               String.length (contactName e) < CONTACT_NAME_SIZE)
    speedDialList.

End Spddia.

(** ** The view of a directory *)

Definition entry_fits (e : SpeedDialEntry) : Prop :=
  String.length (speedDialCode e) < MAX_CODE_LENGTH ∧
  String.length (phoneNumber e) < MAX_PHONE_LENGTH.

Definition contents (d : Directory) : list SpeedDialEntry :=
  match entries d with
  | Some blk => omap id (take (Z.to_nat (currentCount d)) blk)
  | None => []
  end.

Definition holds (d : Directory) (blk : Block) (es : list SpeedDialEntry) : Prop :=
  entries d = Some blk ∧
  length blk = Z.to_nat MAX_NUMBERS_PER_DIRECTORY ∧
  currentCount d = Z.of_nat (length es) ∧
  take (length es) blk = Some <$> es ∧
  Forall entry_fits es.

Definition wf_directory (d : Directory) : Prop := ∃ blk es, holds d blk es.

Definition wf (m : SpeedDialManager) : Prop :=
  length (directories m) = Z.to_nat MAX_DIRECTORIES ∧
  (initialized m = true → Forall wf_directory (directories m)).

Definition directoryNamed (m : SpeedDialManager) (directoryName : string)
  : option Directory :=
  let dirIndex := findDirectory m directoryName in
  if (dirIndex =? -1)%Z then None else directories m !! Z.to_nat dirIndex.

Definition hasCode (code : string) (e : SpeedDialEntry) : Prop := speedDialCode e = code.
#[local] Instance hasCode_dec code e : Decision (hasCode code e).
Proof. unfold hasCode. apply _. Defined.

(** The index of the first entry of [es] with the code, or [-1]. *)
Definition firstIndex (code : string) (es : list SpeedDialEntry) : Z :=
  match list_find (hasCode code) es with
  | Some (j, _) => Z.of_nat j
  | None => (-1)%Z
  end.

(** The entry that [addNumber] writes for its two string arguments. *)
Definition storedEntry (code phone : string) : SpeedDialEntry :=
  {| speedDialCode := strncpy_terminated MAX_CODE_LENGTH code;
     phoneNumber := strncpy_terminated MAX_PHONE_LENGTH phone |}.

(** ** Calls and reachable managers *)

Inductive Call : Type :=
| CallInitialize (mallocOk : nat → bool)
| CallAdd (directoryName speedDialCode phoneNumber : string)
| CallGet (directoryName speedDialCode : string)
| CallRemove (directoryName speedDialCode : string)
| CallList (directoryName : string)
| CallListAll
| CallFree.

(** The manager after a call that returns ([None] when the call has
    undefined behaviour or ends the process). *)
Definition after (c : Call) (m : SpeedDialManager) : option SpeedDialManager :=
  match c with
  | CallInitialize mallocOk =>
      match initializeSpeedDialManager mallocOk m with
      | Some (Returned _, _, m') => Some m'
      | _ => None
      end
  | CallAdd d c p => snd <$> addNumber d c p m
  | CallGet d c => snd <$> getPhoneNumber d c m
  | CallRemove d c => snd <$> removeNumber d c m
  | CallList d => snd <$> listNumbersInDirectory d m
  | CallListAll => snd <$> listAllDirectoryNames m
  | CallFree => snd <$> freeSpeedDialManager m
  end.

(** Whether a call is defined (has no undefined behaviour). *)
Definition defined (c : Call) (m : SpeedDialManager) : Prop :=
  match c with
  | CallInitialize mallocOk => is_Some (initializeSpeedDialManager mallocOk m)
  | CallAdd d c p => is_Some (addNumber d c p m)
  | CallGet d c => is_Some (getPhoneNumber d c m)
  | CallRemove d c => is_Some (removeNumber d c m)
  | CallList d => is_Some (listNumbersInDirectory d m)
  | CallListAll => is_Some (listAllDirectoryNames m)
  | CallFree => is_Some (freeSpeedDialManager m)
  end.

Fixpoint afterAll (cs : list Call) (m : SpeedDialManager) : option SpeedDialManager :=
  match cs with
  | [] => Some m
  | c :: cs' => m' ← after c m; afterAll cs' m'
  end.

(** The managers a program can see: the zero-initialised global after any
    sequence of calls. *)
Definition reachable (m : SpeedDialManager) : Prop :=
  ∃ cs, afterAll cs manager0 = Some m.

(** A manager between a successful [initializeSpeedDialManager] and the next
    [freeSpeedDialManager]. *)
Definition ready (m : SpeedDialManager) : Prop := wf m ∧ initialized m = true.

(** The messages that report a refused call. *)
Definition isError (msg : Message) : bool :=
  match msg with
  | MsgNotInitialized
  | MsgAddNoDirectory _ | MsgDirectoryFull _ _ | MsgDuplicateCode _ _
  | MsgGetNoDirectory _ | MsgCodeNotFound _ _
  | MsgRemoveNoDirectory _ | MsgNothingRemoved _ _
  | MsgListNoDirectory _
  | MsgNotInitializedOrFreed | MsgAlreadyInitialized => true
  | _ => false
  end.

(** ** A concrete run *)

(** The manager after [initializeSpeedDialManager ()] on the zero-initialised
    global, every allocation succeeding. *)
Definition readyManager : SpeedDialManager :=
  {| directories :=
       (λ i, {| name := directoryNameOf (Z.of_nat i + 1);
                entries := Some freshBlock;
                currentCount := 0 |}) <$> seq 0 (Z.to_nat MAX_DIRECTORIES);
     initialized := true |}.

(** A speed-dial code of sixty characters. *)
Definition longCode : string :=
  "office-reception-desk-second-floor-north-wing-extension-4711".

(** The manager a call leaves ([m] itself when the call is undefined). *)
Definition managerAfter {A} (r : Run A) (m : SpeedDialManager) : SpeedDialManager :=
  match r with
  | Some (_, _, m') => m'
  | None => m
  end.

(** [readyManager] after [addNumber ("Directory 1", longCode, "111")]. *)
Definition onceAdded : SpeedDialManager :=
  managerAfter (addNumber "Directory 1" longCode "111" readyManager) readyManager.

(** [onceAdded] after [addNumber ("Directory 1", longCode, "222")]. *)
Definition twiceAdded : SpeedDialManager :=
  managerAfter (addNumber "Directory 1" longCode "222" onceAdded) onceAdded.

(** [readyManager] after [addNumber ("Directory 2", "friend1", "111-222-3333")]. *)
Definition friendAdded : SpeedDialManager :=
  managerAfter (addNumber "Directory 2" "friend1" "111-222-3333" readyManager)
    readyManager.

(** The first [MAX_CODE_LENGTH - 1] characters of [longCode]. *)
Definition cutCode : string := strncpy_terminated MAX_CODE_LENGTH longCode.

(** [twiceAdded] after [removeNumber ("Directory 1", cutCode)]. *)
Definition onceRemoved : SpeedDialManager :=
  managerAfter (removeNumber "Directory 1" cutCode twiceAdded) twiceAdded.

(** [onceRemoved] after [removeNumber ("Directory 1", cutCode)]. *)
Definition twiceRemoved : SpeedDialManager :=
  managerAfter (removeNumber "Directory 1" cutCode onceRemoved) onceRemoved.

(** A phone number of twenty-six characters. *)
Definition longNumber : string := "0044-20-7946-0958-ext-4711".

(** [readyManager] after [addNumber ("Directory 2", "desk", longNumber)]. *)
Definition deskAdded : SpeedDialManager :=
  managerAfter (addNumber "Directory 2" "desk" longNumber readyManager) readyManager.

(** The entries of the named directory, [[]] when no directory has the name. *)
Definition listing (m : SpeedDialManager) (directoryName : string)
  : list SpeedDialEntry :=
  match directoryNamed m directoryName with
  | Some d => contents d
  | None => []
  end.

(** The first additions of the demonstration in [main]. *)
Definition demoCalls : list Call :=
  [CallAdd "Directory 1" "home" "123-456-7890";
   CallAdd "Directory 1" "work" "987-654-3210";
   CallAdd "Directory 1" "mom" "555-111-2222"].

(** [readyManager] after [demoCalls]. *)
Definition demoManager : SpeedDialManager :=
  default readyManager (afterAll demoCalls readyManager).

(** "Directory 1" of [demoManager]. *)
Definition demoDirectory : Directory :=
  default {| name := ""; entries := None; currentCount := 0 |}
    (directoryNamed demoManager "Directory 1").

(** The calls that fill "Directory 3" to its capacity. *)
Definition fillCalls : list Call :=
  (λ i, CallAdd "Directory 3"
          ("contact" +:+ pretty (Z.of_nat i))
          ("000-000-" +:+ pretty (Z.of_nat i)))
  <$> seq 0 (Z.to_nat MAX_NUMBERS_PER_DIRECTORY).

(** [readyManager] after [fillCalls]. *)
Definition fullManager : SpeedDialManager :=
  default readyManager (afterAll fillCalls readyManager).

(** "Directory 3" of [fullManager]. *)
Definition fullDirectory : Directory :=
  default {| name := ""; entries := None; currentCount := 0 |}
    (directoryNamed fullManager "Directory 3").

(** ** Further views *)

(** The first entry of [es] with the code. *)
Fixpoint firstWithCode (code : string) (es : list SpeedDialEntry) : option SpeedDialEntry :=
  match es with
  | [] => None
  | e :: es' => if streq (speedDialCode e) code then Some e else firstWithCode code es'
  end.

(** The value a call returns. *)
Definition returned {A} (r : Run A) : option A := (λ x, x.1.1) <$> r.

(** The events of a call. *)
Definition events {A} (r : Run A) : list Event :=
  match r with
  | Some (_, evs, _) => evs
  | None => []
  end.

(** The names [initializeSpeedDialManager] gives the directories. *)
Definition directoryNames : list string :=
  (λ j, directoryNameOf (Z.of_nat j + 1)) <$> seq 0 (Z.to_nat MAX_DIRECTORIES).

(** A call whose speed-dial code, if it adds one, fits the code buffer. *)
Definition fitsCode (c : Call) : Prop :=
  match c with
  | CallAdd _ code _ => String.length code < MAX_CODE_LENGTH
  | _ => True
  end.

Definition isFree (e : Event) : bool :=
  match e with Free _ => true | _ => false end.

Definition isMalloc (e : Event) : bool :=
  match e with Malloc _ _ => true | _ => false end.

(** ** [main] *)

(** What [main] prints itself (kept as text, without the line breaks) and
    the events of the calls it makes. *)
Inductive MainEvent : Type :=
| Text (line : string)
| Op (e : Event).

(** A piece of [main]: from the manager before it to how it ends, its events
    and the manager after it. *)
Definition Prog (A : Type) : Type :=
  SpeedDialManager → option (Completion A * list MainEvent * SpeedDialManager).

#[local] Instance Prog_ret : MRet Prog := λ A a m, Some (Returned a, [], m).

#[local] Instance Prog_bind : MBind Prog := λ A B k p m,
  match p m with
  | Some (Returned a, evs, m1) =>
      match k a m1 with
      | Some (r, evs', m2) => Some (r, evs ++ evs', m2)
      | None => None
      end
  | Some (Exited status, evs, m1) => Some (Exited status, evs, m1)
  | None => None
  end.

Definition text (line : string) : Prog unit :=
  λ m, Some (Returned tt, [Text line], m).

(** A call of an operation that returns. *)
Definition call {A} (op : SpeedDialManager → Run A) : Prog A :=
  λ m,
    match op m with
    | Some (a, evs, m') => Some (Returned a, Op <$> evs, m')
    | None => None
    end.

(** The call of [initializeSpeedDialManager], which may end the process. *)
Definition callInitialize (mallocOk : nat → bool) : Prog unit :=
  λ m,
    match initializeSpeedDialManager mallocOk m with
    | Some (r, evs, m') => Some (r, Op <$> evs, m')
    | None => None
    end.

(** [snprintf (dst, size, ...)] of a formatted text: its first [size - 1]
    characters. *)
Definition snprintf_into (size : nat) (formatted : string) : string :=
  strprefix (size - 1) formatted.

Fixpoint zeros (n : nat) : string :=
  match n with
  | O => ""
  | S n' => "0" +:+ zeros n'
  end.

(** ["%04d"]. *)
Definition format_04d (i : Z) : string :=
  if (i <? 0)%Z then
    "-" +:+ zeros (3 - String.length (pretty (- i)%Z)) +:+ pretty (- i)%Z
  else zeros (4 - String.length (pretty i)) +:+ pretty i.

(** [for (i = ...; i < MAX_NUMBERS_PER_DIRECTORY - 1; i++)] of [main], with
    [n] iterations left. *)
Fixpoint fillDirectory3From (i : Z) (n : nat) : Prog unit :=
  match n with
  | O => mret tt
  | S n' =>
      let code := snprintf_into MAX_CODE_LENGTH ("contact" +:+ pretty i) in
      let number := snprintf_into MAX_PHONE_LENGTH ("000-000-" +:+ format_04d i) in
      _ ← call (addNumber "Directory 3" code number);
      fillDirectory3From (i + 1) n'
  end.

(** [main] from the statement after the call of
    [initializeSpeedDialManager] on. *)
Definition mainAfterInitialize : Prog Z :=
  _ ← call listAllDirectoryNames;
  _ ← text "--- Adding sample numbers ---";
  _ ← call (addNumber "Directory 1" "home" "123-456-7890");
  _ ← call (addNumber "Directory 1" "work" "987-654-3210");
  _ ← call (addNumber "Directory 1" "mom" "555-111-2222");
  _ ← call (addNumber "Directory 2" "friend1" "111-222-3333");
  _ ← call (addNumber "Directory 2" "friend2" "444-555-6666");
  _ ← call (addNumber "Directory 5" "emergency" "911");
  _ ← text "--- Demonstrating add number error cases ---";
  _ ← call (addNumber "Directory 6" "test" "000-000-0000");
  _ ← call (addNumber "Directory 1" "home" "123-999-8888");
  _ ← text "--- Demonstrating directory capacity limit (filling Directory 3) ---";
  _ ← fillDirectory3From 0 (Z.to_nat (MAX_NUMBERS_PER_DIRECTORY - 1));
  _ ← call (addNumber "Directory 3" "overflow" "999-999-9999");
  _ ← call (listNumbersInDirectory "Directory 3");
  _ ← text "--- Retrieving numbers ---";
  _ ← call (getPhoneNumber "Directory 1" "mom");
  _ ← call (getPhoneNumber "Directory 2" "friend2");
  _ ← call (getPhoneNumber "Directory 1" "dad");
  _ ← call (getPhoneNumber "Directory 7" "any");
  _ ← call (listNumbersInDirectory "Directory 1");
  _ ← call (listNumbersInDirectory "Directory 2");
  _ ← call (listNumbersInDirectory "Directory 4");
  _ ← text "--- Removing numbers ---";
  _ ← call (removeNumber "Directory 1" "work");
  _ ← call (removeNumber "Directory 2" "nonexistent");
  _ ← call (removeNumber "Directory 6" "any");
  _ ← call (listNumbersInDirectory "Directory 1");
  _ ← call freeSpeedDialManager;
  _ ← text "--- C Speed Dial System Demonstration Complete ---";
  mret 0%Z.

Definition main (mallocOk : nat → bool) : Prog Z :=
  _ ← text "--- Starting C Speed Dial System Demonstration ---";
  _ ← callInitialize mallocOk;
  mainAfterInitialize.

(** The events of the operations among the events of [main]. *)
Definition opEvents (evs : list MainEvent) : list Event :=
  omap (λ e, match e with Op e' => Some e' | Text _ => None end) evs.

(** The messages of refused calls among the events of [main]. *)
Definition errorMessages (evs : list MainEvent) : list Message :=
  omap (λ e, match e with
             | Op (Print msg) => if isError msg then Some msg else None
             | _ => None
             end) evs.

(** The calls of [malloc] and [free] among the events of [main]. *)
Definition heapEvents (evs : list MainEvent) : list Event :=
  filter (λ e, isMalloc e || isFree e) (opEvents evs).

(** * Properties *)

(** ** Strings and views *)

Lemma streq_true a b : streq a b = true ↔ a = b.
Proof. apply String.eqb_eq. Qed.

Lemma streq_false a b : streq a b = false ↔ a ≠ b.
Proof. apply String.eqb_neq. Qed.

Lemma strprefix_length n s : String.length (strprefix n s) ≤ n.
Proof.
  revert s. induction n as [|n IH]; intros [|c s]; simpl; try lia.
  specialize (IH s). lia.
Qed.

Lemma strprefix_short n s : String.length s ≤ n → strprefix n s = s.
Proof.
  revert s. induction n as [|n IH]; intros [|c s]; simpl; intros H; try done; try lia.
  f_equal. apply IH. lia.
Qed.

Lemma omap_id_fmap_Some {A} (l : list A) : omap id (Some <$> l) = l.
Proof. induction l as [|x l IH]; [done|]. cbn. by f_equal. Qed.

Lemma holds_contents d blk es : holds d blk es → contents d = es.
Proof.
  intros (Hb & _ & Hc & Ht & _). unfold contents.
  rewrite Hb, Hc, Nat2Z.id, Ht. apply omap_id_fmap_Some.
Qed.

Lemma holds_length d blk es :
  holds d blk es → length es ≤ Z.to_nat MAX_NUMBERS_PER_DIRECTORY.
Proof.
  intros (_ & Hl & _ & Ht & _).
  apply (f_equal length) in Ht. rewrite length_take, length_fmap in Ht. lia.
Qed.

Lemma holds_lookup d blk es j e :
  holds d blk es → es !! j = Some e → blk !! j = Some (Some e).
Proof.
  intros (_ & _ & _ & Ht & _) He.
  assert (Hj : j < length es) by (by eapply lookup_lt_Some).
  rewrite <- (lookup_take_lt blk (length es) j) by done.
  rewrite Ht, list_lookup_fmap, He. done.
Qed.

(** The directory loop. *)
Lemma findDirectoryFrom_cases dirs nm i :
  (findDirectoryFrom dirs nm i = -1 ∧ Forall (λ d, name d ≠ nm) dirs)%Z ∨
  ∃ k d, findDirectoryFrom dirs nm i = (i + Z.of_nat k)%Z ∧
         dirs !! k = Some d ∧ name d = nm ∧
         ∀ j d', j < k → dirs !! j = Some d' → name d' ≠ nm.
Proof.
  revert i. induction dirs as [|d dirs IH]; intros i; simpl.
  - left. split; [done|constructor].
  - destruct (streq (name d) nm) eqn:E.
    + right. exists 0, d. apply streq_true in E.
      repeat split; [lia|done|]. intros j d' Hj. lia.
    + apply streq_false in E. destruct (IH (i + 1)%Z) as [[H1 H2]|(k & d' & H1 & H2 & H3 & H4)].
      * left. split; [done|by constructor].
      * right. exists (S k), d'. repeat split; [lia|done|done|].
        intros [|j] d'' Hj; simpl; [by intros [= <-]|]. apply H4. lia.
Qed.

Lemma directoryNamed_Some m nm d :
  directoryNamed m nm = Some d →
  ∃ k, findDirectory m nm = Z.of_nat k ∧ directories m !! k = Some d ∧ name d = nm.
Proof.
  unfold directoryNamed, findDirectory.
  destruct (findDirectoryFrom_cases (directories m) nm 0)
    as [[-> _]|(k & d' & -> & Hk & Hn & _)]; [done|].
  replace (0 + Z.of_nat k)%Z with (Z.of_nat k) by lia.
  destruct (Z.eqb_spec (Z.of_nat k) (-1)); [lia|].
  rewrite Nat2Z.id, Hk. intros [= <-]. eauto.
Qed.

Lemma directoryNamed_resolved m nm k d :
  findDirectory m nm = Z.of_nat k → directories m !! k = Some d →
  directoryNamed m nm = Some d.
Proof.
  intros Hf Hk. unfold directoryNamed. rewrite Hf.
  destruct (Z.eqb_spec (Z.of_nat k) (-1)); [lia|]. by rewrite Nat2Z.id.
Qed.

(** The name loop only reads the names. *)
Lemma findDirectoryFrom_names dirs dirs' nm i :
  name <$> dirs = name <$> dirs' →
  findDirectoryFrom dirs nm i = findDirectoryFrom dirs' nm i.
Proof.
  revert dirs' i. induction dirs as [|d dirs IH]; intros [|d' dirs'] i H; try done.
  simpl in *. injection H as Hn Hr. rewrite Hn.
  destruct (streq (name d') nm); [done|]. by apply IH.
Qed.

Lemma names_insert (dirs : list Directory) k d d' :
  dirs !! k = Some d → name d' = name d →
  name <$> <[k := d']> dirs = name <$> dirs.
Proof.
  intros Hk Hn. rewrite list_fmap_insert, Hn.
  apply list_insert_id. by rewrite list_lookup_fmap, Hk.
Qed.

(** The code loop, on a directory whose first slots hold [es]. *)
Lemma findEntryFrom_spec (blk : Block) code es i :
  (∀ j e, es !! j = Some e → blk !! (i + j) = Some (Some e)) →
  findEntryFrom (Some blk) code i (length es) =
  Some (match list_find (hasCode code) es with
        | Some (j, _) => Z.of_nat (i + j)
        | None => (-1)%Z
        end).
Proof.
  revert i. induction es as [|e es IH]; intros i H; [done|].
  cbn [length findEntryFrom list_find]. simpl.
  rewrite <- (Nat.add_0_r i) at 1. rewrite (H 0 e eq_refl). simpl.
  destruct (decide (hasCode code e)) as [Hc|Hc].
  - unfold hasCode in Hc. apply streq_true in Hc. rewrite Hc.
    simpl. by rewrite Nat.add_0_r.
  - unfold hasCode in Hc. apply streq_false in Hc. rewrite Hc.
    rewrite IH.
    + destruct (list_find (hasCode code) es) as [[j x]|]; simpl; [|done].
      do 2 f_equal. lia.
    + intros j x Hj. replace (S i + j) with (i + S j) by lia. by apply H.
Qed.

Lemma findEntry_holds d blk es code :
  holds d blk es → findEntry d code = Some (firstIndex code es).
Proof.
  intros Hh. unfold findEntry, firstIndex.
  destruct Hh as (Hb & Hl & Hc & Ht & Hf) eqn:E. rewrite Hb, Hc, Nat2Z.id.
  rewrite (findEntryFrom_spec blk code es 0).
  - by destruct (list_find _ es) as [[j x]|].
  - intros j e He. simpl. by eapply holds_lookup.
Qed.

Lemma firstIndex_absent code es :
  firstIndex code es = (-1)%Z ↔ Forall (λ e, speedDialCode e ≠ code) es.
Proof.
  unfold firstIndex. destruct (list_find _ es) as [[j x]|] eqn:E.
  - split; [lia|]. intros Hf. apply list_find_Some in E as (H1 & H2 & _).
    rewrite Forall_forall in Hf. exfalso. eapply Hf; [|exact H2].
    apply list_elem_of_lookup. eauto.
  - split; [|done]. intros _. by apply list_find_None in E.
Qed.

(** The shifting loop: slot [i] is dropped, the next [n] slots move one
    position left, and every other slot keeps its contents (slot [i + n]
    keeps a stale copy of the last slot moved). *)
Lemma shiftEntriesFrom_spec n : ∀ (blk : Block) i,
  i + n < length blk →
  shiftEntriesFrom blk i n =
  Some (take i blk ++ take n (drop (S i) blk) ++ drop (i + n) blk).
Proof.
  induction n as [|n IH]; intros blk i Hlen; simpl.
  - by rewrite Nat.add_0_r, take_drop.
  - destruct (lookup_lt_is_Some_2 blk (S i)) as [slot Hs]; [lia|].
    rewrite Hs. simpl. rewrite IH by (rewrite length_insert; lia).
    f_equal.
    rewrite (take_S_r _ i slot) by (apply list_lookup_insert_eq; lia).
    rewrite take_insert_ge by lia.
    rewrite !drop_insert_lt by lia.
    rewrite (drop_S blk slot (S i)) by done. simpl.
    rewrite <- app_assoc. simpl. by replace (i + S n) with (S (i + n)) by lia.
Qed.

(** ** The operations on a ready manager *)

Section Resolved.
Variables (m : SpeedDialManager) (nm : string) (k : nat) (d : Directory).
Variables (blk : Block) (es : list SpeedDialEntry).
Hypothesis Hinit : initialized m = true.
Hypothesis Hfind : findDirectory m nm = Z.of_nat k.
Hypothesis Hdir : directories m !! k = Some d.
Hypothesis Hholds : holds d blk es.

Lemma addNumber_resolved code phone :
  addNumber nm code phone m =
  if (currentCount d >=? MAX_NUMBERS_PER_DIRECTORY)%Z then
    Some (false, [Print (MsgDirectoryFull nm MAX_NUMBERS_PER_DIRECTORY)], m)
  else if (firstIndex code es =? -1)%Z then
    Some (true, [Print (MsgAdded code phone nm)],
          {| directories :=
               <[k := {| name := name d;
                         entries := Some (<[length es := Some (storedEntry code phone)]> blk);
                         currentCount := currentCount d + 1 |}]> (directories m);
             initialized := true |})
  else Some (false, [Print (MsgDuplicateCode code nm)], m).
Proof.
  unfold addNumber. rewrite Hinit, Hfind. simpl.
  destruct (Z.eqb_spec (Z.of_nat k) (-1)); [lia|].
  rewrite Nat2Z.id, Hdir. simpl.
  destruct (currentCount d >=? MAX_NUMBERS_PER_DIRECTORY)%Z eqn:Hfull; [done|].
  rewrite (findEntry_holds d blk es code Hholds). simpl.
  destruct (firstIndex code es =? -1)%Z eqn:Hdup; simpl; [|done].
  pose proof Hholds as (Hb & Hl & Hc & Ht & Hf).
  rewrite Hb. simpl. rewrite Hc, Nat2Z.id.
  rewrite bool_decide_true; [done|].
  rewrite Hc in Hfull. rewrite Hl. unfold MAX_NUMBERS_PER_DIRECTORY in *. simpl in *. lia.
Qed.

Lemma getPhoneNumber_resolved code :
  getPhoneNumber nm code m =
  match list_find (hasCode code) es with
  | Some (_, e) =>
      Some (Some (phoneNumber e), [Print (MsgRetrieved code nm (phoneNumber e))], m)
  | None => Some (None, [Print (MsgCodeNotFound code nm)], m)
  end.
Proof.
  unfold getPhoneNumber. rewrite Hinit, Hfind. simpl.
  destruct (Z.eqb_spec (Z.of_nat k) (-1)); [lia|].
  rewrite Nat2Z.id, Hdir. simpl.
  rewrite (findEntry_holds d blk es code Hholds). simpl. unfold firstIndex.
  destruct (list_find (hasCode code) es) as [[j e]|] eqn:E; [|done].
  destruct (Z.eqb_spec (Z.of_nat j) (-1)); [lia|].
  apply list_find_Some in E as (He & _ & _).
  pose proof Hholds as (Hb & _). rewrite Hb. simpl.
  rewrite Nat2Z.id, (holds_lookup d blk es j e Hholds He). done.
Qed.

Lemma removeNumber_resolved code :
  removeNumber nm code m =
  match list_find (hasCode code) es with
  | Some (i, e) =>
      Some (true, [Print (MsgRemoved (speedDialCode e) (phoneNumber e) nm)],
            {| directories :=
                 <[k := {| name := name d;
                           entries := Some (take i blk
                                            ++ take (length es - 1 - i) (drop (S i) blk)
                                            ++ drop (length es - 1) blk);
                           currentCount := currentCount d - 1 |}]> (directories m);
               initialized := true |})
  | None => Some (false, [Print (MsgNothingRemoved code nm)], m)
  end.
Proof.
  unfold removeNumber. rewrite Hinit, Hfind. simpl.
  destruct (Z.eqb_spec (Z.of_nat k) (-1)); [lia|].
  rewrite Nat2Z.id, Hdir. simpl.
  rewrite (findEntry_holds d blk es code Hholds). simpl. unfold firstIndex.
  destruct (list_find (hasCode code) es) as [[j e]|] eqn:E; [|done].
  destruct (Z.eqb_spec (Z.of_nat j) (-1)); [lia|].
  apply list_find_Some in E as (He & _ & _).
  pose proof Hholds as (Hb & Hl & Hc & Ht & Hf). rewrite Hb. simpl.
  rewrite Nat2Z.id, (holds_lookup d blk es j e Hholds He). simpl.
  assert (Hj : j < length es) by (by eapply lookup_lt_Some).
  pose proof (holds_length d blk es Hholds) as Hle.
  rewrite Hc. replace (Z.to_nat (Z.of_nat (length es) - 1 - Z.of_nat j))
    with (length es - 1 - j) by lia.
  rewrite shiftEntriesFrom_spec by lia. simpl.
  destruct e as [c p]. simpl.
  replace (j + (length es - 1 - j)) with (length es - 1) by lia. done.
Qed.

End Resolved.

(** ** The invariant is kept *)

Lemma max_numbers_Z : MAX_NUMBERS_PER_DIRECTORY = 200%Z.
Proof. reflexivity. Qed.

Lemma max_numbers : Z.to_nat MAX_NUMBERS_PER_DIRECTORY = 200.
Proof. reflexivity. Qed.

Lemma storedEntry_fits code phone : entry_fits (storedEntry code phone).
Proof.
  split; simpl; unfold strncpy_terminated.
  - pose proof (strprefix_length (MAX_CODE_LENGTH - 1) code).
    unfold MAX_CODE_LENGTH in *. simpl in *. lia.
  - pose proof (strprefix_length (MAX_PHONE_LENGTH - 1) phone).
    unfold MAX_PHONE_LENGTH in *. simpl in *. lia.
Qed.

Lemma holds_added d blk es code phone :
  holds d blk es → (currentCount d < MAX_NUMBERS_PER_DIRECTORY)%Z →
  holds {| name := name d;
           entries := Some (<[length es := Some (storedEntry code phone)]> blk);
           currentCount := currentCount d + 1 |}
        (<[length es := Some (storedEntry code phone)]> blk)
        (es ++ [storedEntry code phone]).
Proof.
  intros (Hb & Hl & Hc & Ht & Hf) Hlt. rewrite Hc in Hlt.
  rewrite max_numbers_Z in Hlt.
  assert (length es < length blk) by (rewrite Hl, max_numbers; lia).
  repeat split; simpl.
  - by rewrite length_insert.
  - rewrite length_app. simpl. lia.
  - rewrite length_app. simpl. rewrite Nat.add_1_r.
    rewrite (take_S_r _ _ (Some (storedEntry code phone)))
      by (by apply list_lookup_insert_eq).
    rewrite take_insert_ge by lia. by rewrite Ht, fmap_app.
  - apply Forall_app. split; [done|].
    constructor; [apply storedEntry_fits|constructor].
Qed.

Lemma holds_removed d blk es i e :
  holds d blk es → es !! i = Some e →
  holds {| name := name d;
           entries := Some (take i blk
                            ++ take (length es - 1 - i) (drop (S i) blk)
                            ++ drop (length es - 1) blk);
           currentCount := currentCount d - 1 |}
        (take i blk ++ take (length es - 1 - i) (drop (S i) blk)
         ++ drop (length es - 1) blk)
        (delete i es).
Proof.
  intros Hh He. pose proof (holds_length _ _ _ Hh) as Hle.
  destruct Hh as (Hb & Hl & Hc & Ht & Hf).
  assert (Hi : i < length es) by (by eapply lookup_lt_Some).
  assert (Hd : length (delete i es) = length es - 1).
  { rewrite length_delete by eauto. done. }
  repeat split; simpl.
  - rewrite !length_app, !length_take, !length_drop. lia.
  - rewrite Hd. lia.
  - rewrite Hd, app_assoc.
    rewrite take_app_length'
      by (rewrite length_app, !length_take, length_drop; lia).
    rewrite delete_take_drop, fmap_app, fmap_take, fmap_drop, <- Ht.
    rewrite take_take, take_drop_commute. f_equal.
    + f_equal. lia.
    + do 2 f_equal. lia.
  - by apply Forall_delete.
Qed.

Lemma printEntriesFrom_spec (blk : Block) es i :
  (∀ j e, es !! j = Some e → blk !! (i + j) = Some (Some e)) →
  printEntriesFrom (Some blk) i (length es) =
  Some ((λ e, Print (MsgListEntry (speedDialCode e) (phoneNumber e))) <$> es).
Proof.
  revert i. induction es as [|e es IH]; intros i H; [done|].
  cbn [length printEntriesFrom]. simpl.
  rewrite <- (Nat.add_0_r i) at 1. rewrite (H 0 e eq_refl). simpl.
  rewrite IH; [done|].
  intros j x Hj. replace (S i + j) with (i + S j) by lia. by apply H.
Qed.

Lemma freeDirectoriesFrom_spec dirs i :
  Forall (λ d, is_Some (entries d)) dirs →
  freeDirectoriesFrom dirs i =
  (Free <$> seq i (length dirs),
   (λ d, {| name := name d; entries := None; currentCount := currentCount d |}) <$> dirs).
Proof.
  intros H. revert i. induction H as [|d dirs [b Hd] _ IH]; intros i; [done|].
  simpl. rewrite IH, Hd. done.
Qed.

Lemma freeDirectoriesFrom_length dirs i :
  length (freeDirectoriesFrom dirs i).2 = length dirs.
Proof.
  revert i. induction dirs as [|d dirs IH]; intros i; [done|]. simpl.
  specialize (IH (S i)). destruct (freeDirectoriesFrom dirs (S i)) as [evs rest].
  destruct (entries d); simpl in *; by rewrite IH.
Qed.

Lemma initDirectoriesFrom_ok mallocOk dirs i evs dirs' :
  initDirectoriesFrom mallocOk dirs i = (evs, dirs', true) →
  length dirs' = length dirs ∧ Forall wf_directory dirs' ∧
  Forall (λ d, currentCount d = 0%Z) dirs' ∧
  name <$> dirs' = (λ j, directoryNameOf (Z.of_nat j + 1)) <$> seq i (length dirs) ∧
  evs = (λ j, Malloc j true) <$> seq i (length dirs).
Proof.
  revert i evs dirs'. induction dirs as [|d dirs IH]; intros i evs dirs'; simpl.
  - intros [= <- <-]. repeat split; constructor.
  - destruct (mallocOk i); [|done].
    destruct (initDirectoriesFrom mallocOk dirs (S i)) as [[evs1 rest] ok] eqn:E.
    intros [= <- <- ->]. destruct (IH _ _ _ E) as (H1 & H2 & H3 & H4 & H5).
    split_and!.
    + simpl. by rewrite H1.
    + constructor; [|done].
      exists freshBlock, []. by repeat split.
    + by constructor.
    + simpl. f_equal. exact H4.
    + simpl. f_equal. exact H5.
Qed.

Lemma initDirectoriesFrom_all_ok mallocOk dirs i :
  (∀ j, i ≤ j < i + length dirs → mallocOk j = true) →
  (initDirectoriesFrom mallocOk dirs i).2 = true.
Proof.
  revert i. induction dirs as [|d dirs IH]; intros i H; [done|]. simpl.
  rewrite (H i) by (simpl; lia).
  specialize (IH (S i)).
  destruct (initDirectoriesFrom mallocOk dirs (S i)) as [[evs rest] ok].
  simpl in *. apply IH. intros j Hj. apply H. lia.
Qed.

Lemma wf_resolve m nm :
  wf m → initialized m = true →
  findDirectory m nm = (-1)%Z ∨
  ∃ k d blk es, findDirectory m nm = Z.of_nat k ∧ directories m !! k = Some d ∧
                name d = nm ∧ holds d blk es.
Proof.
  intros [_ Hwf] Hinit. specialize (Hwf Hinit). unfold findDirectory.
  destruct (findDirectoryFrom_cases (directories m) nm 0)
    as [[-> _]|(k & d & -> & Hk & Hn & _)]; [by left|right].
  rewrite Forall_lookup in Hwf. destruct (Hwf k d Hk) as (blk & es & Hh).
  exists k, d, blk, es. split; [f_equal; lia|done].
Qed.

Lemma wf_insert m k d d' :
  wf m → initialized m = true → directories m !! k = Some d → wf_directory d' →
  wf {| directories := <[k := d']> (directories m); initialized := true |}.
Proof.
  intros [Hlen Hwf] Hinit Hk Hd'. split; simpl.
  - by rewrite length_insert.
  - intros _. apply Forall_insert; auto.
Qed.

Lemma wf_manager0 : wf manager0.
Proof. split; [done|]. intros [=]. Qed.

Lemma addNumber_wf nm code phone m :
  wf m → ∃ r evs m', addNumber nm code phone m = Some (r, evs, m') ∧ wf m'.
Proof.
  intros Hwf. destruct (initialized m) eqn:Hinit.
  - destruct (wf_resolve m nm Hwf Hinit) as [Hf|(k & d & blk & es & Hf & Hk & Hn & Hh)].
    + unfold addNumber. rewrite Hinit, Hf. simpl. eauto.
    + rewrite (addNumber_resolved m nm k d blk es Hinit Hf Hk Hh).
      destruct (currentCount d >=? MAX_NUMBERS_PER_DIRECTORY)%Z eqn:Hfull; [eauto|].
      destruct (firstIndex code es =? -1)%Z; [|eauto].
      do 3 eexists. split; [done|].
      eapply wf_insert; [done..|]. do 2 eexists.
      apply holds_added; [done|lia].
  - unfold addNumber. rewrite Hinit. simpl. eauto.
Qed.

Lemma getPhoneNumber_wf nm code m :
  wf m → ∃ r evs, getPhoneNumber nm code m = Some (r, evs, m).
Proof.
  intros Hwf. destruct (initialized m) eqn:Hinit.
  - destruct (wf_resolve m nm Hwf Hinit) as [Hf|(k & d & blk & es & Hf & Hk & Hn & Hh)].
    + unfold getPhoneNumber. rewrite Hinit, Hf. simpl. eauto.
    + rewrite (getPhoneNumber_resolved m nm k d blk es Hinit Hf Hk Hh).
      destruct (list_find (hasCode code) es) as [[j e]|]; eauto.
  - unfold getPhoneNumber. rewrite Hinit. simpl. eauto.
Qed.

Lemma removeNumber_wf nm code m :
  wf m → ∃ r evs m', removeNumber nm code m = Some (r, evs, m') ∧ wf m'.
Proof.
  intros Hwf. destruct (initialized m) eqn:Hinit.
  - destruct (wf_resolve m nm Hwf Hinit) as [Hf|(k & d & blk & es & Hf & Hk & Hn & Hh)].
    + unfold removeNumber. rewrite Hinit, Hf. simpl. eauto.
    + rewrite (removeNumber_resolved m nm k d blk es Hinit Hf Hk Hh).
      destruct (list_find (hasCode code) es) as [[j e]|] eqn:E; [|eauto].
      apply list_find_Some in E as (He & _ & _).
      do 3 eexists. split; [done|].
      eapply wf_insert; [done..|]. do 2 eexists.
      by eapply holds_removed.
  - unfold removeNumber. rewrite Hinit. simpl. eauto.
Qed.

Lemma listNumbersInDirectory_resolved m nm k d blk es :
  initialized m = true → findDirectory m nm = Z.of_nat k →
  directories m !! k = Some d → holds d blk es →
  listNumbersInDirectory nm m =
  Some (tt,
        Print (MsgListHeader nm (currentCount d) MAX_NUMBERS_PER_DIRECTORY)
          :: match es with
             | [] => [Print MsgDirectoryEmpty]
             | _ => (λ e, Print (MsgListEntry (speedDialCode e) (phoneNumber e))) <$> es
             end,
        m).
Proof.
  intros Hinit Hfind Hdir Hh.
  unfold listNumbersInDirectory. rewrite Hinit, Hfind. simpl.
  destruct (Z.eqb_spec (Z.of_nat k) (-1)); [lia|].
  rewrite Nat2Z.id, Hdir. simpl.
  pose proof Hh as (Hb & Hl & Hc & Ht & Hf). rewrite Hb, Hc, Nat2Z.id.
  rewrite (printEntriesFrom_spec blk es 0)
    by (intros j e He; by eapply holds_lookup).
  destruct es as [|e es]; [done|].
  destruct (Z.eqb_spec (Z.of_nat (length (e :: es))) 0); [simpl in *; lia|done].
Qed.

Lemma listNumbersInDirectory_wf nm m :
  wf m → ∃ evs, listNumbersInDirectory nm m = Some (tt, evs, m).
Proof.
  intros Hwf. destruct (initialized m) eqn:Hinit.
  - destruct (wf_resolve m nm Hwf Hinit) as [Hf|(k & d & blk & es & Hf & Hk & Hn & Hh)].
    + unfold listNumbersInDirectory. rewrite Hinit, Hf. simpl. eauto.
    + rewrite (listNumbersInDirectory_resolved m nm k d blk es Hinit Hf Hk Hh). eauto.
  - unfold listNumbersInDirectory. rewrite Hinit. simpl. eauto.
Qed.

Lemma listAllDirectoryNames_total m :
  ∃ evs, listAllDirectoryNames m = Some (tt, evs, m).
Proof. unfold listAllDirectoryNames. destruct (initialized m); simpl; eauto. Qed.

Lemma freeSpeedDialManager_wf m :
  wf m → ∃ evs m', freeSpeedDialManager m = Some (tt, evs, m') ∧ wf m' ∧
                   initialized m' = false.
Proof.
  intros [Hlen Hwf]. unfold freeSpeedDialManager. destruct (initialized m) eqn:Hinit; simpl.
  - pose proof (freeDirectoriesFrom_length (directories m) 0) as Hl.
    destruct (freeDirectoriesFrom (directories m) 0) as [evs dirs'].
    do 2 eexists. split; [done|]. simpl in *. split; [|done].
    split; simpl; [congruence|done].
  - do 2 eexists. split; [done|]. split; [|done]. split; [done|]. congruence.
Qed.

Lemma initializeSpeedDialManager_wf mallocOk m :
  wf m → ∃ r evs m', initializeSpeedDialManager mallocOk m = Some (r, evs, m') ∧
                     (r = Returned tt → wf m' ∧ initialized m' = true).
Proof.
  intros Hwf. unfold initializeSpeedDialManager.
  destruct (initialized m) eqn:Hinit; [by eauto 6|].
  destruct (initDirectoriesFrom mallocOk (directories m) 0) as [[evs dirs'] ok] eqn:E.
  destruct ok.
  - apply initDirectoriesFrom_ok in E as (H1 & H2 & _).
    do 3 eexists. split; [done|]. intros _. split; [|done].
    split; simpl; [|done]. destruct Hwf as [Hlen _]. congruence.
  - unfold freeSpeedDialManager. simpl. do 3 eexists. split; [done|]. intros [=].
Qed.

(** Every call on a well-formed manager is defined, and the manager it
    leaves is well formed. *)
Lemma wf_defined c m : wf m → defined c m.
Proof.
  intros Hwf. destruct c as [ok|dn cd ph|dn cd|dn cd|dn| |]; simpl.
  - destruct (initializeSpeedDialManager_wf ok m Hwf) as (? & ? & ? & -> & _); eauto.
  - destruct (addNumber_wf dn cd ph m Hwf)
      as (? & ? & ? & -> & _); eauto.
  - destruct (getPhoneNumber_wf dn cd m Hwf) as (? & ? & ->); eauto.
  - destruct (removeNumber_wf dn cd m Hwf)
      as (? & ? & ? & -> & _); eauto.
  - destruct (listNumbersInDirectory_wf dn m Hwf) as (? & ->); eauto.
  - destruct (listAllDirectoryNames_total m) as (? & ->); eauto.
  - destruct (freeSpeedDialManager_wf m Hwf) as (? & ? & -> & _); eauto.
Qed.

Lemma after_wf c m m' : wf m → after c m = Some m' → wf m'.
Proof.
  intros Hwf. destruct c as [ok|dn cd ph|dn cd|dn cd|dn| |]; simpl.
  - destruct (initializeSpeedDialManager_wf ok m Hwf) as (r & ? & ? & -> & H).
    destruct r as [[]|]; [|done]. intros [= <-]. by apply H.
  - destruct (addNumber_wf dn cd ph m Hwf)
      as (? & ? & ? & -> & H). by intros [= <-].
  - destruct (getPhoneNumber_wf dn cd m Hwf) as (? & ? & ->).
    by intros [= <-].
  - destruct (removeNumber_wf dn cd m Hwf)
      as (? & ? & ? & -> & H). by intros [= <-].
  - destruct (listNumbersInDirectory_wf dn m Hwf) as (? & ->).
    by intros [= <-].
  - destruct (listAllDirectoryNames_total m) as (? & ->). by intros [= <-].
  - destruct (freeSpeedDialManager_wf m Hwf) as (? & ? & -> & H & _). by intros [= <-].
Qed.

Lemma afterAll_wf cs m m' : wf m → afterAll cs m = Some m' → wf m'.
Proof.
  revert m. induction cs as [|c cs IH]; intros m Hwf; simpl.
  - by intros [= <-].
  - destruct (after c m) as [m1|] eqn:E; [|done]. simpl.
    apply IH. by eapply after_wf.
Qed.

Lemma reachable_wf m : reachable m → wf m.
Proof. intros [cs H]. eapply afterAll_wf; [apply wf_manager0|done]. Qed.

(** ** The operations in terms of the contents of the named directory *)

Lemma ready_resolved m dn d :
  ready m → directoryNamed m dn = Some d →
  ∃ k blk, findDirectory m dn = Z.of_nat k ∧ directories m !! k = Some d ∧
           holds d blk (contents d).
Proof.
  intros [[_ Hwf] Hinit] Hd.
  apply directoryNamed_Some in Hd as (k & Hf & Hk & _).
  specialize (Hwf Hinit). rewrite Forall_lookup in Hwf.
  destruct (Hwf k d Hk) as (blk & es & Hh).
  exists k, blk. by rewrite (holds_contents d blk es Hh).
Qed.

Lemma directoryNamed_insert m k d d' dn b :
  findDirectory m dn = Z.of_nat k → directories m !! k = Some d → name d' = name d →
  directoryNamed {| directories := <[k := d']> (directories m); initialized := b |} dn
  = Some d'.
Proof.
  intros Hf Hk Hn. unfold directoryNamed, findDirectory in *. simpl.
  rewrite (findDirectoryFrom_names _ (directories m)) by (by eapply names_insert).
  rewrite Hf. destruct (Z.eqb_spec (Z.of_nat k) (-1)); [lia|].
  rewrite Nat2Z.id. apply list_lookup_insert_eq. by eapply lookup_lt_Some.
Qed.

Lemma ready_insert m k d d' :
  ready m → directories m !! k = Some d → wf_directory d' →
  ready {| directories := <[k := d']> (directories m); initialized := true |}.
Proof. intros [Hwf Hinit] Hk Hd'. split; [by eapply wf_insert|done]. Qed.

Lemma addNumber_full m dn d code phone :
  ready m → directoryNamed m dn = Some d →
  (MAX_NUMBERS_PER_DIRECTORY ≤ currentCount d)%Z →
  addNumber dn code phone m =
  Some (false, [Print (MsgDirectoryFull dn MAX_NUMBERS_PER_DIRECTORY)], m).
Proof.
  intros Hr Hd Hfull. destruct (ready_resolved m dn d Hr Hd) as (k & blk & Hf & Hk & Hh).
  rewrite (addNumber_resolved m dn k d blk _ (proj2 Hr) Hf Hk Hh).
  destruct (Z.geb_spec (currentCount d) MAX_NUMBERS_PER_DIRECTORY); [done|lia].
Qed.

Lemma addNumber_duplicate m dn d code phone :
  ready m → directoryNamed m dn = Some d →
  (currentCount d < MAX_NUMBERS_PER_DIRECTORY)%Z →
  Exists (hasCode code) (contents d) →
  addNumber dn code phone m = Some (false, [Print (MsgDuplicateCode code dn)], m).
Proof.
  intros Hr Hd Hroom Hdup. destruct (ready_resolved m dn d Hr Hd) as (k & blk & Hf & Hk & Hh).
  rewrite (addNumber_resolved m dn k d blk _ (proj2 Hr) Hf Hk Hh).
  destruct (Z.geb_spec (currentCount d) MAX_NUMBERS_PER_DIRECTORY); [lia|].
  destruct (Z.eqb_spec (firstIndex code (contents d)) (-1)) as [Habs|]; [|done].
  apply firstIndex_absent in Habs. apply Exists_exists in Hdup as (e & He & Hc).
  rewrite Forall_forall in Habs. by destruct (Habs e He).
Qed.

Lemma addNumber_fresh m dn d code phone :
  ready m → directoryNamed m dn = Some d →
  (currentCount d < MAX_NUMBERS_PER_DIRECTORY)%Z →
  Forall (λ e, speedDialCode e ≠ code) (contents d) →
  ∃ m' d',
    addNumber dn code phone m = Some (true, [Print (MsgAdded code phone dn)], m') ∧
    ready m' ∧ directoryNamed m' dn = Some d' ∧
    contents d' = contents d ++ [storedEntry code phone] ∧
    currentCount d' = (currentCount d + 1)%Z.
Proof.
  intros Hr Hd Hroom Hfresh.
  destruct (ready_resolved m dn d Hr Hd) as (k & blk & Hf & Hk & Hh).
  rewrite (addNumber_resolved m dn k d blk _ (proj2 Hr) Hf Hk Hh).
  destruct (Z.geb_spec (currentCount d) MAX_NUMBERS_PER_DIRECTORY); [lia|].
  apply firstIndex_absent in Hfresh. rewrite Hfresh. simpl.
  pose proof (holds_added d blk _ code phone Hh Hroom) as Hh'.
  do 2 eexists. split; [done|]. split_and!.
  - eapply ready_insert; [done..|]. by do 2 eexists.
  - by eapply directoryNamed_insert.
  - by apply holds_contents in Hh'.
  - done.
Qed.

(** What a successful [addNumber] tells about the manager it was called on. *)
Lemma addNumber_true_inv m dn code phone evs m' :
  ready m → addNumber dn code phone m = Some (true, evs, m') →
  ∃ d, directoryNamed m dn = Some d ∧
       (currentCount d < MAX_NUMBERS_PER_DIRECTORY)%Z ∧
       Forall (λ e, speedDialCode e ≠ code) (contents d).
Proof.
  intros Hr Hadd. destruct Hr as [Hwf Hinit].
  destruct (wf_resolve m dn Hwf Hinit) as [Hf|(k & d & blk & es & Hf & Hk & Hn & Hh)].
  - unfold addNumber in Hadd. rewrite Hinit, Hf in Hadd. simpl in Hadd. done.
  - rewrite (addNumber_resolved m dn k d blk es Hinit Hf Hk Hh) in Hadd.
    exists d. split; [by eapply directoryNamed_resolved|].
    rewrite (holds_contents d blk es Hh).
    destruct (Z.geb_spec (currentCount d) MAX_NUMBERS_PER_DIRECTORY); [done|].
    split; [done|].
    destruct (Z.eqb_spec (firstIndex code es) (-1)) as [Habs|]; [|done].
    by apply firstIndex_absent.
Qed.

Lemma getPhoneNumber_found m dn d code i e :
  ready m → directoryNamed m dn = Some d →
  contents d !! i = Some e → speedDialCode e = code →
  (∀ j e', j < i → contents d !! j = Some e' → speedDialCode e' ≠ code) →
  getPhoneNumber dn code m =
  Some (Some (phoneNumber e), [Print (MsgRetrieved code dn (phoneNumber e))], m).
Proof.
  intros Hr Hd He Hc Hfirst.
  destruct (ready_resolved m dn d Hr Hd) as (k & blk & Hf & Hk & Hh).
  rewrite (getPhoneNumber_resolved m dn k d blk _ (proj2 Hr) Hf Hk Hh).
  assert (list_find (hasCode code) (contents d) = Some (i, e)) as ->; [|done].
  apply list_find_Some. repeat split; [done..|]. intros j y Hy Hj. by eapply Hfirst.
Qed.

Lemma getPhoneNumber_absent m dn d code :
  ready m → directoryNamed m dn = Some d →
  Forall (λ e, speedDialCode e ≠ code) (contents d) →
  getPhoneNumber dn code m = Some (None, [Print (MsgCodeNotFound code dn)], m).
Proof.
  intros Hr Hd Habs.
  destruct (ready_resolved m dn d Hr Hd) as (k & blk & Hf & Hk & Hh).
  rewrite (getPhoneNumber_resolved m dn k d blk _ (proj2 Hr) Hf Hk Hh).
  assert (list_find (hasCode code) (contents d) = None) as ->; [|done].
  by apply list_find_None.
Qed.

Lemma removeNumber_found m dn d code i e :
  ready m → directoryNamed m dn = Some d →
  contents d !! i = Some e → speedDialCode e = code →
  (∀ j e', j < i → contents d !! j = Some e' → speedDialCode e' ≠ code) →
  ∃ m' d',
    removeNumber dn code m =
      Some (true, [Print (MsgRemoved (speedDialCode e) (phoneNumber e) dn)], m') ∧
    ready m' ∧ directoryNamed m' dn = Some d' ∧
    contents d' = delete i (contents d) ∧
    currentCount d' = (currentCount d - 1)%Z.
Proof.
  intros Hr Hd He Hc Hfirst.
  destruct (ready_resolved m dn d Hr Hd) as (k & blk & Hf & Hk & Hh).
  rewrite (removeNumber_resolved m dn k d blk _ (proj2 Hr) Hf Hk Hh).
  assert (list_find (hasCode code) (contents d) = Some (i, e)) as ->.
  { apply list_find_Some. repeat split; [done..|]. intros j y Hy Hj. by eapply Hfirst. }
  pose proof (holds_removed d blk _ i e Hh He) as Hh'.
  do 2 eexists. split; [done|]. split_and!.
  - eapply ready_insert; [done..|]. by do 2 eexists.
  - by eapply directoryNamed_insert.
  - by apply holds_contents in Hh'.
  - done.
Qed.

Lemma removeNumber_absent m dn d code :
  ready m → directoryNamed m dn = Some d →
  Forall (λ e, speedDialCode e ≠ code) (contents d) →
  removeNumber dn code m = Some (false, [Print (MsgNothingRemoved code dn)], m).
Proof.
  intros Hr Hd Habs.
  destruct (ready_resolved m dn d Hr Hd) as (k & blk & Hf & Hk & Hh).
  rewrite (removeNumber_resolved m dn k d blk _ (proj2 Hr) Hf Hk Hh).
  assert (list_find (hasCode code) (contents d) = None) as ->; [|done].
  by apply list_find_None.
Qed.

(** What a successful [removeNumber] tells about the manager it was called on. *)
Lemma removeNumber_true_inv m dn code evs m' :
  ready m → removeNumber dn code m = Some (true, evs, m') →
  ∃ d i e, directoryNamed m dn = Some d ∧ contents d !! i = Some e ∧
           speedDialCode e = code ∧
           ∀ j e', j < i → contents d !! j = Some e' → speedDialCode e' ≠ code.
Proof.
  intros [Hwf Hinit] Hrem.
  destruct (wf_resolve m dn Hwf Hinit) as [Hf|(k & d & blk & es & Hf & Hk & Hn & Hh)].
  - unfold removeNumber in Hrem. rewrite Hinit, Hf in Hrem. simpl in Hrem. done.
  - rewrite (removeNumber_resolved m dn k d blk es Hinit Hf Hk Hh) in Hrem.
    destruct (list_find (hasCode code) es) as [[i e]|] eqn:E; [|done].
    apply list_find_Some in E as (H1 & H2 & H3).
    exists d, i, e. rewrite (holds_contents d blk es Hh).
    split; [by eapply directoryNamed_resolved|]. repeat split; [done..|].
    intros j e' Hj He'. by eapply H3.
Qed.

(** A first initialization whose allocations all succeed leaves a ready
    manager of [MAX_DIRECTORIES] empty directories, named in order. *)
Lemma initializeSpeedDialManager_ok mallocOk m :
  wf m → initialized m = false →
  (∀ i, i < Z.to_nat MAX_DIRECTORIES → mallocOk i = true) →
  ∃ m',
    initializeSpeedDialManager mallocOk m
    = Some (Returned tt,
            Print (MsgInitializing MAX_DIRECTORIES)
              :: ((λ j, Malloc j true) <$> seq 0 (Z.to_nat MAX_DIRECTORIES))
              ++ [Print MsgInitialized],
            m') ∧
    ready m' ∧
    name <$> directories m'
      = (λ j, directoryNameOf (Z.of_nat j + 1)) <$> seq 0 (Z.to_nat MAX_DIRECTORIES) ∧
    Forall (λ d, contents d = []) (directories m').
Proof.
  intros [Hlen _] Hinit Hok. unfold initializeSpeedDialManager. rewrite Hinit.
  pose proof (initDirectoriesFrom_all_ok mallocOk (directories m) 0) as Hall.
  destruct (initDirectoriesFrom mallocOk (directories m) 0) as [[evs dirs'] ok] eqn:E.
  simpl in Hall. rewrite Hall by (intros j Hj; apply Hok; lia). rewrite Hall in E
    by (intros j Hj; apply Hok; lia).
  apply initDirectoriesFrom_ok in E as (H1 & H2 & H3 & H4 & ->).
  rewrite Hlen in *. eexists. split; [done|]. split_and!; simpl.
  - split; [split; simpl; [done|done]|done].
  - done.
  - rewrite Forall_forall in H2, H3. apply Forall_forall. intros d Hd.
    unfold contents. destruct (entries d); [|done]. by rewrite (H3 d Hd).
Qed.

(** [listNumbersInDirectory] prints the contents of the named directory, in
    order. *)
Lemma listNumbersInDirectory_contents m dn d :
  ready m → directoryNamed m dn = Some d →
  listNumbersInDirectory dn m =
  Some (tt,
        Print (MsgListHeader dn (currentCount d) MAX_NUMBERS_PER_DIRECTORY)
          :: match contents d with
             | [] => [Print MsgDirectoryEmpty]
             | es => (λ e, Print (MsgListEntry (speedDialCode e) (phoneNumber e))) <$> es
             end,
        m).
Proof.
  intros Hr Hd. destruct (ready_resolved m dn d Hr Hd) as (k & blk & Hf & Hk & Hh).
  rewrite (listNumbersInDirectory_resolved m dn k d blk _ (proj2 Hr) Hf Hk Hh).
  by destruct (contents d).
Qed.

(** A refused [addNumber] or [removeNumber] leaves the manager as it was. *)
Lemma addNumber_false_unchanged dn code phone m evs m' :
  addNumber dn code phone m = Some (false, evs, m') → m' = m.
Proof.
  unfold addNumber. intros Hrun.
  repeat (simplify_option_eq || case_match); done.
Qed.

Lemma removeNumber_false_unchanged dn code m evs m' :
  removeNumber dn code m = Some (false, evs, m') → m' = m.
Proof.
  unfold removeNumber. intros Hrun.
  repeat (simplify_option_eq || case_match); done.
Qed.

(** No call of a program runs into undefined behaviour. *)
Lemma reachable_defined c m : reachable m → defined c m.
Proof. intros Hm. by apply wf_defined, reachable_wf. Qed.

(** Codes that fit their buffer stay pairwise distinct. *)
Lemma addNumber_keeps_codes_distinct m dn d code phone evs m' d' :
  ready m → directoryNamed m dn = Some d →
  NoDup (speedDialCode <$> contents d) →
  String.length code < MAX_CODE_LENGTH →
  addNumber dn code phone m = Some (true, evs, m') →
  directoryNamed m' dn = Some d' →
  NoDup (speedDialCode <$> contents d').
Proof.
  intros Hr Hd Hnd Hlen Hadd Hd'.
  destruct (addNumber_true_inv m dn code phone evs m' Hr Hadd) as (d0 & Hd0 & Hroom & Hfresh).
  assert (d0 = d) as -> by congruence.
  destruct (addNumber_fresh m dn d code phone Hr Hd Hroom Hfresh)
    as (m1 & d1 & Hadd1 & _ & Hd1 & Hc1 & _).
  rewrite Hadd1 in Hadd. injection Hadd as _ <-.
  assert (d1 = d') as -> by congruence.
  rewrite Hc1, fmap_app. apply NoDup_app. split; [done|]. split.
  - intros c Hc. simpl. unfold strncpy_terminated.
    rewrite strprefix_short by (unfold MAX_CODE_LENGTH in *; simpl; lia).
    intros Hin%list_elem_of_singleton. subst c.
    apply list_elem_of_fmap in Hc as (e & He & Hin).
    rewrite Forall_forall in Hfresh. by eapply Hfresh.
  - apply NoDup_singleton.
Qed.

(** ** The concrete runs *)

Lemma readyManager_initialized :
  initializeSpeedDialManager (λ _, true) manager0 =
  Some (Returned tt,
        Print (MsgInitializing MAX_DIRECTORIES)
          :: ((λ j, Malloc j true) <$> seq 0 (Z.to_nat MAX_DIRECTORIES))
          ++ [Print MsgInitialized],
        readyManager).
Proof. reflexivity. Qed.

Lemma readyManager_reachable : reachable readyManager.
Proof. by exists [CallInitialize (λ _, true)]. Qed.

Lemma readyManager_ready : ready readyManager.
Proof. split; [apply reachable_wf, readyManager_reachable|done]. Qed.

Lemma fullManager_filled : afterAll fillCalls readyManager = Some fullManager.
Proof. vm_compute. reflexivity. Qed.

Lemma fullManager_reachable : reachable fullManager.
Proof.
  exists (CallInitialize (λ _, true) :: fillCalls).
  change (afterAll fillCalls readyManager = Some fullManager).
  apply fullManager_filled.
Qed.

Lemma fullManager_ready : ready fullManager.
Proof. split; [apply reachable_wf, fullManager_reachable|]. vm_compute. reflexivity. Qed.

Lemma demoManager_ready : ready demoManager.
Proof.
  split; [|by vm_compute]. apply reachable_wf.
  exists (CallInitialize (λ _, true) :: demoCalls). by vm_compute.
Qed.

Lemma twiceAdded_reachable : reachable twiceAdded.
Proof.
  exists [CallInitialize (λ _, true);
          CallAdd "Directory 1" longCode "111";
          CallAdd "Directory 1" longCode "222"].
  by vm_compute.
Qed.

(** Each cause of refusal occurs: the four of [addNumber], the three of
    [getPhoneNumber] and the three of [removeNumber]. *)
Example refusal_causes :
  addNumber "Directory 1" "home" "1" manager0
    = Some (false, [Print MsgNotInitialized], manager0) ∧
  addNumber "Directory 6" "test" "000-000-0000" demoManager
    = Some (false, [Print (MsgAddNoDirectory "Directory 6")], demoManager) ∧
  addNumber "Directory 3" "overflow" "999-999-9999" fullManager
    = Some (false,
            [Print (MsgDirectoryFull "Directory 3" MAX_NUMBERS_PER_DIRECTORY)],
            fullManager) ∧
  addNumber "Directory 1" "home" "123-999-8888" demoManager
    = Some (false, [Print (MsgDuplicateCode "home" "Directory 1")], demoManager) ∧
  getPhoneNumber "Directory 1" "mom" manager0
    = Some (None, [Print MsgNotInitialized], manager0) ∧
  getPhoneNumber "Directory 7" "any" demoManager
    = Some (None, [Print (MsgGetNoDirectory "Directory 7")], demoManager) ∧
  getPhoneNumber "Directory 1" "dad" demoManager
    = Some (None, [Print (MsgCodeNotFound "dad" "Directory 1")], demoManager) ∧
  removeNumber "Directory 1" "work" manager0
    = Some (false, [Print MsgNotInitialized], manager0) ∧
  removeNumber "Directory 6" "any" demoManager
    = Some (false, [Print (MsgRemoveNoDirectory "Directory 6")], demoManager) ∧
  removeNumber "Directory 2" "nonexistent" demoManager
    = Some (false, [Print (MsgNothingRemoved "nonexistent" "Directory 2")], demoManager).
Proof.
  repeat split; by vm_compute.
Qed.

(** A code of exactly [MAX_CODE_LENGTH] characters does not fit its buffer
    together with the terminator: it is stored cut to [MAX_CODE_LENGTH - 1]
    characters, and looking it up afterwards finds nothing. *)
Example code_of_fifty_characters_is_cut :
  String.length "office-reception-desk-second-floor-north-wing-exte" = MAX_CODE_LENGTH ∧
  ∃ m',
    addNumber "Directory 1" "office-reception-desk-second-floor-north-wing-exte" "111"
      readyManager
    = Some (true,
            [Print (MsgAdded "office-reception-desk-second-floor-north-wing-exte" "111"
                      "Directory 1")],
            m') ∧
    getPhoneNumber "Directory 1" "office-reception-desk-second-floor-north-wing-exte" m'
    = Some (None,
            [Print (MsgCodeNotFound "office-reception-desk-second-floor-north-wing-exte"
                      "Directory 1")],
            m').
Proof. split; [by vm_compute|]. eexists. split; by vm_compute. Qed.

(** * The claims *)

(** C1 (uniqueness of codes): the run that breaks it.  From the manager
    after initialization, [addNumber ("Directory 1", longCode, "111")] and
    then [addNumber ("Directory 1", longCode, "222")] both return [true]:
    the second call compares the sixty characters of [longCode] with the
    forty-nine characters stored by the first, finds no equal code, and
    stores the same forty-nine characters again, so "Directory 1" then
    holds two entries with one code. *)
Theorem C1_cut_code_is_stored_twice :
  reachable twiceAdded ∧
  addNumber "Directory 1" longCode "111" readyManager
    = Some (true, [Print (MsgAdded longCode "111" "Directory 1")], onceAdded) ∧
  addNumber "Directory 1" longCode "222" onceAdded
    = Some (true, [Print (MsgAdded longCode "222" "Directory 1")], twiceAdded) ∧
  listing twiceAdded "Directory 1"
    = [ {| speedDialCode := cutCode; phoneNumber := "111" |};
        {| speedDialCode := cutCode; phoneNumber := "222" |} ].
Proof.
  split; [exact twiceAdded_reachable|].
  split; [by vm_compute|]. split; by vm_compute.
Qed.

(** C2 (capacity).  On a ready manager whose named directory holds
    [MAX_NUMBERS_PER_DIRECTORY] entries, every [addNumber] into it reports
    that the directory is full, whatever the code (the capacity test comes
    before the scan for the code) and changes nothing.  After one successful
    [removeNumber] from it the directory has room for one entry: adding any
    code that is not stored succeeds, a refused [addNumber] changes nothing,
    and after any successful [addNumber] every further [addNumber] reports
    that the directory is full. *)
Theorem C2_full_directory (m : SpeedDialManager) (dn : string) (d : Directory) :
  ready m → directoryNamed m dn = Some d →
  currentCount d = MAX_NUMBERS_PER_DIRECTORY →
  (∀ code phone,
     addNumber dn code phone m
     = Some (false, [Print (MsgDirectoryFull dn MAX_NUMBERS_PER_DIRECTORY)], m)) ∧
  (∀ code evs m1,
     removeNumber dn code m = Some (true, evs, m1) →
     ∃ d1,
       directoryNamed m1 dn = Some d1 ∧
       currentCount d1 = (MAX_NUMBERS_PER_DIRECTORY - 1)%Z ∧
       (∀ c1 p1,
          Forall (λ e, speedDialCode e ≠ c1) (contents d1) →
          ∃ m2, addNumber dn c1 p1 m1 = Some (true, [Print (MsgAdded c1 p1 dn)], m2)) ∧
       (∀ c1 p1 evs1 m2,
          addNumber dn c1 p1 m1 = Some (false, evs1, m2) → m2 = m1) ∧
       (∀ c1 p1 evs1 m2,
          addNumber dn c1 p1 m1 = Some (true, evs1, m2) →
          ∀ c2 p2,
            addNumber dn c2 p2 m2
            = Some (false, [Print (MsgDirectoryFull dn MAX_NUMBERS_PER_DIRECTORY)], m2))).
Proof.
  intros Hr Hd Hfull. split.
  - intros code phone. apply (addNumber_full m dn d); [done..|lia].
  - intros code evs m1 Hrem.
    destruct (removeNumber_true_inv m dn code evs m1 Hr Hrem)
      as (d0 & i & e & Hd0 & He & Hc & Hfirst).
    assert (d0 = d) as -> by congruence.
    destruct (removeNumber_found m dn d code i e Hr Hd He Hc Hfirst)
      as (m1' & d1 & Hrem' & Hr1 & Hd1 & _ & Hcount1).
    rewrite Hrem' in Hrem. injection Hrem as _ <-.
    exists d1. split; [done|]. split; [lia|]. split_and!.
    + intros c1 p1 Hfresh.
      destruct (addNumber_fresh m1' dn d1 c1 p1 Hr1 Hd1) as (m2 & _ & Hadd & _);
        [lia|done|eauto].
    + intros c1 p1 evs1 m2 Hadd. by eapply addNumber_false_unchanged.
    + intros c1 p1 evs1 m2 Hadd c2 p2.
      destruct (addNumber_true_inv m1' dn c1 p1 evs1 m2 Hr1 Hadd)
        as (d1' & Hd1' & Hroom & Hfresh).
      assert (d1' = d1) as -> by congruence.
      destruct (addNumber_fresh m1' dn d1 c1 p1 Hr1 Hd1 Hroom Hfresh)
        as (m2' & d2 & Hadd' & Hr2 & Hd2 & _ & Hcount2).
      rewrite Hadd' in Hadd. injection Hadd as _ <-.
      apply (addNumber_full m2' dn d2); [done..|lia].
Qed.

Lemma C2_full_directory_witness :
  ready fullManager ∧
  directoryNamed fullManager "Directory 3" = Some fullDirectory ∧
  currentCount fullDirectory = MAX_NUMBERS_PER_DIRECTORY ∧
  addNumber "Directory 3" "contact7" "999-999-9999" fullManager
  = Some (false,
          [Print (MsgDirectoryFull "Directory 3" MAX_NUMBERS_PER_DIRECTORY)],
          fullManager) ∧
  ∃ m1 m2,
    removeNumber "Directory 3" "contact7" fullManager
    = Some (true, [Print (MsgRemoved "contact7" "000-000-7" "Directory 3")], m1) ∧
    addNumber "Directory 3" "overflow" "999-999-9999" m1
    = Some (true, [Print (MsgAdded "overflow" "999-999-9999" "Directory 3")], m2) ∧
    addNumber "Directory 3" "one-more" "555" m2
    = Some (false,
            [Print (MsgDirectoryFull "Directory 3" MAX_NUMBERS_PER_DIRECTORY)],
            m2).
Proof.
  assert (Hd : directoryNamed fullManager "Directory 3" = Some fullDirectory)
    by (vm_compute; reflexivity).
  assert (Hc : currentCount fullDirectory = MAX_NUMBERS_PER_DIRECTORY)
    by (vm_compute; reflexivity).
  pose proof (C2_full_directory fullManager "Directory 3" fullDirectory
                fullManager_ready Hd Hc) as [Hfull Hone].
  split; [exact fullManager_ready|]. split; [exact Hd|]. split; [exact Hc|].
  split; [exact (Hfull "contact7" "999-999-9999")|].
  set (m1 := managerAfter (removeNumber "Directory 3" "contact7" fullManager) fullManager).
  set (m2 := managerAfter (addNumber "Directory 3" "overflow" "999-999-9999" m1) m1).
  assert (Hrem : removeNumber "Directory 3" "contact7" fullManager
                 = Some (true, [Print (MsgRemoved "contact7" "000-000-7" "Directory 3")], m1))
    by (vm_compute; reflexivity).
  assert (Hadd : addNumber "Directory 3" "overflow" "999-999-9999" m1
                 = Some (true, [Print (MsgAdded "overflow" "999-999-9999" "Directory 3")], m2))
    by (vm_compute; reflexivity).
  exists m1, m2. split; [exact Hrem|]. split; [exact Hadd|].
  destruct (Hone "contact7" _ m1 Hrem) as (d1 & _ & _ & _ & _ & Hthen).
  exact (Hthen "overflow" "999-999-9999" _ m2 Hadd "one-more" "555").
Defined.




(** Removal of the first match.  On a ready manager, when the first entry of the
    named directory with the code is at position [i], [removeNumber] deletes
    that entry: the entries before [i] stay where they are, every entry after
    [i] moves one position left, in the same order, and the count drops by
    one; if no entry after [i] has the code, a second [removeNumber] of it
    reports that the code is not found.  When no entry of the directory has
    the code, [removeNumber] reports that the code is not found and leaves
    the whole manager as it was. *)
Lemma removeNumber_first_match (m : SpeedDialManager) (dn code : string) (d : Directory) :
  ready m → directoryNamed m dn = Some d →
  (∀ i e,
     contents d !! i = Some e → speedDialCode e = code →
     (∀ j e', j < i → contents d !! j = Some e' → speedDialCode e' ≠ code) →
     ∃ m' d',
       removeNumber dn code m
         = Some (true, [Print (MsgRemoved code (phoneNumber e) dn)], m') ∧
       ready m' ∧
       directoryNamed m' dn = Some d' ∧
       contents d' = delete i (contents d) ∧
       (∀ j, j < i → contents d' !! j = contents d !! j) ∧
       (∀ j, i ≤ j → contents d' !! j = contents d !! S j) ∧
       currentCount d' = (currentCount d - 1)%Z ∧
       length (contents d') = length (contents d) - 1 ∧
       (Forall (λ e', speedDialCode e' ≠ code) (drop (S i) (contents d)) →
        removeNumber dn code m'
          = Some (false, [Print (MsgNothingRemoved code dn)], m'))) ∧
  (Forall (λ e, speedDialCode e ≠ code) (contents d) →
   removeNumber dn code m = Some (false, [Print (MsgNothingRemoved code dn)], m)).
Proof.
  intros Hr Hd. split.
  - intros i e He Hc Hfirst.
    destruct (removeNumber_found m dn d code i e Hr Hd He Hc Hfirst)
      as (m' & d' & Hrem & Hr' & Hd' & Hc' & Hcount).
    exists m', d'. rewrite Hc in Hrem. split_and!; try done.
    + intros j Hj. rewrite Hc'. by apply list_lookup_delete_lt.
    + intros j Hj. rewrite Hc'. by apply list_lookup_delete_ge.
    + rewrite Hc'. apply length_delete. eauto.
    + intros Hlater. apply (removeNumber_absent m' dn d'); [done..|].
      rewrite Hc', delete_take_drop. apply Forall_app. split; [|done].
      apply Forall_lookup. intros j e' Hj.
      apply lookup_take_Some in Hj as [Hj Hlt]. by eapply Hfirst.
  - intros Habs. by apply (removeNumber_absent m dn d).
Qed.

(** The removal of "work" from the directory of the demonstration. *)
Lemma removeNumber_first_match_demo :
  ready demoManager ∧
  directoryNamed demoManager "Directory 1" = Some demoDirectory ∧
  contents demoDirectory
    = [ {| speedDialCode := "home"; phoneNumber := "123-456-7890" |};
        {| speedDialCode := "work"; phoneNumber := "987-654-3210" |};
        {| speedDialCode := "mom"; phoneNumber := "555-111-2222" |} ] ∧
  ∃ m' d',
    removeNumber "Directory 1" "work" demoManager
      = Some (true, [Print (MsgRemoved "work" "987-654-3210" "Directory 1")], m') ∧
    directoryNamed m' "Directory 1" = Some d' ∧
    contents d'
      = [ {| speedDialCode := "home"; phoneNumber := "123-456-7890" |};
          {| speedDialCode := "mom"; phoneNumber := "555-111-2222" |} ] ∧
    currentCount d' = (currentCount demoDirectory - 1)%Z ∧
    removeNumber "Directory 1" "work" m'
      = Some (false, [Print (MsgNothingRemoved "work" "Directory 1")], m').
Proof.
  assert (Hd : directoryNamed demoManager "Directory 1" = Some demoDirectory)
    by (vm_compute; reflexivity).
  assert (Hc : contents demoDirectory
               = [ {| speedDialCode := "home"; phoneNumber := "123-456-7890" |};
                   {| speedDialCode := "work"; phoneNumber := "987-654-3210" |};
                   {| speedDialCode := "mom"; phoneNumber := "555-111-2222" |} ])
    by (vm_compute; reflexivity).
  split; [exact demoManager_ready|]. split; [exact Hd|]. split; [exact Hc|].
  destruct (proj1 (removeNumber_first_match demoManager "Directory 1" "work" demoDirectory
                     demoManager_ready Hd)
              1 {| speedDialCode := "work"; phoneNumber := "987-654-3210" |})
    as (m' & d' & Hrem & _ & Hd' & Hc' & _ & _ & Hcount & _ & Hagain).
  - rewrite Hc. reflexivity.
  - reflexivity.
  - rewrite Hc. intros [|j] e'; [|lia]. intros _ [= <-]. vm_compute. intros [=].
  - exists m', d'. split; [exact Hrem|]. split; [exact Hd'|].
    split; [rewrite Hc', Hc; reflexivity|]. split; [exact Hcount|].
    apply Hagain. rewrite Hc. simpl.
    constructor; [vm_compute; intros [=]|constructor].
Defined.

(** Removal where the codes are distinct.  On a ready manager whose named
    directory holds pairwise distinct codes, [removeNumber] of the code of
    the entry at position [i], whatever [i] is, deletes exactly that entry,
    keeps the entries before it, moves the later ones one position left and
    drops the count by one; a second [removeNumber] of the code then reports
    that the code is not found. *)
Lemma removeNumber_distinct_codes
    (m : SpeedDialManager) (dn : string) (d : Directory) (i : nat) (e : SpeedDialEntry) :
  ready m → directoryNamed m dn = Some d →
  NoDup (speedDialCode <$> contents d) →
  contents d !! i = Some e →
  ∃ m' d',
    removeNumber dn (speedDialCode e) m
      = Some (true, [Print (MsgRemoved (speedDialCode e) (phoneNumber e) dn)], m') ∧
    ready m' ∧
    directoryNamed m' dn = Some d' ∧
    contents d' = delete i (contents d) ∧
    (∀ j, j < i → contents d' !! j = contents d !! j) ∧
    (∀ j, i ≤ j → contents d' !! j = contents d !! S j) ∧
    currentCount d' = (currentCount d - 1)%Z ∧
    length (contents d') = length (contents d) - 1 ∧
    removeNumber dn (speedDialCode e) m'
      = Some (false, [Print (MsgNothingRemoved (speedDialCode e) dn)], m').
Proof.
  intros Hr Hd Hnd He.
  assert (Hother : ∀ j e', j ≠ i → contents d !! j = Some e' →
                           speedDialCode e' ≠ speedDialCode e).
  { intros j e' Hji Hj Heq. apply Hji.
    eapply (NoDup_lookup _ j i (speedDialCode e) Hnd);
      rewrite list_lookup_fmap; [rewrite Hj|rewrite He]; simpl; congruence. }
  destruct (proj1 (removeNumber_first_match m dn (speedDialCode e) d Hr Hd) i e He eq_refl)
    as (m' & d' & Hrem & Hr' & Hd' & Hc' & Hbefore & Hafter & Hcount & Hlen & Hagain).
  { intros j e' Hj. apply Hother. lia. }
  exists m', d'. split_and!; try done.
  apply Hagain. apply Forall_lookup. intros j e' Hj.
  rewrite lookup_drop in Hj. apply (Hother (S i + j)); [lia|done].
Qed.

(** C4 (removal): the run that breaks it.  In "Directory 1" of
    [twiceAdded] (reached by adding [longCode] twice, which stores one code
    twice against the uniqueness the source documents) the entry at
    position 1 has the code [cutCode], yet [removeNumber] of that code
    deletes the entry at position 0 and keeps the one at position 1; a
    second [removeNumber] of the same code then succeeds again instead of
    reporting that the code is not found. *)
Theorem C4_later_duplicate_is_kept :
  reachable twiceAdded ∧
  listing twiceAdded "Directory 1"
    = [ {| speedDialCode := cutCode; phoneNumber := "111" |};
        {| speedDialCode := cutCode; phoneNumber := "222" |} ] ∧
  removeNumber "Directory 1" cutCode twiceAdded
    = Some (true, [Print (MsgRemoved cutCode "111" "Directory 1")], onceRemoved) ∧
  listing onceRemoved "Directory 1"
    = [ {| speedDialCode := cutCode; phoneNumber := "222" |} ] ∧
  listing onceRemoved "Directory 1" ≠ delete 1 (listing twiceAdded "Directory 1") ∧
  removeNumber "Directory 1" cutCode onceRemoved
    = Some (true, [Print (MsgRemoved cutCode "222" "Directory 1")], twiceRemoved).
Proof.
  split; [exact twiceAdded_reachable|].
  split; [by vm_compute|]. split; [by vm_compute|]. split; [by vm_compute|].
  split; [|by vm_compute]. vm_compute. intros [=].
Qed.

(** C5 (round trip).  When [addNumber] succeeds with a code and a number that
    fit their buffers together with the terminator (fewer than
    [MAX_CODE_LENGTH] and [MAX_PHONE_LENGTH] characters), [getPhoneNumber]
    with the same directory name and code then returns exactly that number.
    A successful [addNumber] already implies that the code was not present. *)
Theorem C5_add_then_get (m : SpeedDialManager) (dn code value : string)
    (evs : list Event) (m' : SpeedDialManager) :
  ready m →
  String.length code < MAX_CODE_LENGTH →
  String.length value < MAX_PHONE_LENGTH →
  addNumber dn code value m = Some (true, evs, m') →
  getPhoneNumber dn code m'
  = Some (Some value, [Print (MsgRetrieved code dn value)], m').
Proof.
  intros Hr Hcode Hvalue Hadd.
  destruct (addNumber_true_inv m dn code value evs m' Hr Hadd) as (d & Hd & Hroom & Hfresh).
  destruct (addNumber_fresh m dn d code value Hr Hd Hroom Hfresh)
    as (m1 & d' & Hadd' & Hr' & Hd' & Hc' & _).
  rewrite Hadd' in Hadd. injection Hadd as _ <-.
  assert (Hstored : storedEntry code value
                    = {| speedDialCode := code; phoneNumber := value |}).
  { unfold storedEntry, strncpy_terminated.
    rewrite !strprefix_short; [done|..]; unfold MAX_PHONE_LENGTH, MAX_CODE_LENGTH in *;
      simpl; lia. }
  rewrite Hstored in Hc'.
  apply (getPhoneNumber_found m1 dn d' code (length (contents d))
           {| speedDialCode := code; phoneNumber := value |}); try done.
  - rewrite Hc'. by apply list_lookup_middle.
  - intros j e' Hj. rewrite Hc', lookup_app_l by done. intros He'.
    rewrite Forall_forall in Hfresh. apply Hfresh.
    apply list_elem_of_lookup. eauto.
Qed.

Lemma C5_add_then_get_witness :
  ready readyManager ∧
  String.length "friend1" < MAX_CODE_LENGTH ∧
  String.length "111-222-3333" < MAX_PHONE_LENGTH ∧
  addNumber "Directory 2" "friend1" "111-222-3333" readyManager
    = Some (true, [Print (MsgAdded "friend1" "111-222-3333" "Directory 2")], friendAdded) ∧
  getPhoneNumber "Directory 2" "friend1" friendAdded
    = Some (Some "111-222-3333",
            [Print (MsgRetrieved "friend1" "Directory 2" "111-222-3333")],
            friendAdded).
Proof.
  assert (Hc : String.length "friend1" < MAX_CODE_LENGTH) by (vm_compute; lia).
  assert (Hv : String.length "111-222-3333" < MAX_PHONE_LENGTH) by (vm_compute; lia).
  assert (Ha : addNumber "Directory 2" "friend1" "111-222-3333" readyManager
               = Some (true, [Print (MsgAdded "friend1" "111-222-3333" "Directory 2")],
                       friendAdded)) by (vm_compute; reflexivity).
  split; [exact readyManager_ready|]. split; [exact Hc|]. split; [exact Hv|].
  split; [exact Ha|].
  exact (C5_add_then_get readyManager "Directory 2" "friend1" "111-222-3333" _ friendAdded
           readyManager_ready Hc Hv Ha).
Defined.

(** C6 (lifecycle gating).  While the manager is not initialized (before
    [initializeSpeedDialManager] or after [freeSpeedDialManager]), every
    operation other than the initialization reports that the manager is not
    initialized, returns its failure value ([false], [NULL], nothing) and
    leaves the whole manager as it was. *)
Theorem C6_not_initialized_rejected (m : SpeedDialManager) :
  initialized m = false →
  (∀ dn code phone,
     addNumber dn code phone m = Some (false, [Print MsgNotInitialized], m)) ∧
  (∀ dn code,
     getPhoneNumber dn code m = Some (None, [Print MsgNotInitialized], m)) ∧
  (∀ dn code,
     removeNumber dn code m = Some (false, [Print MsgNotInitialized], m)) ∧
  (∀ dn,
     listNumbersInDirectory dn m = Some (tt, [Print MsgNotInitialized], m)) ∧
  listAllDirectoryNames m = Some (tt, [Print MsgNotInitialized], m) ∧
  freeSpeedDialManager m = Some (tt, [Print MsgNotInitializedOrFreed], m).
Proof.
  intros Hinit.
  unfold addNumber, getPhoneNumber, removeNumber, listNumbersInDirectory,
    listAllDirectoryNames, freeSpeedDialManager.
  rewrite Hinit. by repeat split.
Qed.

Lemma C6_not_initialized_witness :
  initialized manager0 = false ∧
  addNumber "Directory 1" "home" "123-456-7890" manager0
  = Some (false, [Print MsgNotInitialized], manager0).
Proof.
  split; [reflexivity|].
  apply (C6_not_initialized_rejected manager0); reflexivity.
Defined.

(** C7 (second initialization).  On an initialized manager
    [initializeSpeedDialManager] allocates nothing, reports that the manager
    is already initialized and leaves every directory, name and entry as it
    was. *)
Theorem C7_second_initialize_rejected (mallocOk : nat → bool) (m : SpeedDialManager) :
  initialized m = true →
  initializeSpeedDialManager mallocOk m
  = Some (Returned tt, [Print MsgAlreadyInitialized], m).
Proof. intros Hinit. unfold initializeSpeedDialManager. by rewrite Hinit. Qed.

Lemma C7_second_initialize_witness :
  initialized readyManager = true ∧
  initializeSpeedDialManager (λ _, true) readyManager
  = Some (Returned tt, [Print MsgAlreadyInitialized], readyManager).
Proof.
  split; [reflexivity|].
  apply (C7_second_initialize_rejected (λ _, true) readyManager); reflexivity.
Defined.

(** C8 (teardown).  On an initialized manager [freeSpeedDialManager] calls
    [free] once for the block of each of the five directories, in order,
    leaves every [entries] pointer [NULL] and the manager not initialized; a
    second call then reports that the manager is not initialized, calls
    [free] for nothing and changes nothing. *)
Theorem C8_teardown_releases_once (m : SpeedDialManager) :
  ready m →
  ∃ m',
    freeSpeedDialManager m
    = Some (tt,
            Print MsgFreeing
              :: (Free <$> seq 0 (Z.to_nat MAX_DIRECTORIES)) ++ [Print MsgFreed],
            m') ∧
    initialized m' = false ∧
    Forall (λ d, entries d = None) (directories m') ∧
    freeSpeedDialManager m' = Some (tt, [Print MsgNotInitializedOrFreed], m').
Proof.
  intros [[Hlen Hwf] Hinit]. specialize (Hwf Hinit).
  unfold freeSpeedDialManager at 1. rewrite Hinit. simpl negb. cbv iota.
  rewrite freeDirectoriesFrom_spec.
  - rewrite Hlen. eexists. split; [done|]. split; [done|]. split.
    + simpl. apply Forall_fmap. by apply Forall_true.
    + done.
  - eapply Forall_impl; [exact Hwf|]. intros d (blk & es & Hb & _). by rewrite Hb.
Qed.

Lemma C8_teardown_witness :
  ready readyManager ∧
  ∃ m',
    freeSpeedDialManager readyManager
    = Some (tt,
            Print MsgFreeing
              :: (Free <$> seq 0 (Z.to_nat MAX_DIRECTORIES)) ++ [Print MsgFreed],
            m') ∧
    initialized m' = false ∧
    Forall (λ d, entries d = None) (directories m') ∧
    freeSpeedDialManager m' = Some (tt, [Print MsgNotInitializedOrFreed], m').
Proof.
  split; [exact readyManager_ready|].
  exact (C8_teardown_releases_once readyManager readyManager_ready).
Defined.

(** C9 (one failure value).  Whatever the cause reported, a refused
    [addNumber] returns [false], a refused [getPhoneNumber] returns [NULL] and
    a refused [removeNumber] returns [false]: two refused calls of the same
    function return the same value, also when their causes differ. *)
Theorem C9_error_causes_share_one_value :
  (∀ dn1 c1 p1 m1 r1 msg1 m1' dn2 c2 p2 m2 r2 msg2 m2',
     addNumber dn1 c1 p1 m1 = Some (r1, [Print msg1], m1') →
     addNumber dn2 c2 p2 m2 = Some (r2, [Print msg2], m2') →
     isError msg1 = true → isError msg2 = true →
     r1 = false ∧ r2 = false) ∧
  (∀ dn1 c1 m1 r1 msg1 m1' dn2 c2 m2 r2 msg2 m2',
     getPhoneNumber dn1 c1 m1 = Some (r1, [Print msg1], m1') →
     getPhoneNumber dn2 c2 m2 = Some (r2, [Print msg2], m2') →
     isError msg1 = true → isError msg2 = true →
     r1 = None ∧ r2 = None) ∧
  (∀ dn1 c1 m1 r1 msg1 m1' dn2 c2 m2 r2 msg2 m2',
     removeNumber dn1 c1 m1 = Some (r1, [Print msg1], m1') →
     removeNumber dn2 c2 m2 = Some (r2, [Print msg2], m2') →
     isError msg1 = true → isError msg2 = true →
     r1 = false ∧ r2 = false).
Proof.
  assert (Hadd : ∀ dn c p m r msg m',
    addNumber dn c p m = Some (r, [Print msg], m') → isError msg = true → r = false).
  { intros dn c p m r msg m'. unfold addNumber.
    intros Hrun Herr. repeat (simplify_option_eq || case_match); done. }
  assert (Hget : ∀ dn c m r msg m',
    getPhoneNumber dn c m = Some (r, [Print msg], m') → isError msg = true → r = None).
  { intros dn c m r msg m'. unfold getPhoneNumber.
    intros Hrun Herr. repeat (simplify_option_eq || case_match); done. }
  assert (Hrem : ∀ dn c m r msg m',
    removeNumber dn c m = Some (r, [Print msg], m') → isError msg = true → r = false).
  { intros dn c m r msg m'. unfold removeNumber.
    intros Hrun Herr. repeat (simplify_option_eq || case_match); done. }
  split_and!; intros; split; eauto.
Qed.

Lemma C9_error_causes_witness :
  addNumber "Directory 1" "home" "123" manager0
    = Some (false, [Print MsgNotInitialized], manager0) ∧
  addNumber "Directory 6" "test" "000-000-0000" readyManager
    = Some (false, [Print (MsgAddNoDirectory "Directory 6")], readyManager) ∧
  isError MsgNotInitialized = true ∧
  isError (MsgAddNoDirectory "Directory 6") = true ∧
  false = false ∧ false = false.
Proof.
  assert (H1 : addNumber "Directory 1" "home" "123" manager0
               = Some (false, [Print MsgNotInitialized], manager0)) by reflexivity.
  assert (H2 : addNumber "Directory 6" "test" "000-000-0000" readyManager
               = Some (false, [Print (MsgAddNoDirectory "Directory 6")], readyManager))
    by reflexivity.
  split; [exact H1|]. split; [exact H2|]. split; [reflexivity|]. split; [reflexivity|].
  exact (proj1 C9_error_causes_share_one_value _ _ _ _ _ _ _ _ _ _ _ _ _ _
           H1 H2 eq_refl eq_refl).
Defined.

(** C10 (frame of the operations).  A successful [addNumber] writes one slot
    only, the slot at the old count of the named directory: every other slot
    of that block, the name of the directory, and every other directory of
    the manager are as before, and the count grows by one.
    [getPhoneNumber], [listNumbersInDirectory] and [listAllDirectoryNames]
    leave the manager as it was, whatever they return. *)
Theorem C10_add_writes_one_slot (m : SpeedDialManager) :
  (∀ dn code phone evs m',
     addNumber dn code phone m = Some (true, evs, m') →
     ∃ k d blk d' blk',
       findDirectory m dn = Z.of_nat k ∧
       directories m !! k = Some d ∧ entries d = Some blk ∧
       directories m' !! k = Some d' ∧ entries d' = Some blk' ∧
       name d' = name d ∧
       currentCount d' = (currentCount d + 1)%Z ∧
       (0 ≤ currentCount d)%Z ∧
       blk' !! Z.to_nat (currentCount d) = Some (Some (storedEntry code phone)) ∧
       (∀ i, i ≠ Z.to_nat (currentCount d) → blk' !! i = blk !! i) ∧
       length blk' = length blk ∧
       (∀ j, j ≠ k → directories m' !! j = directories m !! j) ∧
       length (directories m') = length (directories m) ∧
       initialized m' = initialized m) ∧
  (∀ dn code r evs m', getPhoneNumber dn code m = Some (r, evs, m') → m' = m) ∧
  (∀ dn r evs m', listNumbersInDirectory dn m = Some (r, evs, m') → m' = m) ∧
  (∀ r evs m', listAllDirectoryNames m = Some (r, evs, m') → m' = m).
Proof.
  split_and!.
  - intros dn code phone evs m'. unfold addNumber.
    destruct (negb (initialized m)); [done|]. cbv zeta.
    destruct (findDirectoryFrom_cases (directories m) dn 0)
      as [[Hf _]|(k & d & Hf & Hk & _)]; fold (findDirectory m dn) in Hf; rewrite Hf.
    { done. }
    replace (0 + Z.of_nat k)%Z with (Z.of_nat k) by lia.
    destruct (Z.eqb_spec (Z.of_nat k) (-1)); [lia|].
    rewrite Nat2Z.id, Hk. simpl.
    destruct (currentCount d >=? MAX_NUMBERS_PER_DIRECTORY)%Z; [done|].
    destruct (findEntry d code) as [dup|]; [|done]. simpl.
    destruct (negb (dup =? -1)%Z); [done|].
    destruct (entries d) as [blk|] eqn:Hb; [|done]. simpl.
    case_bool_decide as Hrange; [|done]. intros [= <- <-].
    assert (Hlt : k < length (directories m)) by (by eapply lookup_lt_Some).
    exists k, d, blk.
    exists {| name := name d;
              entries := Some (<[Z.to_nat (currentCount d)
                                 := Some (storedEntry code phone)]> blk);
              currentCount := currentCount d + 1 |}.
    exists (<[Z.to_nat (currentCount d) := Some (storedEntry code phone)]> blk).
    simpl. split_and!; try done.
    + by apply list_lookup_insert_eq.
    + lia.
    + apply list_lookup_insert_eq. lia.
    + intros i Hi. by apply list_lookup_insert_ne.
    + by rewrite length_insert.
    + intros j Hj. by apply list_lookup_insert_ne.
    + by rewrite length_insert.
  - intros dn code r evs m'. unfold getPhoneNumber.
    intros Hrun. repeat (simplify_option_eq || case_match); done.
  - intros dn r evs m'. unfold listNumbersInDirectory.
    intros Hrun. repeat (simplify_option_eq || case_match); done.
  - intros r evs m'. unfold listAllDirectoryNames.
    intros Hrun. repeat (simplify_option_eq || case_match); done.
Qed.

Lemma C10_add_writes_one_slot_witness :
  ∃ k d blk d' blk',
    findDirectory readyManager "Directory 2" = Z.of_nat k ∧
    directories readyManager !! k = Some d ∧ entries d = Some blk ∧
    directories friendAdded !! k = Some d' ∧ entries d' = Some blk' ∧
    name d' = name d ∧
    currentCount d' = (currentCount d + 1)%Z ∧
    (0 ≤ currentCount d)%Z ∧
    blk' !! Z.to_nat (currentCount d)
      = Some (Some (storedEntry "friend1" "111-222-3333")) ∧
    (∀ i, i ≠ Z.to_nat (currentCount d) → blk' !! i = blk !! i) ∧
    length blk' = length blk ∧
    (∀ j, j ≠ k → directories friendAdded !! j = directories readyManager !! j) ∧
    length (directories friendAdded) = length (directories readyManager) ∧
    initialized friendAdded = initialized readyManager.
Proof.
  apply (proj1 (C10_add_writes_one_slot readyManager)
           "Directory 2" "friend1" "111-222-3333"
           [Print (MsgAdded "friend1" "111-222-3333" "Directory 2")]).
  vm_compute. reflexivity.
Defined.

(** * Further properties of the code *)

(** ** Steps of a run *)

(** What one returning call can do to a well-formed manager. *)
Lemma after_cases c m m' :
  wf m → after c m = Some m' →
  m' = m ∨
  (∃ ok evs dirs',
     c = CallInitialize ok ∧ initialized m = false ∧
     initDirectoriesFrom ok (directories m) 0 = (evs, dirs', true) ∧
     m' = {| directories := dirs'; initialized := true |}) ∨
  (c = CallFree ∧ initialized m = true ∧
   m' = {| directories :=
             (λ d, {| name := name d; entries := None;
                      currentCount := currentCount d |}) <$> directories m;
           initialized := false |}) ∨
  (∃ dn code phone k d blk es d' blk',
     c = CallAdd dn code phone ∧ initialized m = true ∧
     findDirectory m dn = Z.of_nat k ∧ directories m !! k = Some d ∧
     holds d blk es ∧ Forall (λ e, speedDialCode e ≠ code) es ∧
     holds d' blk' (es ++ [storedEntry code phone]) ∧ name d' = name d ∧
     m' = {| directories := <[k := d']> (directories m); initialized := true |}) ∨
  (∃ dn code k d blk es i e d' blk',
     c = CallRemove dn code ∧ initialized m = true ∧
     findDirectory m dn = Z.of_nat k ∧ directories m !! k = Some d ∧
     holds d blk es ∧ es !! i = Some e ∧ speedDialCode e = code ∧
     holds d' blk' (delete i es) ∧ name d' = name d ∧
     m' = {| directories := <[k := d']> (directories m); initialized := true |}).
Proof.
  intros Hwf. destruct c as [ok|dn cd ph|dn cd|dn cd|dn| |]; simpl.
  - unfold initializeSpeedDialManager. destruct (initialized m) eqn:Hinit.
    { intros [= <-]. by left. }
    destruct (initDirectoriesFrom ok (directories m) 0) as [[evs dirs'] b] eqn:E.
    destruct b; [|unfold freeSpeedDialManager; simpl; done].
    intros [= <-]. right. left. by exists ok, evs, dirs'.
  - destruct (initialized m) eqn:Hinit.
    + destruct (wf_resolve m dn Hwf Hinit) as [Hf|(k & d & blk & es & Hf & Hk & Hn & Hh)].
      * unfold addNumber. rewrite Hinit, Hf. simpl. intros [= <-]. by left.
      * rewrite (addNumber_resolved m dn k d blk es Hinit Hf Hk Hh).
        destruct (Z.geb_spec (currentCount d) MAX_NUMBERS_PER_DIRECTORY);
          [intros [= <-]; by left|].
        destruct (Z.eqb_spec (firstIndex cd es) (-1)) as [Habs|];
          [|intros [= <-]; by left].
        intros [= <-]. right. right. right. left.
        exists dn, cd, ph, k, d, blk, es.
        exists {| name := name d;
                  entries := Some (<[length es := Some (storedEntry cd ph)]> blk);
                  currentCount := currentCount d + 1 |},
          (<[length es := Some (storedEntry cd ph)]> blk).
        split_and!; try done.
        -- by apply firstIndex_absent.
        -- by apply holds_added.
    + unfold addNumber. rewrite Hinit. simpl. intros [= <-]. by left.
  - destruct (getPhoneNumber_wf dn cd m Hwf) as (? & ? & ->). intros [= <-]. by left.
  - destruct (initialized m) eqn:Hinit.
    + destruct (wf_resolve m dn Hwf Hinit) as [Hf|(k & d & blk & es & Hf & Hk & Hn & Hh)].
      * unfold removeNumber. rewrite Hinit, Hf. simpl. intros [= <-]. by left.
      * rewrite (removeNumber_resolved m dn k d blk es Hinit Hf Hk Hh).
        destruct (list_find (hasCode cd) es) as [[i e]|] eqn:E;
          [|intros [= <-]; by left].
        apply list_find_Some in E as (He & Hc & _).
        intros [= <-]. right. right. right. right.
        exists dn, cd, k, d, blk, es, i, e.
        exists {| name := name d;
                  entries := Some (take i blk
                                   ++ take (length es - 1 - i) (drop (S i) blk)
                                   ++ drop (length es - 1) blk);
                  currentCount := currentCount d - 1 |},
          (take i blk ++ take (length es - 1 - i) (drop (S i) blk)
           ++ drop (length es - 1) blk).
        split_and!; try done.
        by eapply holds_removed.
    + unfold removeNumber. rewrite Hinit. simpl. intros [= <-]. by left.
  - destruct (listNumbersInDirectory_wf dn m Hwf) as (? & ->). intros [= <-]. by left.
  - destruct (listAllDirectoryNames_total m) as (? & ->). intros [= <-]. by left.
  - unfold freeSpeedDialManager. destruct (initialized m) eqn:Hinit; simpl.
    + destruct Hwf as [_ Hwf]. specialize (Hwf Hinit).
      rewrite freeDirectoriesFrom_spec.
      * intros [= <-]. right. right. by left.
      * eapply Forall_impl; [exact Hwf|]. intros d (blk & es & Hb & _). by rewrite Hb.
    + intros [= <-]. by left.
Qed.

(** An invariant of the calls that satisfy [Q] holds after every run of such
    calls. *)
Lemma run_invariant (Q : Call → Prop) (P : SpeedDialManager → Prop) :
  P manager0 →
  (∀ c m m', Q c → wf m → P m → after c m = Some m' → P m') →
  ∀ cs m, Forall Q cs → afterAll cs manager0 = Some m → P m.
Proof.
  intros H0 Hstep cs.
  assert (Hgen : ∀ m0 m, wf m0 → P m0 → Forall Q cs → afterAll cs m0 = Some m → P m).
  { induction cs as [|c cs IH]; intros m0 m Hwf HP HQ; simpl.
    - by intros [= <-].
    - destruct (after c m0) as [m1|] eqn:E; [|done]. simpl.
      apply Forall_cons in HQ as [Hc HQ].
      apply IH; [by eapply after_wf|by eapply Hstep|done]. }
  intros m. apply Hgen; [apply wf_manager0|done].
Qed.

Lemma reachable_invariant (P : SpeedDialManager → Prop) :
  P manager0 →
  (∀ c m m', wf m → P m → after c m = Some m' → P m') →
  ∀ m, reachable m → P m.
Proof.
  intros H0 Hstep m [cs Hcs].
  apply (run_invariant (λ _, True) P H0) with cs; [|by apply Forall_true|done].
  intros c m1 m2 _. apply Hstep.
Qed.

Lemma firstWithCode_list_find code es :
  snd <$> list_find (hasCode code) es = firstWithCode code es.
Proof.
  induction es as [|e es IH]; [done|]. cbn [list_find firstWithCode].
  destruct (decide (hasCode code e)) as [Hc|Hc]; unfold hasCode in Hc.
  - apply streq_true in Hc. by rewrite Hc.
  - apply streq_false in Hc. rewrite Hc, <- IH.
    by destruct (list_find (hasCode code) es) as [[j x]|].
Qed.

Lemma firstWithCode_None code es :
  firstWithCode code es = None ↔ Forall (λ e, speedDialCode e ≠ code) es.
Proof.
  induction es as [|e es IH]; simpl; [by split; [constructor|]|].
  destruct (streq (speedDialCode e) code) eqn:E.
  - apply streq_true in E. split; [done|]. intros H. by apply Forall_cons in H as [? _].
  - apply streq_false in E. rewrite IH. split; [by constructor|].
    intros H. by apply Forall_cons in H as [_ ?].
Qed.

Lemma firstWithCode_app code es es' :
  firstWithCode code (es ++ es') =
  match firstWithCode code es with
  | Some e => Some e
  | None => firstWithCode code es'
  end.
Proof.
  induction es as [|e es IH]; [done|]. simpl.
  by destruct (streq (speedDialCode e) code).
Qed.

Lemma firstWithCode_delete code es i e :
  es !! i = Some e → speedDialCode e ≠ code →
  firstWithCode code (delete i es) = firstWithCode code es.
Proof.
  revert i. induction es as [|x es IH]; intros [|i] Hi Hne; try done; simpl in *.
  - injection Hi as ->. apply streq_false in Hne. by rewrite Hne.
  - destruct (streq (speedDialCode x) code); [done|]. by apply IH.
Qed.

(** [getPhoneNumber] on the contents of the named directory. *)
Lemma getPhoneNumber_lookup m dn d code :
  ready m → directoryNamed m dn = Some d →
  ∃ evs, getPhoneNumber dn code m
         = Some (phoneNumber <$> firstWithCode code (contents d), evs, m).
Proof.
  intros Hr Hd. destruct (ready_resolved m dn d Hr Hd) as (k & blk & Hf & Hk & Hh).
  rewrite (getPhoneNumber_resolved m dn k d blk _ (proj2 Hr) Hf Hk Hh).
  rewrite <- firstWithCode_list_find.
  destruct (list_find (hasCode code) (contents d)) as [[j e]|]; simpl; eauto.
Qed.

(** A name that resolves in [m] resolves to the same index after the
    directory at some index is replaced by one of the same name. *)
Lemma findDirectory_insert m k d d' dn b :
  directories m !! k = Some d → name d' = name d →
  findDirectory {| directories := <[k := d']> (directories m); initialized := b |} dn
  = findDirectory m dn.
Proof.
  intros Hk Hn. unfold findDirectory. simpl.
  apply findDirectoryFrom_names. by eapply names_insert.
Qed.

Lemma directoryNamed_insert_other m k d d' dn dn' b :
  findDirectory m dn = Z.of_nat k → directories m !! k = Some d → name d' = name d →
  dn' ≠ dn →
  directoryNamed {| directories := <[k := d']> (directories m); initialized := b |} dn'
  = directoryNamed m dn'.
Proof.
  intros Hf Hk Hn Hne. unfold directoryNamed.
  rewrite (findDirectory_insert m k d d' dn' b Hk Hn).
  destruct (Z.eqb_spec (findDirectory m dn') (-1)); [done|].
  apply list_lookup_insert_ne. intros Heq.
  unfold findDirectory in *.
  destruct (findDirectoryFrom_cases (directories m) dn 0)
    as [[Hx _]|(k1 & d1 & Hx & Hk1 & Hn1 & _)]; [lia|].
  destruct (findDirectoryFrom_cases (directories m) dn' 0)
    as [[Hy _]|(k2 & d2 & Hy & Hk2 & Hn2 & _)]; [lia|].
  assert (k1 = k) by lia. subst k1.
  assert (k2 = k) by lia. subst k2. congruence.
Qed.

Lemma directoryNames_eq :
  directoryNames
  = ["Directory 1"; "Directory 2"; "Directory 3"; "Directory 4"; "Directory 5"].
Proof. reflexivity. Qed.

Lemma reachable_named m :
  reachable m → initialized m = true → name <$> directories m = directoryNames.
Proof.
  revert m.
  apply (reachable_invariant
           (λ m, initialized m = true → name <$> directories m = directoryNames));
    [done|].
  intros c m m' Hwf HP Hafter.
  destruct (after_cases c m m' Hwf Hafter)
    as [->|[(ok & evs & dirs' & -> & Hinit & E & ->)
       |[(-> & Hinit & ->)
       |[(dn & code & phone & k & d & blk & es & d' & blk' & -> & Hinit & Hf & Hk
            & Hh & Hfresh & Hh' & Hn & ->)
        |(dn & code & k & d & blk & es & i & e & d' & blk' & -> & Hinit & Hf & Hk
            & Hh & He & Hc & Hh' & Hn & ->)]]]]; simpl.
  - done.
  - intros _. apply initDirectoriesFrom_ok in E as (_ & _ & _ & Hnames & _).
    destruct Hwf as [Hlen _]. by rewrite Hnames, Hlen.
  - done.
  - intros _. rewrite (names_insert _ k d d' Hk Hn). by apply HP.
  - intros _. rewrite (names_insert _ k d d' Hk Hn). by apply HP.
Qed.

Lemma findDirectory_named m dn :
  name <$> directories m = directoryNames →
  findDirectory m dn = findDirectory readyManager dn.
Proof.
  intros Hn. unfold findDirectory. apply findDirectoryFrom_names.
  rewrite Hn. reflexivity.
Qed.

Lemma findDirectory_unknown m dn :
  name <$> directories m = directoryNames → dn ∉ directoryNames →
  findDirectory m dn = (-1)%Z.
Proof.
  intros Hn Hdn. unfold findDirectory.
  destruct (findDirectoryFrom_cases (directories m) dn 0)
    as [[Hx _]|(k & d & _ & Hk & Hd & _)]; [done|].
  destruct Hdn. rewrite <- Hn, <- Hd. apply list_elem_of_fmap.
  exists d. split; [done|]. apply list_elem_of_lookup. eauto.
Qed.

Lemma initDirectoriesFrom_fail mallocOk dirs i k :
  i ≤ k < i + length dirs → mallocOk k = false →
  (∀ j, i ≤ j < k → mallocOk j = true) →
  ∃ dirs',
    initDirectoriesFrom mallocOk dirs i
    = (((λ j, Malloc j true) <$> seq i (k - i)) ++ [Malloc k false], dirs', false) ∧
    length dirs' = length dirs ∧
    (∀ j d, j < k - i → dirs' !! j = Some d → entries d = Some freshBlock) ∧
    (∀ d, dirs' !! (k - i) = Some d → entries d = None).
Proof.
  revert i. induction dirs as [|d0 dirs IH]; intros i Hk Hfail Hok; simpl in *; [lia|].
  destruct (decide (i = k)) as [->|Hne].
  - rewrite Hfail, Nat.sub_diag. simpl. eexists. split; [done|]. split; [done|].
    split; [intros j d Hj; lia|]. by intros d [= <-].
  - rewrite (Hok i) by lia.
    destruct (IH (S i)) as (dirs' & E & Hlen & Hblocks & Hnull); [lia|done|intros; apply Hok; lia|].
    rewrite E. replace (k - i) with (S (k - S i)) by lia.
    eexists. split; [done|]. split; [simpl; by rewrite Hlen|]. split.
    + intros [|j] d Hj; simpl; [by intros [= <-]|]. apply Hblocks. lia.
    + simpl. apply Hnull.
Qed.

(** ** Safety and invariants of a run *)

(** X1 (memory safety).  After any sequence of returning calls from the
    zero-initialised manager, every call of every operation is defined: no
    [NULL] block is dereferenced, no slot outside a block is indexed and no
    slot that was never written is read. *)
Theorem X1_calls_after_any_run_are_defined
    (cs : list Call) (m : SpeedDialManager) (c : Call) :
  afterAll cs manager0 = Some m → defined c m.
Proof. intros Hcs. apply wf_defined, reachable_wf. by exists cs. Qed.

Lemma X1_calls_after_any_run_witness :
  afterAll (CallInitialize (λ _, true) :: demoCalls) manager0 = Some demoManager ∧
  defined (CallRemove "Directory 1" "work") demoManager.
Proof.
  assert (H : afterAll (CallInitialize (λ _, true) :: demoCalls) manager0
              = Some demoManager) by (vm_compute; reflexivity).
  split; [exact H|].
  exact (X1_calls_after_any_run_are_defined _ demoManager
           (CallRemove "Directory 1" "work") H).
Defined.

(** X2 (bounds).  In every initialized manager a run can reach there are
    [MAX_DIRECTORIES] directories; each has a block of
    [MAX_NUMBERS_PER_DIRECTORY] slots, a count between 0 and that capacity
    which is the number of its entries, and only codes and numbers that fit
    their buffers together with the terminator. *)
Theorem X2_counts_and_strings_stay_in_bounds (m : SpeedDialManager) :
  reachable m → initialized m = true →
  length (directories m) = Z.to_nat MAX_DIRECTORIES ∧
  Forall (λ d,
            (∃ blk, entries d = Some blk ∧
                    length blk = Z.to_nat MAX_NUMBERS_PER_DIRECTORY) ∧
            (0 ≤ currentCount d ≤ MAX_NUMBERS_PER_DIRECTORY)%Z ∧
            currentCount d = Z.of_nat (length (contents d)) ∧
            Forall (λ e, String.length (speedDialCode e) < MAX_CODE_LENGTH ∧
                         String.length (phoneNumber e) < MAX_PHONE_LENGTH)
              (contents d))
    (directories m).
Proof.
  intros Hm Hinit. destruct (reachable_wf m Hm) as [Hlen Hwf].
  split; [done|]. eapply Forall_impl; [exact (Hwf Hinit)|].
  intros d (blk & es & Hh). rewrite (holds_contents d blk es Hh).
  pose proof (holds_length d blk es Hh) as Hle.
  destruct Hh as (Hb & Hl & Hc & _ & Hf).
  split; [by exists blk|]. split; [|done].
  rewrite Hc, max_numbers_Z. rewrite max_numbers in Hle. lia.
Qed.

Lemma X2_counts_and_strings_witness :
  reachable fullManager ∧ initialized fullManager = true ∧
  length (directories fullManager) = Z.to_nat MAX_DIRECTORIES ∧
  Forall (λ d,
            (∃ blk, entries d = Some blk ∧
                    length blk = Z.to_nat MAX_NUMBERS_PER_DIRECTORY) ∧
            (0 ≤ currentCount d ≤ MAX_NUMBERS_PER_DIRECTORY)%Z ∧
            currentCount d = Z.of_nat (length (contents d)) ∧
            Forall (λ e, String.length (speedDialCode e) < MAX_CODE_LENGTH ∧
                         String.length (phoneNumber e) < MAX_PHONE_LENGTH)
              (contents d))
    (directories fullManager).
Proof.
  assert (Hi : initialized fullManager = true) by (vm_compute; reflexivity).
  split; [exact fullManager_reachable|]. split; [exact Hi|].
  exact (X2_counts_and_strings_stay_in_bounds fullManager fullManager_reachable Hi).
Defined.

(** X3 (initialization).  On a reachable manager that is not initialized,
    when the five allocations succeed, [initializeSpeedDialManager] returns
    after exactly five [malloc] calls and leaves an initialized manager whose
    directories are named "Directory 1" to "Directory 5", in this order, and
    are all empty; whatever the directories held before is gone. *)
Theorem X3_initialize_gives_five_empty_directories
    (mallocOk : nat → bool) (m : SpeedDialManager) :
  reachable m → initialized m = false →
  (∀ i, i < Z.to_nat MAX_DIRECTORIES → mallocOk i = true) →
  ∃ m',
    initializeSpeedDialManager mallocOk m
    = Some (Returned tt,
            [Print (MsgInitializing 5);
             Malloc 0 true; Malloc 1 true; Malloc 2 true; Malloc 3 true; Malloc 4 true;
             Print MsgInitialized],
            m') ∧
    initialized m' = true ∧
    name <$> directories m'
    = ["Directory 1"; "Directory 2"; "Directory 3"; "Directory 4"; "Directory 5"] ∧
    Forall (λ d, currentCount d = 0%Z ∧ contents d = []) (directories m').
Proof.
  intros Hm Hinit Hok.
  destruct (initializeSpeedDialManager_ok mallocOk m (reachable_wf m Hm) Hinit Hok)
    as (m' & Hrun & [[_ Hwf] Hinit'] & Hnames & Hempty).
  exists m'. split; [exact Hrun|]. split; [done|]. split; [exact Hnames|].
  specialize (Hwf Hinit'). rewrite Forall_forall in Hwf, Hempty.
  apply Forall_forall. intros d Hd. split; [|by apply Hempty].
  destruct (Hwf d Hd) as (blk & es & Hh).
  pose proof (holds_contents d blk es Hh) as Hc. rewrite (Hempty d Hd) in Hc. subst es.
  by destruct Hh as (_ & _ & -> & _).
Qed.

Lemma X3_initialize_witness :
  reachable manager0 ∧ initialized manager0 = false ∧
  ∃ m',
    initializeSpeedDialManager (λ _, true) manager0
    = Some (Returned tt,
            [Print (MsgInitializing 5);
             Malloc 0 true; Malloc 1 true; Malloc 2 true; Malloc 3 true; Malloc 4 true;
             Print MsgInitialized],
            m') ∧
    initialized m' = true ∧
    name <$> directories m'
    = ["Directory 1"; "Directory 2"; "Directory 3"; "Directory 4"; "Directory 5"] ∧
    Forall (λ d, currentCount d = 0%Z ∧ contents d = []) (directories m').
Proof.
  assert (H0 : reachable manager0) by (exists []; reflexivity).
  split; [exact H0|]. split; [reflexivity|].
  exact (X3_initialize_gives_five_empty_directories (λ _, true) manager0 H0 eq_refl
           (λ _ _, eq_refl)).
Defined.

(** X4 (failed allocation).  On a reachable manager that is not initialized,
    when the allocation for directory [k] is the first to fail,
    [initializeSpeedDialManager] ends the process with [EXIT_FAILURE]; the
    cleanup call to [freeSpeedDialManager] it makes first only reports that
    the manager is not initialized (the flag is still unset), so [free] is
    called for none of the [k] blocks already allocated. *)
Theorem X4_failed_allocation_exits_without_free
    (mallocOk : nat → bool) (m : SpeedDialManager) (k : nat) :
  reachable m → initialized m = false →
  k < Z.to_nat MAX_DIRECTORIES → mallocOk k = false →
  (∀ j, j < k → mallocOk j = true) →
  ∃ m',
    initializeSpeedDialManager mallocOk m
    = Some (Exited EXIT_FAILURE,
            Print (MsgInitializing MAX_DIRECTORIES)
              :: ((λ j, Malloc j true) <$> seq 0 k)
              ++ [Malloc k false; Perror; Print MsgNotInitializedOrFreed],
            m') ∧
    initialized m' = false ∧
    (∀ j d, j < k → directories m' !! j = Some d → entries d = Some freshBlock).
Proof.
  intros Hm Hinit Hk Hfail Hok. destruct (reachable_wf m Hm) as [Hlen _].
  destruct (initDirectoriesFrom_fail mallocOk (directories m) 0 k)
    as (dirs' & E & _ & Hblocks & _); [lia|done|intros; apply Hok; lia|].
  unfold initializeSpeedDialManager. rewrite Hinit, E.
  unfold freeSpeedDialManager. simpl.
  rewrite Nat.sub_0_r in *. eexists. split.
  - rewrite <- app_assoc. reflexivity.
  - split; [done|]. exact Hblocks.
Qed.

Lemma X4_failed_allocation_witness :
  reachable manager0 ∧ initialized manager0 = false ∧
  2 < Z.to_nat MAX_DIRECTORIES ∧ negb (Nat.eqb 2 2) = false ∧
  ∃ m',
    initializeSpeedDialManager (λ i, negb (Nat.eqb i 2)) manager0
    = Some (Exited EXIT_FAILURE,
            Print (MsgInitializing MAX_DIRECTORIES)
              :: ((λ j, Malloc j true) <$> seq 0 2)
              ++ [Malloc 2 false; Perror; Print MsgNotInitializedOrFreed],
            m') ∧
    initialized m' = false ∧
    (∀ j d, j < 2 → directories m' !! j = Some d → entries d = Some freshBlock).
Proof.
  assert (H0 : reachable manager0) by (exists []; reflexivity).
  assert (Hk : 2 < Z.to_nat MAX_DIRECTORIES) by (vm_compute; lia).
  split; [exact H0|]. split; [reflexivity|]. split; [exact Hk|]. split; [reflexivity|].
  apply (X4_failed_allocation_exits_without_free (λ i, negb (Nat.eqb i 2)) manager0 2
           H0 eq_refl Hk eq_refl).
  intros [|[|j]] Hj; [reflexivity|reflexivity|lia].
Defined.

(** X5 (directory names).  In every initialized manager a run can reach the
    directories are named "Directory 1" to "Directory 5", in this order: no
    operation renames, adds or drops a directory.  Each of these names
    resolves to its own directory, and [listAllDirectoryNames] prints exactly
    these five names. *)
Theorem X5_directory_names_are_fixed (m : SpeedDialManager) :
  reachable m → initialized m = true →
  name <$> directories m
  = ["Directory 1"; "Directory 2"; "Directory 3"; "Directory 4"; "Directory 5"] ∧
  findDirectory m "Directory 1" = 0%Z ∧
  findDirectory m "Directory 2" = 1%Z ∧
  findDirectory m "Directory 3" = 2%Z ∧
  findDirectory m "Directory 4" = 3%Z ∧
  findDirectory m "Directory 5" = 4%Z ∧
  listAllDirectoryNames m
  = Some (tt,
          [Print MsgAllDirectories;
           Print (MsgDirectoryName "Directory 1");
           Print (MsgDirectoryName "Directory 2");
           Print (MsgDirectoryName "Directory 3");
           Print (MsgDirectoryName "Directory 4");
           Print (MsgDirectoryName "Directory 5")],
          m).
Proof.
  intros Hm Hinit. pose proof (reachable_named m Hm Hinit) as Hn.
  split; [exact Hn|].
  rewrite !(findDirectory_named m _ Hn). do 5 (split; [reflexivity|]).
  unfold listAllDirectoryNames. rewrite Hinit. simpl. do 3 f_equal.
  change (map (λ d, Print (MsgDirectoryName (name d))) (directories m))
    with ((λ d, Print (MsgDirectoryName (name d))) <$> directories m).
  rewrite (list_fmap_compose name (λ n, Print (MsgDirectoryName n))), Hn.
  reflexivity.
Qed.

Lemma X5_directory_names_witness :
  reachable demoManager ∧ initialized demoManager = true ∧
  name <$> directories demoManager
  = ["Directory 1"; "Directory 2"; "Directory 3"; "Directory 4"; "Directory 5"].
Proof.
  assert (Hm : reachable demoManager)
    by (exists (CallInitialize (λ _, true) :: demoCalls); vm_compute; reflexivity).
  assert (Hi : initialized demoManager = true) by (vm_compute; reflexivity).
  split; [exact Hm|]. split; [exact Hi|].
  exact (proj1 (X5_directory_names_are_fixed demoManager Hm Hi)).
Defined.

(** X6 (unknown directory).  In every initialized manager a run can reach, a
    directory name other than the five names (the comparison is exact and
    case sensitive) makes [addNumber] and [removeNumber] return [false],
    [getPhoneNumber] return [NULL] and [listNumbersInDirectory] print only
    the error; each reports that the directory does not exist and none
    changes the manager. *)
Theorem X6_unknown_directory_is_refused (m : SpeedDialManager) (dn : string) :
  reachable m → initialized m = true →
  dn ∉ ["Directory 1"; "Directory 2"; "Directory 3"; "Directory 4"; "Directory 5"] →
  (∀ code phone,
     addNumber dn code phone m = Some (false, [Print (MsgAddNoDirectory dn)], m)) ∧
  (∀ code,
     getPhoneNumber dn code m = Some (None, [Print (MsgGetNoDirectory dn)], m)) ∧
  (∀ code,
     removeNumber dn code m = Some (false, [Print (MsgRemoveNoDirectory dn)], m)) ∧
  listNumbersInDirectory dn m = Some (tt, [Print (MsgListNoDirectory dn)], m).
Proof.
  intros Hm Hinit Hdn.
  pose proof (findDirectory_unknown m dn (reachable_named m Hm Hinit) Hdn) as Hf.
  unfold addNumber, getPhoneNumber, removeNumber, listNumbersInDirectory.
  rewrite Hinit, Hf. by repeat split.
Qed.

Lemma X6_unknown_directory_witness :
  reachable demoManager ∧ initialized demoManager = true ∧
  ("directory 1"
     ∉ ["Directory 1"; "Directory 2"; "Directory 3"; "Directory 4"; "Directory 5"]) ∧
  getPhoneNumber "directory 1" "home" demoManager
  = Some (None, [Print (MsgGetNoDirectory "directory 1")], demoManager).
Proof.
  assert (Hm : reachable demoManager)
    by (exists (CallInitialize (λ _, true) :: demoCalls); vm_compute; reflexivity).
  assert (Hi : initialized demoManager = true) by (vm_compute; reflexivity).
  assert (Hn : "directory 1"
               ∉ ["Directory 1"; "Directory 2"; "Directory 3"; "Directory 4";
                  "Directory 5"]).
  { intros H. repeat (apply elem_of_cons in H as [H|H]; [discriminate H|]).
    by apply elem_of_nil in H. }
  split; [exact Hm|]. split; [exact Hi|]. split; [exact Hn|].
  exact (proj1 (proj2 (X6_unknown_directory_is_refused demoManager "directory 1"
                         Hm Hi Hn)) "home").
Defined.

(** ** Lookup *)

(** X7 (lookup).  On an initialized reachable manager [getPhoneNumber] returns
    the number of the first entry of the named directory whose code equals
    the given code, and [NULL] exactly when no entry of the directory has
    that code; it leaves the manager as it was. *)
Theorem X7_get_returns_first_match
    (m : SpeedDialManager) (dn code : string) (d : Directory) :
  reachable m → initialized m = true → directoryNamed m dn = Some d →
  returned (getPhoneNumber dn code m)
    = Some (phoneNumber <$> firstWithCode code (contents d)) ∧
  managerAfter (getPhoneNumber dn code m) m = m ∧
  (returned (getPhoneNumber dn code m) = Some None
   ↔ Forall (λ e, speedDialCode e ≠ code) (contents d)).
Proof.
  intros Hm Hinit Hd.
  destruct (getPhoneNumber_lookup m dn d code (conj (reachable_wf m Hm) Hinit) Hd)
    as (evs & ->).
  simpl. split; [done|]. split; [done|].
  rewrite <- firstWithCode_None.
  destruct (firstWithCode code (contents d)); simpl; split; congruence.
Qed.

Lemma X7_get_returns_first_match_witness :
  reachable demoManager ∧ initialized demoManager = true ∧
  directoryNamed demoManager "Directory 1" = Some demoDirectory ∧
  returned (getPhoneNumber "Directory 1" "mom" demoManager)
  = Some (phoneNumber <$> firstWithCode "mom" (contents demoDirectory)) ∧
  firstWithCode "mom" (contents demoDirectory)
  = Some {| speedDialCode := "mom"; phoneNumber := "555-111-2222" |}.
Proof.
  assert (Hm : reachable demoManager)
    by (exists (CallInitialize (λ _, true) :: demoCalls); vm_compute; reflexivity).
  assert (Hi : initialized demoManager = true) by (vm_compute; reflexivity).
  assert (Hd : directoryNamed demoManager "Directory 1" = Some demoDirectory)
    by (vm_compute; reflexivity).
  split; [exact Hm|]. split; [exact Hi|]. split; [exact Hd|].
  split; [|vm_compute; reflexivity].
  exact (proj1 (X7_get_returns_first_match demoManager "Directory 1" "mom"
                  demoDirectory Hm Hi Hd)).
Defined.

(** ** Refused calls *)

(** X8 (duplicate code).  On an initialized reachable manager, when the named
    directory is not full and one of its entries has a code equal to the
    given code, [addNumber] returns [false], reports the duplicate and
    leaves the manager, the stored number included, as it was. *)
Theorem X8_equal_code_is_refused
    (m : SpeedDialManager) (dn code phone : string) (d : Directory) :
  reachable m → initialized m = true → directoryNamed m dn = Some d →
  (currentCount d < MAX_NUMBERS_PER_DIRECTORY)%Z →
  Exists (λ e, speedDialCode e = code) (contents d) →
  addNumber dn code phone m = Some (false, [Print (MsgDuplicateCode code dn)], m).
Proof.
  intros Hm Hinit Hd Hroom Hdup.
  by apply (addNumber_duplicate m dn d code phone (conj (reachable_wf m Hm) Hinit)).
Qed.

Lemma X8_equal_code_is_refused_witness :
  reachable demoManager ∧ initialized demoManager = true ∧
  directoryNamed demoManager "Directory 1" = Some demoDirectory ∧
  (currentCount demoDirectory < MAX_NUMBERS_PER_DIRECTORY)%Z ∧
  Exists (λ e, speedDialCode e = "home") (contents demoDirectory) ∧
  addNumber "Directory 1" "home" "123-999-8888" demoManager
  = Some (false, [Print (MsgDuplicateCode "home" "Directory 1")], demoManager).
Proof.
  assert (Hm : reachable demoManager)
    by (exists (CallInitialize (λ _, true) :: demoCalls); vm_compute; reflexivity).
  assert (Hi : initialized demoManager = true) by (vm_compute; reflexivity).
  assert (Hd : directoryNamed demoManager "Directory 1" = Some demoDirectory)
    by (vm_compute; reflexivity).
  assert (Hc : (currentCount demoDirectory < MAX_NUMBERS_PER_DIRECTORY)%Z)
    by (vm_compute; reflexivity).
  assert (He : Exists (λ e, speedDialCode e = "home") (contents demoDirectory))
    by (vm_compute; apply Exists_cons_hd; reflexivity).
  split; [exact Hm|]. split; [exact Hi|]. split; [exact Hd|]. split; [exact Hc|].
  split; [exact He|].
  exact (X8_equal_code_is_refused demoManager "Directory 1" "home" "123-999-8888"
           demoDirectory Hm Hi Hd Hc He).
Defined.

(** X9 (refused calls change nothing).  Whatever the manager, when
    [addNumber] or [removeNumber] returns [false] the manager after the call
    is the manager before it: no directory, count or slot is touched on any
    of the refusing paths. *)
Theorem X9_refused_call_changes_nothing (m : SpeedDialManager) :
  (∀ dn code phone evs m',
     addNumber dn code phone m = Some (false, evs, m') → m' = m) ∧
  (∀ dn code evs m',
     removeNumber dn code m = Some (false, evs, m') → m' = m).
Proof.
  split.
  - intros dn code phone evs m'. apply addNumber_false_unchanged.
  - intros dn code evs m'. apply removeNumber_false_unchanged.
Qed.

Lemma X9_refused_call_witness :
  addNumber "Directory 3" "overflow" "999-999-9999" fullManager
  = Some (false,
          [Print (MsgDirectoryFull "Directory 3" MAX_NUMBERS_PER_DIRECTORY)],
          managerAfter (addNumber "Directory 3" "overflow" "999-999-9999" fullManager)
            fullManager) ∧
  managerAfter (addNumber "Directory 3" "overflow" "999-999-9999" fullManager)
    fullManager
  = fullManager.
Proof.
  assert (H : addNumber "Directory 3" "overflow" "999-999-9999" fullManager
    = Some (false,
            [Print (MsgDirectoryFull "Directory 3" MAX_NUMBERS_PER_DIRECTORY)],
            managerAfter (addNumber "Directory 3" "overflow" "999-999-9999" fullManager)
              fullManager)) by (vm_compute; reflexivity).
  split; [exact H|].
  exact (proj1 (X9_refused_call_changes_nothing fullManager) _ _ _ _ _ H).
Defined.

(** ** How the operations compose *)

Lemma directoryNamed_None_inv m dn :
  directoryNamed m dn = None → findDirectory m dn = (-1)%Z.
Proof.
  unfold directoryNamed, findDirectory.
  destruct (findDirectoryFrom_cases (directories m) dn 0)
    as [[-> _]|(k & d' & -> & Hk & Hn & _)]; [done|].
  replace (0 + Z.of_nat k)%Z with (Z.of_nat k) by lia.
  destruct (Z.eqb_spec (Z.of_nat k) (-1)); [lia|].
  by rewrite Nat2Z.id, Hk.
Qed.

(** The value [getPhoneNumber] returns, in terms of the directories. *)
Lemma getPhoneNumber_returned m dn code :
  ready m →
  returned (getPhoneNumber dn code m)
  = Some (d ← directoryNamed m dn; phoneNumber <$> firstWithCode code (contents d)).
Proof.
  intros Hr. destruct (directoryNamed m dn) as [d|] eqn:Hd.
  - destruct (getPhoneNumber_lookup m dn d code Hr Hd) as (evs & ->). done.
  - apply directoryNamed_None_inv in Hd. unfold getPhoneNumber.
    rewrite (proj2 Hr), Hd. done.
Qed.

(** The shape of a successful [addNumber]. *)
Lemma addNumber_true_shape m dn code phone evs m' :
  wf m → addNumber dn code phone m = Some (true, evs, m') →
  ∃ k d d',
    initialized m = true ∧
    findDirectory m dn = Z.of_nat k ∧ directories m !! k = Some d ∧
    wf_directory d ∧ wf_directory d' ∧ name d' = name d ∧
    Forall (λ e, speedDialCode e ≠ code) (contents d) ∧
    contents d' = contents d ++ [storedEntry code phone] ∧
    m' = {| directories := <[k := d']> (directories m); initialized := true |}.
Proof.
  intros Hwf Hadd. destruct (initialized m) eqn:Hinit.
  - destruct (wf_resolve m dn Hwf Hinit) as [Hf|(k & d & blk & es & Hf & Hk & Hn & Hh)].
    + unfold addNumber in Hadd. rewrite Hinit, Hf in Hadd. simpl in Hadd. done.
    + rewrite (addNumber_resolved m dn k d blk es Hinit Hf Hk Hh) in Hadd.
      destruct (Z.geb_spec (currentCount d) MAX_NUMBERS_PER_DIRECTORY); [done|].
      destruct (Z.eqb_spec (firstIndex code es) (-1)) as [Habs|]; [|done].
      injection Hadd as _ <-.
      pose proof (holds_added d blk es code phone Hh ltac:(lia)) as Hh'.
      exists k, d.
      exists {| name := name d;
                entries := Some (<[length es := Some (storedEntry code phone)]> blk);
                currentCount := currentCount d + 1 |}.
      rewrite (holds_contents _ _ _ Hh'), (holds_contents d blk es Hh).
      split_and!; [done|done|done|by exists blk, es|by do 2 eexists|done| |done|done].
      by apply firstIndex_absent.
  - unfold addNumber in Hadd. rewrite Hinit in Hadd. simpl in Hadd. done.
Qed.

(** The shape of a successful [removeNumber]. *)
Lemma removeNumber_true_shape m dn code evs m' :
  wf m → removeNumber dn code m = Some (true, evs, m') →
  ∃ k d d' i e,
    initialized m = true ∧
    findDirectory m dn = Z.of_nat k ∧ directories m !! k = Some d ∧
    wf_directory d ∧ wf_directory d' ∧ name d' = name d ∧
    contents d !! i = Some e ∧ speedDialCode e = code ∧
    (∀ j e', j < i → contents d !! j = Some e' → speedDialCode e' ≠ code) ∧
    contents d' = delete i (contents d) ∧
    m' = {| directories := <[k := d']> (directories m); initialized := true |}.
Proof.
  intros Hwf Hrem. destruct (initialized m) eqn:Hinit.
  - destruct (wf_resolve m dn Hwf Hinit) as [Hf|(k & d & blk & es & Hf & Hk & Hn & Hh)].
    + unfold removeNumber in Hrem. rewrite Hinit, Hf in Hrem. simpl in Hrem. done.
    + rewrite (removeNumber_resolved m dn k d blk es Hinit Hf Hk Hh) in Hrem.
      destruct (list_find (hasCode code) es) as [[i e]|] eqn:E; [|done].
      apply list_find_Some in E as (He & Hc & Hfirst).
      injection Hrem as _ <-.
      pose proof (holds_removed d blk es i e Hh He) as Hh'.
      exists k, d.
      exists {| name := name d;
                entries := Some (take i blk
                                 ++ take (length es - 1 - i) (drop (S i) blk)
                                 ++ drop (length es - 1) blk);
                currentCount := currentCount d - 1 |}.
      exists i, e.
      rewrite (holds_contents _ _ _ Hh'), (holds_contents d blk es Hh).
      split_and!;
        [done|done|done|by exists blk, es|by do 2 eexists|done|done|done| |done|done].
      intros j e' Hj He'. by eapply Hfirst.
  - unfold removeNumber in Hrem. rewrite Hinit in Hrem. simpl in Hrem. done.
Qed.

(** How the directory a name resolves to changes when the directory at the
    index of [dn] is replaced by [d'] of the same name. *)
Lemma directoryNamed_replaced m k d d' dn dn2 b :
  findDirectory m dn = Z.of_nat k → directories m !! k = Some d → name d' = name d →
  directoryNamed {| directories := <[k := d']> (directories m); initialized := b |} dn2
  = if decide (dn2 = dn) then Some d' else directoryNamed m dn2.
Proof.
  intros Hf Hk Hn. destruct (decide (dn2 = dn)) as [->|Hne].
  - by eapply directoryNamed_insert.
  - by eapply directoryNamed_insert_other.
Qed.

(** X10 (adding keeps the other lookups).  After a successful [addNumber] of
    a code into a directory, [getPhoneNumber] returns what it returned
    before for every other directory name and, in the same directory, for
    every code other than the stored (cut) form of the added code: an
    addition never changes or hides the number of another code. *)
Theorem X10_add_keeps_other_lookups
    (m : SpeedDialManager) (dn code phone : string) (evs : list Event)
    (m' : SpeedDialManager) (dn2 code2 : string) :
  reachable m →
  addNumber dn code phone m = Some (true, evs, m') →
  dn2 ≠ dn ∨ code2 ≠ strncpy_terminated MAX_CODE_LENGTH code →
  returned (getPhoneNumber dn2 code2 m') = returned (getPhoneNumber dn2 code2 m).
Proof.
  intros Hm Hadd Hother. pose proof (reachable_wf m Hm) as Hwf.
  destruct (addNumber_true_shape m dn code phone evs m' Hwf Hadd)
    as (k & d & d' & Hinit & Hf & Hk & Hd & Hd' & Hn & Hfresh & Hc & ->).
  rewrite !getPhoneNumber_returned;
    [|by split|split; [by eapply wf_insert|done]].
  f_equal. rewrite (directoryNamed_replaced m k d d' dn dn2 true Hf Hk Hn).
  destruct (decide (dn2 = dn)) as [->|Hne]; [|done].
  rewrite (directoryNamed_resolved m dn k d Hf Hk). simpl.
  rewrite Hc, firstWithCode_app.
  destruct (firstWithCode code2 (contents d)); [done|]. simpl.
  destruct Hother as [?|Hcode]; [done|].
  fold (strncpy_terminated MAX_CODE_LENGTH code).
  apply not_eq_sym, streq_false in Hcode. by rewrite Hcode.
Qed.

Lemma X10_add_keeps_other_lookups_witness :
  reachable demoManager ∧
  addNumber "Directory 1" "dad" "555-000-1111" demoManager
  = Some (true, [Print (MsgAdded "dad" "555-000-1111" "Directory 1")],
          managerAfter (addNumber "Directory 1" "dad" "555-000-1111" demoManager)
            demoManager) ∧
  ("Directory 1" ≠ "Directory 1" ∨ "mom" ≠ strncpy_terminated MAX_CODE_LENGTH "dad") ∧
  returned (getPhoneNumber "Directory 1" "mom"
              (managerAfter (addNumber "Directory 1" "dad" "555-000-1111" demoManager)
                 demoManager))
  = returned (getPhoneNumber "Directory 1" "mom" demoManager).
Proof.
  assert (Hm : reachable demoManager)
    by (exists (CallInitialize (λ _, true) :: demoCalls); vm_compute; reflexivity).
  assert (Ha : addNumber "Directory 1" "dad" "555-000-1111" demoManager
    = Some (true, [Print (MsgAdded "dad" "555-000-1111" "Directory 1")],
            managerAfter (addNumber "Directory 1" "dad" "555-000-1111" demoManager)
              demoManager)) by (vm_compute; reflexivity).
  assert (Ho : "Directory 1" ≠ "Directory 1"
               ∨ "mom" ≠ strncpy_terminated MAX_CODE_LENGTH "dad")
    by (right; vm_compute; discriminate).
  split; [exact Hm|]. split; [exact Ha|]. split; [exact Ho|].
  exact (X10_add_keeps_other_lookups demoManager "Directory 1" "dad" "555-000-1111"
           _ _ "Directory 1" "mom" Hm Ha Ho).
Defined.

(** X11 (removing keeps the other lookups).  After a successful
    [removeNumber] of a code from a directory, [getPhoneNumber] returns what
    it returned before for every other directory name and, in the same
    directory, for every other code: the left shift loses no entry but the
    removed one. *)
Theorem X11_remove_keeps_other_lookups
    (m : SpeedDialManager) (dn code : string) (evs : list Event)
    (m' : SpeedDialManager) (dn2 code2 : string) :
  reachable m →
  removeNumber dn code m = Some (true, evs, m') →
  dn2 ≠ dn ∨ code2 ≠ code →
  returned (getPhoneNumber dn2 code2 m') = returned (getPhoneNumber dn2 code2 m).
Proof.
  intros Hm Hrem Hother. pose proof (reachable_wf m Hm) as Hwf.
  destruct (removeNumber_true_shape m dn code evs m' Hwf Hrem)
    as (k & d & d' & i & e & Hinit & Hf & Hk & Hd & Hd' & Hn & He & Hcode & _ & Hc & ->).
  rewrite !getPhoneNumber_returned;
    [|by split|split; [by eapply wf_insert|done]].
  f_equal. rewrite (directoryNamed_replaced m k d d' dn dn2 true Hf Hk Hn).
  destruct (decide (dn2 = dn)) as [->|Hne]; [|done].
  rewrite (directoryNamed_resolved m dn k d Hf Hk). simpl.
  destruct Hother as [?|Hne]; [done|].
  rewrite Hc, (firstWithCode_delete code2 (contents d) i e He); [done|congruence].
Qed.

Lemma X11_remove_keeps_other_lookups_witness :
  reachable demoManager ∧
  removeNumber "Directory 1" "home" demoManager
  = Some (true, [Print (MsgRemoved "home" "123-456-7890" "Directory 1")],
          managerAfter (removeNumber "Directory 1" "home" demoManager) demoManager) ∧
  ("Directory 1" ≠ "Directory 1" ∨ "mom" ≠ "home") ∧
  returned (getPhoneNumber "Directory 1" "mom"
              (managerAfter (removeNumber "Directory 1" "home" demoManager) demoManager))
  = returned (getPhoneNumber "Directory 1" "mom" demoManager).
Proof.
  assert (Hm : reachable demoManager)
    by (exists (CallInitialize (λ _, true) :: demoCalls); vm_compute; reflexivity).
  assert (Hr : removeNumber "Directory 1" "home" demoManager
    = Some (true, [Print (MsgRemoved "home" "123-456-7890" "Directory 1")],
            managerAfter (removeNumber "Directory 1" "home" demoManager) demoManager))
    by (vm_compute; reflexivity).
  assert (Ho : "Directory 1" ≠ "Directory 1" ∨ "mom" ≠ "home")
    by (right; discriminate).
  split; [exact Hm|]. split; [exact Hr|]. split; [exact Ho|].
  exact (X11_remove_keeps_other_lookups demoManager "Directory 1" "home" _ _
           "Directory 1" "mom" Hm Hr Ho).
Defined.

(** X12 (removal, then lookup).  In a directory whose codes are pairwise
    distinct, after a successful [removeNumber] of a code [getPhoneNumber]
    of that code returns [NULL] and a second [removeNumber] of it returns
    [false], both reporting that the code is not found. *)
Theorem X12_removed_code_is_gone
    (m : SpeedDialManager) (dn code : string) (d : Directory) (evs : list Event)
    (m' : SpeedDialManager) :
  reachable m → directoryNamed m dn = Some d →
  NoDup (speedDialCode <$> contents d) →
  removeNumber dn code m = Some (true, evs, m') →
  getPhoneNumber dn code m' = Some (None, [Print (MsgCodeNotFound code dn)], m') ∧
  removeNumber dn code m' = Some (false, [Print (MsgNothingRemoved code dn)], m').
Proof.
  intros Hm Hd Hnd Hrem. pose proof (reachable_wf m Hm) as Hwf.
  destruct (removeNumber_true_shape m dn code evs m' Hwf Hrem)
    as (k & d0 & d' & i & e & Hinit & Hf & Hk & Hd0 & Hd' & Hn & He & Hcode & _ & Hc & ->).
  assert (d0 = d) as ->
    by (rewrite (directoryNamed_resolved m dn k d0 Hf Hk) in Hd; congruence).
  assert (Hr' : ready {| directories := <[k := d']> (directories m);
                         initialized := true |})
    by (split; [by eapply wf_insert|done]).
  assert (Hdn : directoryNamed {| directories := <[k := d']> (directories m);
                                  initialized := true |} dn = Some d')
    by (by eapply directoryNamed_insert).
  assert (Habs : Forall (λ e', speedDialCode e' ≠ code) (contents d')).
  { rewrite Hc. apply Forall_lookup. intros j x Hj Hx.
    assert (Hi : (speedDialCode <$> contents d) !! i = Some code)
      by (by rewrite list_lookup_fmap, He; simpl; rewrite Hcode).
    destruct (decide (j < i)) as [Hlt|Hge].
    - rewrite list_lookup_delete_lt in Hj by done.
      assert (Hj' : (speedDialCode <$> contents d) !! j = Some code)
        by (by rewrite list_lookup_fmap, Hj; simpl; rewrite Hx).
      pose proof (NoDup_lookup _ _ _ _ Hnd Hi Hj'). lia.
    - rewrite list_lookup_delete_ge in Hj by lia.
      assert (Hj' : (speedDialCode <$> contents d) !! S j = Some code)
        by (by rewrite list_lookup_fmap, Hj; simpl; rewrite Hx).
      pose proof (NoDup_lookup _ _ _ _ Hnd Hi Hj'). lia. }
  split.
  - by apply (getPhoneNumber_absent _ dn d').
  - by apply (removeNumber_absent _ dn d').
Qed.

Lemma X12_removed_code_is_gone_witness :
  reachable demoManager ∧
  directoryNamed demoManager "Directory 1" = Some demoDirectory ∧
  NoDup (speedDialCode <$> contents demoDirectory) ∧
  removeNumber "Directory 1" "work" demoManager
  = Some (true, [Print (MsgRemoved "work" "987-654-3210" "Directory 1")],
          managerAfter (removeNumber "Directory 1" "work" demoManager) demoManager) ∧
  getPhoneNumber "Directory 1" "work"
    (managerAfter (removeNumber "Directory 1" "work" demoManager) demoManager)
  = Some (None, [Print (MsgCodeNotFound "work" "Directory 1")],
          managerAfter (removeNumber "Directory 1" "work" demoManager) demoManager).
Proof.
  assert (Hm : reachable demoManager)
    by (exists (CallInitialize (λ _, true) :: demoCalls); vm_compute; reflexivity).
  assert (Hd : directoryNamed demoManager "Directory 1" = Some demoDirectory)
    by (vm_compute; reflexivity).
  assert (Hnd : NoDup (speedDialCode <$> contents demoDirectory)).
  { vm_compute. repeat (apply NoDup_cons; split;
      [intros H; repeat (apply elem_of_cons in H as [H|H]; [discriminate H|]);
       by apply elem_of_nil in H|]).
    apply NoDup_nil_2. }
  assert (Hr : removeNumber "Directory 1" "work" demoManager
    = Some (true, [Print (MsgRemoved "work" "987-654-3210" "Directory 1")],
            managerAfter (removeNumber "Directory 1" "work" demoManager) demoManager))
    by (vm_compute; reflexivity).
  split; [exact Hm|]. split; [exact Hd|]. split; [exact Hnd|]. split; [exact Hr|].
  exact (proj1 (X12_removed_code_is_gone demoManager "Directory 1" "work"
                  demoDirectory _ _ Hm Hd Hnd Hr)).
Defined.

(** X13 (distinct codes).  After any run of returning calls in which every
    code passed to [addNumber] has fewer than [MAX_CODE_LENGTH] characters,
    the codes stored in each directory of an initialized manager are
    pairwise distinct. *)
Theorem X13_fitting_codes_stay_distinct (cs : list Call) (m : SpeedDialManager) :
  Forall fitsCode cs → afterAll cs manager0 = Some m → initialized m = true →
  Forall (λ d, NoDup (speedDialCode <$> contents d)) (directories m).
Proof.
  revert m.
  apply (run_invariant fitsCode
           (λ m, initialized m = true →
                 Forall (λ d, NoDup (speedDialCode <$> contents d)) (directories m)));
    [done|].
  intros c m m' Hfit Hwf HP Hafter.
  destruct (after_cases c m m' Hwf Hafter)
    as [->|[(ok & evs & dirs' & -> & Hinit & E & ->)
       |[(-> & Hinit & ->)
       |[(dn & code & phone & k & d & blk & es & d' & blk' & -> & Hinit & Hf & Hk
            & Hh & Hfresh & Hh' & Hn & ->)
        |(dn & code & k & d & blk & es & i & e & d' & blk' & -> & Hinit & Hf & Hk
            & Hh & He & Hc & Hh' & Hn & ->)]]]]; simpl.
  - done.
  - intros _. apply initDirectoriesFrom_ok in E as (_ & Hwfd & Hzero & _).
    rewrite Forall_forall in Hzero. apply Forall_forall. intros d Hd.
    unfold contents. destruct (entries d); [|apply NoDup_nil_2].
    rewrite (Hzero d Hd). apply NoDup_nil_2.
  - done.
  - intros _. specialize (HP Hinit). apply Forall_insert; [done|].
    rewrite Forall_lookup in HP. specialize (HP k d Hk).
    rewrite (holds_contents d blk es Hh) in HP.
    rewrite (holds_contents d' blk' _ Hh'), fmap_app.
    apply NoDup_app. split; [done|]. split; [|apply NoDup_singleton].
    intros c Hc. simpl in *. unfold strncpy_terminated.
    rewrite strprefix_short by (unfold MAX_CODE_LENGTH in *; simpl; lia).
    intros Hin%list_elem_of_singleton. subst c.
    apply list_elem_of_fmap in Hc as (e & He & Hin).
    rewrite Forall_forall in Hfresh. by eapply Hfresh.
  - intros _. specialize (HP Hinit). apply Forall_insert; [done|].
    rewrite Forall_lookup in HP. specialize (HP k d Hk).
    rewrite (holds_contents d blk es Hh) in HP.
    rewrite (holds_contents d' blk' _ Hh'), list_fmap_delete.
    eapply sublist_NoDup; [exact HP|]. apply sublist_delete.
Qed.

Lemma X13_fitting_codes_witness :
  Forall fitsCode (CallInitialize (λ _, true) :: demoCalls) ∧
  afterAll (CallInitialize (λ _, true) :: demoCalls) manager0 = Some demoManager ∧
  initialized demoManager = true ∧
  Forall (λ d, NoDup (speedDialCode <$> contents d)) (directories demoManager).
Proof.
  assert (Hf : Forall fitsCode (CallInitialize (λ _, true) :: demoCalls)).
  { repeat (constructor; [vm_compute; try lia; exact I|]). constructor. }
  assert (Hr : afterAll (CallInitialize (λ _, true) :: demoCalls) manager0
               = Some demoManager) by (vm_compute; reflexivity).
  assert (Hi : initialized demoManager = true) by (vm_compute; reflexivity).
  split; [exact Hf|]. split; [exact Hr|]. split; [exact Hi|].
  exact (X13_fitting_codes_stay_distinct _ demoManager Hf Hr Hi).
Defined.

(** X14 (listing).  On an initialized reachable manager
    [listNumbersInDirectory] prints the header with the count of the named
    directory and its capacity, then the line "Directory is empty" when the
    count is 0 and otherwise one line per entry, in the order of insertion;
    after a successful [addNumber] the lines are the former lines followed
    by the line of the new entry (its code and number cut to their buffers).
    It leaves the manager as it was. *)
Theorem X14_listing_prints_entries_in_order
    (m : SpeedDialManager) (dn : string) (d : Directory) :
  reachable m → initialized m = true → directoryNamed m dn = Some d →
  listNumbersInDirectory dn m
  = Some (tt,
          Print (MsgListHeader dn (Z.of_nat (length (contents d)))
                   MAX_NUMBERS_PER_DIRECTORY)
            :: match contents d with
               | [] => [Print MsgDirectoryEmpty]
               | es => (λ e, Print (MsgListEntry (speedDialCode e) (phoneNumber e)))
                       <$> es
               end,
          m) ∧
  (∀ code phone evs m',
     addNumber dn code phone m = Some (true, evs, m') →
     listNumbersInDirectory dn m'
     = Some (tt,
             Print (MsgListHeader dn (Z.of_nat (length (contents d)) + 1)
                      MAX_NUMBERS_PER_DIRECTORY)
               :: ((λ e, Print (MsgListEntry (speedDialCode e) (phoneNumber e)))
                   <$> contents d)
               ++ [Print (MsgListEntry (strncpy_terminated MAX_CODE_LENGTH code)
                            (strncpy_terminated MAX_PHONE_LENGTH phone))],
             m')).
Proof.
  intros Hm Hinit Hd. pose proof (reachable_wf m Hm) as Hwf.
  assert (Hcount : ∀ m1 d1, ready m1 → directoryNamed m1 dn = Some d1 →
                     currentCount d1 = Z.of_nat (length (contents d1))).
  { intros m1 d1 Hr1 Hd1.
    destruct (ready_resolved m1 dn d1 Hr1 Hd1) as (k & blk & _ & _ & Hh).
    by destruct Hh as (_ & _ & -> & _). }
  split.
  - rewrite (listNumbersInDirectory_contents m dn d (conj Hwf Hinit) Hd).
    by rewrite (Hcount m d (conj Hwf Hinit) Hd).
  - intros code phone evs m' Hadd.
    destruct (addNumber_true_shape m dn code phone evs m' Hwf Hadd)
      as (k & d0 & d' & _ & Hf & Hk & Hd0 & Hd' & Hn & Hfresh & Hc & ->).
    assert (d0 = d) as ->
      by (rewrite (directoryNamed_resolved m dn k d0 Hf Hk) in Hd; congruence).
    assert (Hr' : ready {| directories := <[k := d']> (directories m);
                           initialized := true |})
      by (split; [by eapply wf_insert|done]).
    assert (Hdn : directoryNamed {| directories := <[k := d']> (directories m);
                                    initialized := true |} dn = Some d')
      by (by eapply directoryNamed_insert).
    rewrite (listNumbersInDirectory_contents _ dn d' Hr' Hdn).
    rewrite (Hcount _ d' Hr' Hdn), Hc, length_app. simpl length.
    replace (Z.of_nat (length (contents d) + 1))
      with (Z.of_nat (length (contents d)) + 1)%Z by lia.
    f_equal. destruct (contents d) as [|x l]; [done|].
    change ((x :: l) ++ [storedEntry code phone])
      with (x :: (l ++ [storedEntry code phone])).
    cbv iota beta. by rewrite !fmap_cons, fmap_app.
Qed.

Lemma X14_listing_witness :
  reachable demoManager ∧ initialized demoManager = true ∧
  directoryNamed demoManager "Directory 1" = Some demoDirectory ∧
  listNumbersInDirectory "Directory 1" demoManager
  = Some (tt,
          [Print (MsgListHeader "Directory 1" 3 MAX_NUMBERS_PER_DIRECTORY);
           Print (MsgListEntry "home" "123-456-7890");
           Print (MsgListEntry "work" "987-654-3210");
           Print (MsgListEntry "mom" "555-111-2222")],
          demoManager).
Proof.
  assert (Hm : reachable demoManager)
    by (exists (CallInitialize (λ _, true) :: demoCalls); vm_compute; reflexivity).
  assert (Hi : initialized demoManager = true) by (vm_compute; reflexivity).
  assert (Hd : directoryNamed demoManager "Directory 1" = Some demoDirectory)
    by (vm_compute; reflexivity).
  split; [exact Hm|]. split; [exact Hi|]. split; [exact Hd|].
  exact (proj1 (X14_listing_prints_entries_in_order demoManager "Directory 1"
                  demoDirectory Hm Hi Hd)).
Defined.

(** X15 (teardown, then initialization).  After [freeSpeedDialManager] on an
    initialized reachable manager and a new [initializeSpeedDialManager]
    whose allocations succeed, no entry stored before survives:
    [getPhoneNumber] returns [NULL] for every directory name and code, and
    every directory has room for [MAX_NUMBERS_PER_DIRECTORY] entries again. *)
Theorem X15_entries_do_not_survive_teardown
    (mallocOk : nat → bool) (m : SpeedDialManager) :
  reachable m → initialized m = true →
  (∀ i, i < Z.to_nat MAX_DIRECTORIES → mallocOk i = true) →
  ∃ m1 m2,
    after CallFree m = Some m1 ∧
    after (CallInitialize mallocOk) m1 = Some m2 ∧
    initialized m2 = true ∧
    Forall (λ d, currentCount d = 0%Z) (directories m2) ∧
    ∀ dn code, returned (getPhoneNumber dn code m2) = Some None.
Proof.
  intros Hm Hinit Hok. pose proof (reachable_wf m Hm) as Hwf.
  destruct (freeSpeedDialManager_wf m Hwf) as (evs1 & m1 & Hfree & Hwf1 & Hinit1).
  destruct (initializeSpeedDialManager_ok mallocOk m1 Hwf1 Hinit1 Hok)
    as (m2 & Hrun & Hr2 & _ & Hempty).
  exists m1, m2. simpl. rewrite Hfree, Hrun. split; [done|]. split; [done|].
  split; [apply Hr2|]. split.
  - destruct Hr2 as [[_ Hwf2] Hinit2]. specialize (Hwf2 Hinit2).
    rewrite Forall_forall in Hwf2, Hempty. apply Forall_forall. intros d Hd.
    destruct (Hwf2 d Hd) as (blk & es & Hh).
    pose proof (holds_contents d blk es Hh) as Hc.
    rewrite (Hempty d Hd) in Hc. subst es. by destruct Hh as (_ & _ & -> & _).
  - intros dn code. rewrite (getPhoneNumber_returned m2 dn code Hr2). f_equal.
    destruct (directoryNamed m2 dn) as [d|] eqn:Hd; [|done]. simpl.
    apply directoryNamed_Some in Hd as (k & _ & Hk & _).
    rewrite Forall_lookup in Hempty. by rewrite (Hempty k d Hk).
Qed.

Lemma X15_entries_do_not_survive_witness :
  reachable demoManager ∧ initialized demoManager = true ∧
  ∃ m1 m2,
    after CallFree demoManager = Some m1 ∧
    after (CallInitialize (λ _, true)) m1 = Some m2 ∧
    initialized m2 = true ∧
    Forall (λ d, currentCount d = 0%Z) (directories m2) ∧
    ∀ dn code, returned (getPhoneNumber dn code m2) = Some None.
Proof.
  assert (Hm : reachable demoManager)
    by (exists (CallInitialize (λ _, true) :: demoCalls); vm_compute; reflexivity).
  assert (Hi : initialized demoManager = true) by (vm_compute; reflexivity).
  split; [exact Hm|]. split; [exact Hi|].
  exact (X15_entries_do_not_survive_teardown (λ _, true) demoManager Hm Hi
           (λ _ _, eq_refl)).
Defined.

(** X16 (frame of a removal).  A successful [removeNumber] changes the named
    directory only: every other directory, the name of the directory, the
    length of its block and the initialization flag are as before and the
    count drops by one.  The slots from the new count on are not written:
    the slot just vacated still holds the entry that was last. *)
Theorem X16_remove_touches_one_directory
    (m : SpeedDialManager) (dn code : string) (evs : list Event)
    (m' : SpeedDialManager) :
  reachable m →
  removeNumber dn code m = Some (true, evs, m') →
  ∃ k d blk d' blk',
    findDirectory m dn = Z.of_nat k ∧
    directories m !! k = Some d ∧ entries d = Some blk ∧
    directories m' !! k = Some d' ∧ entries d' = Some blk' ∧
    name d' = name d ∧
    currentCount d' = (currentCount d - 1)%Z ∧
    (0 ≤ currentCount d')%Z ∧
    length blk' = length blk ∧
    (∀ j, Z.to_nat (currentCount d') ≤ j → blk' !! j = blk !! j) ∧
    blk' !! Z.to_nat (currentCount d') = Some (last (contents d)) ∧
    (∀ j, j ≠ k → directories m' !! j = directories m !! j) ∧
    length (directories m') = length (directories m) ∧
    initialized m' = initialized m.
Proof.
  intros Hm Hrem. pose proof (reachable_wf m Hm) as Hwf.
  destruct (initialized m) eqn:Hinit;
    [|unfold removeNumber in Hrem; rewrite Hinit in Hrem; simpl in Hrem; done].
  destruct (wf_resolve m dn Hwf Hinit) as [Hf|(k & d & blk & es & Hf & Hk & Hn & Hh)].
  { unfold removeNumber in Hrem. rewrite Hinit, Hf in Hrem. simpl in Hrem. done. }
  rewrite (removeNumber_resolved m dn k d blk es Hinit Hf Hk Hh) in Hrem.
  destruct (list_find (hasCode code) es) as [[i e]|] eqn:E; [|done].
  apply list_find_Some in E as (He & _ & _). injection Hrem as _ <-.
  assert (Hi : i < length es) by (by eapply lookup_lt_Some).
  pose proof (holds_length d blk es Hh) as Hle.
  pose proof (holds_contents d blk es Hh) as Hcont.
  pose proof Hh as (Hb & Hl & Hc & Ht & _).
  assert (Hk' : k < length (directories m)) by (by eapply lookup_lt_Some).
  assert (Hpre : length (take i blk ++ take (length es - 1 - i) (drop (S i) blk))
                 = length es - 1)
    by (rewrite length_app, !length_take, length_drop; lia).
  assert (Hshift : ∀ j, length es - 1 ≤ j →
            (take i blk ++ take (length es - 1 - i) (drop (S i) blk)
             ++ drop (length es - 1) blk) !! j = blk !! j).
  { intros j Hj. rewrite app_assoc, lookup_app_r by lia.
    rewrite Hpre, lookup_drop. f_equal. lia. }
  exists k, d, blk. do 2 eexists. simpl.
  split; [done|]. split; [done|]. split; [done|].
  split; [by apply list_lookup_insert_eq|]. simpl.
  split; [reflexivity|]. split; [done|]. split; [done|].
  rewrite Hc. replace (Z.to_nat (Z.of_nat (length es) - 1)) with (length es - 1) by lia.
  split; [lia|]. split.
  { rewrite !length_app, !length_take, !length_drop. lia. }
  split; [exact Hshift|]. split.
  { rewrite Hshift by lia. rewrite Hcont, last_lookup.
    replace (pred (length es)) with (length es - 1) by lia.
    destruct (lookup_lt_is_Some_2 es (length es - 1)) as [x Hx]; [lia|].
    rewrite Hx. by apply (holds_lookup d blk es). }
  split; [intros j Hj; by apply list_lookup_insert_ne|].
  split; [by rewrite length_insert|done].
Qed.

Lemma X16_remove_touches_one_directory_witness :
  reachable demoManager ∧
  removeNumber "Directory 1" "home" demoManager
  = Some (true, [Print (MsgRemoved "home" "123-456-7890" "Directory 1")],
          managerAfter (removeNumber "Directory 1" "home" demoManager) demoManager) ∧
  ∃ k d blk d' blk',
    findDirectory demoManager "Directory 1" = Z.of_nat k ∧
    directories demoManager !! k = Some d ∧ entries d = Some blk ∧
    directories (managerAfter (removeNumber "Directory 1" "home" demoManager)
                   demoManager) !! k = Some d' ∧
    entries d' = Some blk' ∧
    blk' !! Z.to_nat (currentCount d') = Some (last (contents d)).
Proof.
  assert (Hm : reachable demoManager)
    by (exists (CallInitialize (λ _, true) :: demoCalls); vm_compute; reflexivity).
  assert (Hr : removeNumber "Directory 1" "home" demoManager
    = Some (true, [Print (MsgRemoved "home" "123-456-7890" "Directory 1")],
            managerAfter (removeNumber "Directory 1" "home" demoManager) demoManager))
    by (vm_compute; reflexivity).
  split; [exact Hm|]. split; [exact Hr|].
  destruct (X16_remove_touches_one_directory demoManager "Directory 1" "home" _ _ Hm Hr)
    as (k & d & blk & d' & blk' & H1 & H2 & H3 & H4 & H5 & _ & _ & _ & _ & _ & H6 & _).
  by exists k, d, blk, d', blk'.
Defined.

(** X17 (round trip with a long number).  When [addNumber] succeeds with a
    code of fewer than [MAX_CODE_LENGTH] characters, [getPhoneNumber] with
    the same directory name and code then returns the first
    [MAX_PHONE_LENGTH - 1] characters of the number that was given: the whole
    number when it fits, its cut form otherwise. *)
Theorem X17_add_then_get_returns_cut_number
    (m : SpeedDialManager) (dn code value : string) (evs : list Event)
    (m' : SpeedDialManager) :
  reachable m → String.length code < MAX_CODE_LENGTH →
  addNumber dn code value m = Some (true, evs, m') →
  getPhoneNumber dn code m'
  = Some (Some (strprefix (MAX_PHONE_LENGTH - 1) value),
          [Print (MsgRetrieved code dn (strprefix (MAX_PHONE_LENGTH - 1) value))],
          m').
Proof.
  intros Hm Hcode Hadd. pose proof (reachable_wf m Hm) as Hwf.
  destruct (addNumber_true_shape m dn code value evs m' Hwf Hadd)
    as (k & d & d' & Hinit & Hf & Hk & Hd & Hd' & Hn & Hfresh & Hc & ->).
  assert (Hr' : ready {| directories := <[k := d']> (directories m);
                         initialized := true |})
    by (split; [by eapply wf_insert|done]).
  assert (Hdn : directoryNamed {| directories := <[k := d']> (directories m);
                                  initialized := true |} dn = Some d')
    by (by eapply directoryNamed_insert).
  assert (Hstored : storedEntry code value
                    = {| speedDialCode := code;
                         phoneNumber := strprefix (MAX_PHONE_LENGTH - 1) value |}).
  { unfold storedEntry, strncpy_terminated. f_equal.
    apply strprefix_short. unfold MAX_CODE_LENGTH in *. simpl. lia. }
  rewrite Hstored in Hc.
  apply (getPhoneNumber_found _ dn d' code (length (contents d))
           {| speedDialCode := code;
              phoneNumber := strprefix (MAX_PHONE_LENGTH - 1) value |}); try done.
  - rewrite Hc. by apply list_lookup_middle.
  - intros j e' Hj. rewrite Hc, lookup_app_l by done. intros He'.
    rewrite Forall_forall in Hfresh. apply Hfresh.
    apply list_elem_of_lookup. eauto.
Qed.

Lemma X17_add_then_get_witness :
  reachable readyManager ∧ String.length "desk" < MAX_CODE_LENGTH ∧
  addNumber "Directory 2" "desk" longNumber readyManager
  = Some (true, [Print (MsgAdded "desk" longNumber "Directory 2")], deskAdded) ∧
  getPhoneNumber "Directory 2" "desk" deskAdded
  = Some (Some "0044-20-7946-0958-e",
          [Print (MsgRetrieved "desk" "Directory 2" "0044-20-7946-0958-e")],
          deskAdded).
Proof.
  assert (Hc : String.length "desk" < MAX_CODE_LENGTH) by (vm_compute; lia).
  assert (Ha : addNumber "Directory 2" "desk" longNumber readyManager
    = Some (true, [Print (MsgAdded "desk" longNumber "Directory 2")], deskAdded))
    by (vm_compute; reflexivity).
  split; [exact readyManager_reachable|]. split; [exact Hc|]. split; [exact Ha|].
  exact (X17_add_then_get_returns_cut_number readyManager "Directory 2" "desk"
           longNumber _ deskAdded readyManager_reachable Hc Ha).
Defined.

(** X18 (when an addition succeeds).  On an initialized reachable manager
    [addNumber] into an existing directory returns [true] exactly when the
    directory holds fewer than [MAX_NUMBERS_PER_DIRECTORY] entries and no
    stored code equals the given code; the lengths of the code and of the
    number play no part. *)
Theorem X18_add_succeeds_iff_room_and_new_code
    (m : SpeedDialManager) (dn code phone : string) (d : Directory) :
  reachable m → initialized m = true → directoryNamed m dn = Some d →
  (returned (addNumber dn code phone m) = Some true
   ↔ (currentCount d < MAX_NUMBERS_PER_DIRECTORY)%Z ∧
     Forall (λ e, speedDialCode e ≠ code) (contents d)).
Proof.
  intros Hm Hinit Hd. pose proof (conj (reachable_wf m Hm) Hinit : ready m) as Hr.
  split.
  - unfold returned. destruct (addNumber dn code phone m) as [[[r evs] m']|] eqn:Hadd;
      [|done]. simpl. intros [= ->].
    destruct (addNumber_true_inv m dn code phone evs m' Hr Hadd) as (d0 & Hd0 & H1 & H2).
    assert (d0 = d) as -> by congruence. done.
  - intros [Hroom Hfresh].
    destruct (addNumber_fresh m dn d code phone Hr Hd Hroom Hfresh) as (m' & d' & -> & _).
    done.
Qed.

Lemma X18_add_succeeds_witness :
  reachable readyManager ∧ initialized readyManager = true ∧
  directoryNamed readyManager "Directory 1"
  = Some {| name := "Directory 1"; entries := Some freshBlock; currentCount := 0 |} ∧
  (returned (addNumber "Directory 1" longCode longNumber readyManager) = Some true
   ↔ (0 < MAX_NUMBERS_PER_DIRECTORY)%Z ∧
     Forall (λ e, speedDialCode e ≠ longCode)
       (contents {| name := "Directory 1"; entries := Some freshBlock;
                    currentCount := 0 |})).
Proof.
  assert (Hi : initialized readyManager = true) by reflexivity.
  assert (Hd : directoryNamed readyManager "Directory 1"
    = Some {| name := "Directory 1"; entries := Some freshBlock; currentCount := 0 |})
    by (vm_compute; reflexivity).
  split; [exact readyManager_reachable|]. split; [exact Hi|]. split; [exact Hd|].
  exact (X18_add_succeeds_iff_room_and_new_code readyManager "Directory 1" longCode
           longNumber _ readyManager_reachable Hi Hd).
Defined.

(** X19 (removal and lookup agree).  On every reachable manager
    [removeNumber] returns [true] exactly when [getPhoneNumber] with the same
    directory name and code returns a number: a code can be removed if and
    only if it can be looked up. *)
Theorem X19_remove_succeeds_iff_get_finds
    (m : SpeedDialManager) (dn code : string) :
  reachable m →
  (returned (removeNumber dn code m) = Some true
   ↔ ∃ number, returned (getPhoneNumber dn code m) = Some (Some number)).
Proof.
  intros Hm. pose proof (reachable_wf m Hm) as Hwf.
  destruct (initialized m) eqn:Hinit.
  - destruct (wf_resolve m dn Hwf Hinit) as [Hf|(k & d & blk & es & Hf & Hk & Hn & Hh)].
    + unfold removeNumber, getPhoneNumber. rewrite Hinit, Hf. simpl.
      split; [done|]. by intros [? ?].
    + rewrite (removeNumber_resolved m dn k d blk es Hinit Hf Hk Hh).
      rewrite (getPhoneNumber_resolved m dn k d blk es Hinit Hf Hk Hh).
      destruct (list_find (hasCode code) es) as [[i e]|]; simpl.
      * split; [eauto|done].
      * split; [done|]. by intros [? ?].
  - unfold removeNumber, getPhoneNumber. rewrite Hinit. simpl.
    split; [done|]. by intros [? ?].
Qed.

Lemma X19_remove_succeeds_witness :
  reachable demoManager ∧
  (returned (removeNumber "Directory 1" "mom" demoManager) = Some true
   ↔ ∃ number,
       returned (getPhoneNumber "Directory 1" "mom" demoManager) = Some (Some number)).
Proof.
  assert (Hm : reachable demoManager)
    by (exists (CallInitialize (λ _, true) :: demoCalls); vm_compute; reflexivity).
  split; [exact Hm|].
  exact (X19_remove_succeeds_iff_get_finds demoManager "Directory 1" "mom" Hm).
Defined.

(** ** [main] *)

Lemma initDirectoriesFrom_ext f g dirs i :
  (∀ j, i ≤ j < i + length dirs → f j = g j) →
  initDirectoriesFrom f dirs i = initDirectoriesFrom g dirs i.
Proof.
  revert i. induction dirs as [|d dirs IH]; intros i H; [done|]. simpl in *.
  rewrite (H i) by lia. destruct (g i); [|done].
  rewrite (IH (S i)); [done|]. intros j Hj. apply H. lia.
Qed.

Lemma main_ext f g :
  (∀ j, j < Z.to_nat MAX_DIRECTORIES → f j = g j) →
  main f manager0 = main g manager0.
Proof.
  intros H. unfold main, mbind, Prog_bind, text, callInitialize.
  unfold initializeSpeedDialManager.
  cbn [initialized manager0 directories].
  rewrite (initDirectoriesFrom_ext f g); [done|].
  intros j Hj. apply H. simpl in Hj. exact (proj2 Hj).
Qed.

Lemma main_all_allocations_succeed :
  (λ x, (x.1.1, heapEvents x.1.2, errorMessages x.1.2, initialized x.2,
         entries <$> directories x.2))
    <$> main (λ _, true) manager0
  = Some (Returned 0%Z,
          [Malloc 0 true; Malloc 1 true; Malloc 2 true; Malloc 3 true; Malloc 4 true;
           Free 0; Free 1; Free 2; Free 3; Free 4],
          [MsgAddNoDirectory "Directory 6";
           MsgDuplicateCode "home" "Directory 1";
           MsgCodeNotFound "dad" "Directory 1";
           MsgGetNoDirectory "Directory 7";
           MsgNothingRemoved "nonexistent" "Directory 2";
           MsgRemoveNoDirectory "Directory 6"],
          false,
          [None; None; None; None; None]).
Proof. vm_compute. reflexivity. Qed.

(** X20 ([main]).  When the five allocations succeed, [main] runs to its end
    without undefined behaviour and returns 0; it calls [malloc] five times
    and [free] once for each block, and leaves the manager not initialized.
    The refusals it prints are the six for the unknown directories, the
    duplicate code and the absent codes: the two hundred additions of its
    capacity demonstration all succeed, so the full-directory refusal never
    occurs.  When an allocation fails, [main] ends in
    [initializeSpeedDialManager] with [EXIT_FAILURE] and calls [free] for
    nothing. *)
Theorem X20_main_frees_what_it_allocates (mallocOk : nat → bool) :
  ((∀ i, i < Z.to_nat MAX_DIRECTORIES → mallocOk i = true) →
   ∃ evs m',
     main mallocOk manager0 = Some (Returned 0%Z, evs, m') ∧
     heapEvents evs
     = [Malloc 0 true; Malloc 1 true; Malloc 2 true; Malloc 3 true; Malloc 4 true;
        Free 0; Free 1; Free 2; Free 3; Free 4] ∧
     errorMessages evs
     = [MsgAddNoDirectory "Directory 6";
        MsgDuplicateCode "home" "Directory 1";
        MsgCodeNotFound "dad" "Directory 1";
        MsgGetNoDirectory "Directory 7";
        MsgNothingRemoved "nonexistent" "Directory 2";
        MsgRemoveNoDirectory "Directory 6"] ∧
     initialized m' = false ∧
     Forall (λ d, entries d = None) (directories m')) ∧
  (∀ k, k < Z.to_nat MAX_DIRECTORIES → mallocOk k = false →
        (∀ j, j < k → mallocOk j = true) →
   ∃ m',
     main mallocOk manager0
     = Some (Exited EXIT_FAILURE,
             Text "--- Starting C Speed Dial System Demonstration ---"
               :: (Op <$> (Print (MsgInitializing MAX_DIRECTORIES)
                             :: ((λ j, Malloc j true) <$> seq 0 k)
                             ++ [Malloc k false; Perror;
                                 Print MsgNotInitializedOrFreed])),
             m')).
Proof.
  split.
  - intros Hok. rewrite (main_ext mallocOk (λ _, true)) by (intros; by apply Hok).
    pose proof main_all_allocations_succeed as H.
    destruct (main (λ _, true) manager0) as [[[r evs] m']|]; [|done].
    simpl in H. injection H as -> H1 H2 H3 H4.
    exists evs, m'. split_and!; try done.
    assert (Hall : Forall (λ o : option Block, o = None) (entries <$> directories m'))
      by (rewrite H4; repeat constructor).
    by apply Forall_fmap in Hall.
  - intros k Hk Hfail Hok.
    assert (Hlen : length (directories manager0) = Z.to_nat MAX_DIRECTORIES)
      by reflexivity.
    destruct (initDirectoriesFrom_fail mallocOk (directories manager0) 0 k)
      as (dirs' & E & _); [rewrite Hlen; lia|done|intros; apply Hok; lia|].
    rewrite Nat.sub_0_r in E.
    unfold main, mbind, Prog_bind, text, callInitialize.
    unfold initializeSpeedDialManager.
    cbn [initialized manager0 directories] in *. rewrite E.
    unfold freeSpeedDialManager. cbn [initialized negb mbind option_bind].
    eexists. rewrite <- app_assoc. reflexivity.
Qed.

Lemma X20_main_witness :
  ∃ evs m',
    main (λ _, true) manager0 = Some (Returned 0%Z, evs, m') ∧
    heapEvents evs
    = [Malloc 0 true; Malloc 1 true; Malloc 2 true; Malloc 3 true; Malloc 4 true;
       Free 0; Free 1; Free 2; Free 3; Free 4] ∧
    errorMessages evs
    = [MsgAddNoDirectory "Directory 6";
       MsgDuplicateCode "home" "Directory 1";
       MsgCodeNotFound "dad" "Directory 1";
       MsgGetNoDirectory "Directory 7";
       MsgNothingRemoved "nonexistent" "Directory 2";
       MsgRemoveNoDirectory "Directory 6"] ∧
    initialized m' = false ∧
    Forall (λ d, entries d = None) (directories m').
Proof.
  exact (proj1 (X20_main_frees_what_it_allocates (λ _, true)) (λ _ _, eq_refl)).
Defined.

(** ** The index-addressed list of [Spddia.c] *)

Lemma spddia_get_at index (l : list Spddia.SpeedDialEntry) e :
  (0 ≤ index < Spddia.MAX_SPEED_DIALS)%Z → l !! Z.to_nat index = Some e →
  Spddia.getSpeedDialNumber index l
  = match Spddia.phoneNumber e with
    | EmptyString => (None, [Spddia.RepNotAssigned index])
    | number => (Some number, [])
    end.
Proof.
  intros Hi He. unfold Spddia.getSpeedDialNumber, Spddia.entryAt.
  assert (H1 : (index <? 0)%Z = false) by lia.
  assert (H2 : (index >=? Spddia.MAX_SPEED_DIALS)%Z = false) by lia.
  by rewrite H1, H2, He.
Qed.

Lemma spddia_assign_ok index number name (l : list Spddia.SpeedDialEntry) :
  (0 ≤ index < Spddia.MAX_SPEED_DIALS)%Z →
  String.length number < Spddia.MAX_PHONE_NUMBER_LEN →
  Spddia.assignSpeedDial index number name l
  = (0%Z,
     [Spddia.MsgAssigned index number
        match name with
        | Some s => if (String.length s <? Spddia.CONTACT_NAME_SIZE) then s else ""
        | None => ""
        end],
     <[Z.to_nat index :=
         {| Spddia.phoneNumber := number;
            Spddia.contactName :=
              match name with
              | Some s => if (String.length s <? Spddia.CONTACT_NAME_SIZE) then s else ""
              | None => ""
              end |}]> l).
Proof.
  intros Hi Hlen. unfold Spddia.assignSpeedDial.
  assert (H1 : (index <? 0)%Z = false) by lia.
  assert (H2 : (index >=? Spddia.MAX_SPEED_DIALS)%Z = false) by lia.
  assert (H3 : (Spddia.MAX_PHONE_NUMBER_LEN <=? String.length number) = false)
    by (apply Nat.leb_gt; lia).
  by rewrite H1, H2, H3.
Qed.

(** X21 (assignment, then lookup).  For an index inside the list and a number
    of fewer than [MAX_PHONE_NUMBER_LEN] characters, [assignSpeedDial]
    returns 0 and [getSpeedDialNumber] of that index then returns that
    number, except that assigning the empty number leaves the index
    unassigned ([NULL]); the result of [getSpeedDialNumber] for every other
    index is as before. *)
Theorem X21_assign_then_get
    (index : Z) (number : string) (name : option string)
    (speedDialList : list Spddia.SpeedDialEntry) :
  (0 ≤ index < Spddia.MAX_SPEED_DIALS)%Z →
  length speedDialList = Z.to_nat Spddia.MAX_SPEED_DIALS →
  String.length number < Spddia.MAX_PHONE_NUMBER_LEN →
  ∃ contact l',
    Spddia.assignSpeedDial index number name speedDialList
    = (0%Z, [Spddia.MsgAssigned index number contact], l') ∧
    length l' = length speedDialList ∧
    Spddia.getSpeedDialNumber index l'
    = (if decide (number = "") then (None, [Spddia.RepNotAssigned index])
       else (Some number, [])) ∧
    (∀ j, j ≠ index →
          Spddia.getSpeedDialNumber j l' = Spddia.getSpeedDialNumber j speedDialList).
Proof.
  intros Hi Hl Hlen. rewrite (spddia_assign_ok index number name speedDialList Hi Hlen).
  do 2 eexists. split; [done|]. split; [by rewrite length_insert|]. split.
  - erewrite spddia_get_at; [|done|apply list_lookup_insert_eq; lia]. simpl.
    destruct number; [done|]. by destruct (decide _).
  - intros j Hj. unfold Spddia.getSpeedDialNumber, Spddia.entryAt.
    destruct ((j <? 0)%Z || (j >=? Spddia.MAX_SPEED_DIALS)%Z) eqn:E; [done|].
    rewrite list_lookup_insert_ne; [done|]. lia.
Qed.

Lemma X21_assign_then_get_witness :
  (0 ≤ 5 < Spddia.MAX_SPEED_DIALS)%Z ∧
  length Spddia.speedDialList0 = Z.to_nat Spddia.MAX_SPEED_DIALS ∧
  String.length "9998887777" < Spddia.MAX_PHONE_NUMBER_LEN ∧
  ∃ contact l',
    Spddia.assignSpeedDial 5 "9998887777" (Some "Friend") Spddia.speedDialList0
    = (0%Z, [Spddia.MsgAssigned 5 "9998887777" contact], l') ∧
    length l' = length Spddia.speedDialList0 ∧
    Spddia.getSpeedDialNumber 5 l'
    = (if decide ("9998887777" = "") then (None, [Spddia.RepNotAssigned 5])
       else (Some "9998887777", [])) ∧
    (∀ j, j ≠ 5%Z →
          Spddia.getSpeedDialNumber j l'
          = Spddia.getSpeedDialNumber j Spddia.speedDialList0).
Proof.
  assert (Hi : (0 ≤ 5 < Spddia.MAX_SPEED_DIALS)%Z) by (unfold Spddia.MAX_SPEED_DIALS; lia).
  assert (Hl : length Spddia.speedDialList0 = Z.to_nat Spddia.MAX_SPEED_DIALS)
    by reflexivity.
  assert (Hn : String.length "9998887777" < Spddia.MAX_PHONE_NUMBER_LEN)
    by (unfold Spddia.MAX_PHONE_NUMBER_LEN; simpl; lia).
  split; [exact Hi|]. split; [exact Hl|]. split; [exact Hn|].
  exact (X21_assign_then_get 5 "9998887777" (Some "Friend") Spddia.speedDialList0
           Hi Hl Hn).
Defined.

(** X22 (contact names).  A successful [assignSpeedDial] of a non-empty
    number makes [dialSpeedDial] of that index dial that number; the name it
    shows is the given name when it has fewer than 20 characters and the
    empty name when the name is [NULL] or longer: a name that does not fit is
    dropped without an error while the number is still assigned. *)
Theorem X22_assign_then_dial
    (index : Z) (number : string) (name : option string)
    (speedDialList : list Spddia.SpeedDialEntry) :
  (0 ≤ index < Spddia.MAX_SPEED_DIALS)%Z →
  length speedDialList = Z.to_nat Spddia.MAX_SPEED_DIALS →
  String.length number < Spddia.MAX_PHONE_NUMBER_LEN → number ≠ "" →
  Spddia.dialSpeedDial index
    (Spddia.assignSpeedDial index number name speedDialList).2
  = [Spddia.RepDialing number index
       match name with
       | Some s => if (String.length s <? Spddia.CONTACT_NAME_SIZE) then s else ""
       | None => ""
       end].
Proof.
  intros Hi Hl Hlen Hne.
  rewrite (spddia_assign_ok index number name speedDialList Hi Hlen). simpl.
  unfold Spddia.dialSpeedDial.
  erewrite spddia_get_at; [|done|apply list_lookup_insert_eq; lia]. simpl.
  destruct number; [done|]. simpl. unfold Spddia.entryAt.
  rewrite list_lookup_insert_eq by lia. done.
Qed.

Lemma X22_assign_then_dial_witness :
  (0 ≤ 5 < Spddia.MAX_SPEED_DIALS)%Z ∧
  length Spddia.speedDialList0 = Z.to_nat Spddia.MAX_SPEED_DIALS ∧
  String.length "9998887777" < Spddia.MAX_PHONE_NUMBER_LEN ∧
  "9998887777" ≠ "" ∧
  Spddia.dialSpeedDial 5
    (Spddia.assignSpeedDial 5 "9998887777"
       (Some "A name of more than twenty characters") Spddia.speedDialList0).2
  = [Spddia.RepDialing "9998887777" 5 ""].
Proof.
  assert (Hi : (0 ≤ 5 < Spddia.MAX_SPEED_DIALS)%Z) by (unfold Spddia.MAX_SPEED_DIALS; lia).
  assert (Hl : length Spddia.speedDialList0 = Z.to_nat Spddia.MAX_SPEED_DIALS)
    by reflexivity.
  assert (Hn : String.length "9998887777" < Spddia.MAX_PHONE_NUMBER_LEN)
    by (unfold Spddia.MAX_PHONE_NUMBER_LEN; simpl; lia).
  assert (He : "9998887777" ≠ "") by discriminate.
  split; [exact Hi|]. split; [exact Hl|]. split; [exact Hn|]. split; [exact He|].
  exact (X22_assign_then_dial 5 "9998887777"
           (Some "A name of more than twenty characters") Spddia.speedDialList0
           Hi Hl Hn He).
Defined.

(** X23 (when an assignment fails).  [assignSpeedDial] returns [-1] exactly
    when the index is outside the list or the number has
    [MAX_PHONE_NUMBER_LEN] or more characters, and then it leaves the list as
    it was; in every other case it returns 0.  The contact name never makes
    it fail. *)
Theorem X23_assign_fails_iff_bad_index_or_long_number
    (index : Z) (number : string) (name : option string)
    (speedDialList : list Spddia.SpeedDialEntry) :
  ((Spddia.assignSpeedDial index number name speedDialList).1.1 = (-1)%Z
   ↔ (index < 0)%Z ∨ (Spddia.MAX_SPEED_DIALS ≤ index)%Z
     ∨ Spddia.MAX_PHONE_NUMBER_LEN ≤ String.length number) ∧
  ((Spddia.assignSpeedDial index number name speedDialList).1.1 = (-1)%Z →
   (Spddia.assignSpeedDial index number name speedDialList).2 = speedDialList) ∧
  ((Spddia.assignSpeedDial index number name speedDialList).1.1 = (-1)%Z ∨
   (Spddia.assignSpeedDial index number name speedDialList).1.1 = 0%Z).
Proof.
  unfold Spddia.assignSpeedDial, Spddia.MAX_SPEED_DIALS, Spddia.MAX_PHONE_NUMBER_LEN.
  destruct (Z.ltb_spec index 0); cbn [orb fst snd].
  { split_and!; [split; [lia|done]|done|by left]. }
  destruct (Z.geb_spec index 10); cbn [orb fst snd].
  { split_and!; [split; [lia|done]|done|by left]. }
  destruct (Nat.leb_spec 15 (String.length number)); cbn [orb fst snd].
  { split_and!; [split; [lia|done]|done|by left]. }
  split_and!; [split; [done|lia]|done|by right].
Qed.

(** X24 (buffers).  The strings stored by [assignSpeedDial] and by
    [initializeSpeedDial] always fit their buffers together with the
    terminator: when every number of the list has fewer than
    [MAX_PHONE_NUMBER_LEN] characters and every name fewer than 20, the same
    holds after either function, whatever the arguments; it holds for the
    zero-initialised list. *)
Theorem X24_stored_strings_fit
    (index : Z) (number : string) (name : option string)
    (speedDialList : list Spddia.SpeedDialEntry) :
  Spddia.fits speedDialList →
  Spddia.fits (Spddia.assignSpeedDial index number name speedDialList).2 ∧
  Spddia.fits (Spddia.initializeSpeedDial speedDialList).2 ∧
  Spddia.fits Spddia.speedDialList0.
Proof.
  intros Hfits. unfold Spddia.fits in *. split_and!.
  - unfold Spddia.assignSpeedDial.
    destruct ((index <? 0)%Z || (index >=? Spddia.MAX_SPEED_DIALS)%Z); [done|].
    destruct (Nat.leb_spec Spddia.MAX_PHONE_NUMBER_LEN (String.length number));
      [done|]. simpl.
    apply Forall_insert; [done|]. simpl. split; [done|].
    destruct name as [s|]; [|unfold Spddia.CONTACT_NAME_SIZE; simpl; lia].
    destruct (Nat.ltb_spec (String.length s) Spddia.CONTACT_NAME_SIZE); [done|].
    unfold Spddia.CONTACT_NAME_SIZE. simpl. lia.
  - unfold Spddia.initializeSpeedDial. simpl.
    repeat (apply Forall_insert;
            [|unfold Spddia.MAX_PHONE_NUMBER_LEN, Spddia.CONTACT_NAME_SIZE;
              simpl; lia]).
    done.
  - unfold Spddia.speedDialList0. apply Forall_replicate.
    unfold Spddia.MAX_PHONE_NUMBER_LEN, Spddia.CONTACT_NAME_SIZE. simpl. lia.
Qed.

Lemma X24_stored_strings_fit_witness :
  Spddia.fits Spddia.speedDialList0 ∧
  Spddia.fits
    (Spddia.assignSpeedDial 5 "9998887777" (Some "Friend") Spddia.speedDialList0).2.
Proof.
  assert (H0 : Spddia.fits Spddia.speedDialList0).
  { unfold Spddia.fits, Spddia.speedDialList0. apply Forall_replicate.
    unfold Spddia.MAX_PHONE_NUMBER_LEN, Spddia.CONTACT_NAME_SIZE. simpl. lia. }
  split; [exact H0|].
  exact (proj1 (X24_stored_strings_fit 5 "9998887777" (Some "Friend")
                  Spddia.speedDialList0 H0)).
Defined.

(** X25 (default entries).  On a list of [MAX_SPEED_DIALS] entries
    [initializeSpeedDial] assigns the indices 0, 1 and 2, whatever they held
    before, and leaves the result of [getSpeedDialNumber] for every index
    from 3 on as it was. *)
Theorem X25_initialize_assigns_three_indices
    (speedDialList : list Spddia.SpeedDialEntry) :
  length speedDialList = Z.to_nat Spddia.MAX_SPEED_DIALS →
  Spddia.getSpeedDialNumber 0 (Spddia.initializeSpeedDial speedDialList).2
    = (Some "9876543210", []) ∧
  Spddia.getSpeedDialNumber 1 (Spddia.initializeSpeedDial speedDialList).2
    = (Some "1234567890", []) ∧
  Spddia.getSpeedDialNumber 2 (Spddia.initializeSpeedDial speedDialList).2
    = (Some "5551234567", []) ∧
  (∀ j, (3 ≤ j)%Z →
        Spddia.getSpeedDialNumber j (Spddia.initializeSpeedDial speedDialList).2
        = Spddia.getSpeedDialNumber j speedDialList) ∧
  length (Spddia.initializeSpeedDial speedDialList).2 = length speedDialList.
Proof.
  intros Hl. unfold Spddia.initializeSpeedDial. simpl.
  destruct speedDialList as [|e0 [|e1 [|e2 l]]]; try (simpl in Hl; discriminate Hl).
  split_and!; try done.
  intros j Hj. unfold Spddia.getSpeedDialNumber, Spddia.entryAt.
  destruct ((j <? 0)%Z || (j >=? Spddia.MAX_SPEED_DIALS)%Z); [done|].
  destruct (Z.to_nat j) as [|[|[|n]]] eqn:E; try lia. done.
Qed.

Lemma X25_initialize_assigns_witness :
  length Spddia.speedDialList0 = Z.to_nat Spddia.MAX_SPEED_DIALS ∧
  Spddia.getSpeedDialNumber 0 (Spddia.initializeSpeedDial Spddia.speedDialList0).2
  = (Some "9876543210", []).
Proof.
  assert (Hl : length Spddia.speedDialList0 = Z.to_nat Spddia.MAX_SPEED_DIALS)
    by reflexivity.
  split; [exact Hl|].
  exact (proj1 (X25_initialize_assigns_three_indices Spddia.speedDialList0 Hl)).
Defined.

(** X26 (indices that cannot be dialled).  For an index outside the list
    [getSpeedDialNumber] returns [NULL] and [dialSpeedDial] reports that it
    cannot dial, whatever the list holds (the list is not read); on the
    zero-initialised list every index inside it is unassigned, so
    [getSpeedDialNumber] returns [NULL] and [dialSpeedDial] cannot dial. *)
Theorem X26_invalid_or_unassigned_index_is_not_dialled
    (index : Z) (speedDialList : list Spddia.SpeedDialEntry) :
  ((index < 0)%Z ∨ (Spddia.MAX_SPEED_DIALS ≤ index)%Z →
   Spddia.getSpeedDialNumber index speedDialList
     = (None, [Spddia.RepInvalidIndex index]) ∧
   Spddia.dialSpeedDial index speedDialList
     = [Spddia.RepInvalidIndex index; Spddia.RepCannotDial index]) ∧
  ((0 ≤ index < Spddia.MAX_SPEED_DIALS)%Z →
   Spddia.getSpeedDialNumber index Spddia.speedDialList0
     = (None, [Spddia.RepNotAssigned index]) ∧
   Spddia.dialSpeedDial index Spddia.speedDialList0
     = [Spddia.RepNotAssigned index; Spddia.RepCannotDial index]).
Proof.
  split.
  - intros Hi. unfold Spddia.dialSpeedDial, Spddia.getSpeedDialNumber.
    assert (H : ((index <? 0)%Z || (index >=? Spddia.MAX_SPEED_DIALS)%Z) = true)
      by (destruct Hi; [assert ((index <? 0)%Z = true) as -> by lia; done|
          assert ((index >=? Spddia.MAX_SPEED_DIALS)%Z = true) as -> by lia;
          by rewrite orb_true_r]).
    by rewrite H.
  - intros Hi.
    assert (He : Spddia.speedDialList0 !! Z.to_nat index = Some Spddia.emptyEntry).
    { unfold Spddia.speedDialList0. apply lookup_replicate. split; [done|].
      unfold Spddia.MAX_SPEED_DIALS in *. lia. }
    unfold Spddia.dialSpeedDial.
    by rewrite (spddia_get_at index _ _ Hi He).
Qed.

Lemma X26_invalid_index_witness :
  ((10 < 0)%Z ∨ (Spddia.MAX_SPEED_DIALS ≤ 10)%Z) ∧
  Spddia.getSpeedDialNumber 10 Spddia.speedDialList0
  = (None, [Spddia.RepInvalidIndex 10]).
Proof.
  assert (Hi : (10 < 0)%Z ∨ (Spddia.MAX_SPEED_DIALS ≤ 10)%Z)
    by (right; unfold Spddia.MAX_SPEED_DIALS; lia).
  split; [exact Hi|].
  exact (proj1 (proj1 (X26_invalid_or_unassigned_index_is_not_dialled 10
                         Spddia.speedDialList0) Hi)).
Defined.

(** The run of [main] of [Spddia.c]. *)
Example spddia_main_run :
  Spddia.main Spddia.speedDialList0
  = (0%Z,
     [Spddia.RepInitialized;
      Spddia.RepText "--- Demonstrating Speed Dial ---";
      Spddia.RepText "Simulating dialing speed dial 1...";
      Spddia.RepDialing "1234567890" 1 "Home";
      Spddia.RepText "Simulating dialing speed dial 0...";
      Spddia.RepDialing "9876543210" 0 "Emergency";
      Spddia.RepText "Simulating dialing an unassigned speed dial 5...";
      Spddia.RepNotAssigned 5; Spddia.RepCannotDial 5;
      Spddia.RepText "Assigning new speed dial 5...";
      Spddia.RepAssign (Spddia.MsgAssigned 5 "9998887777" "Friend");
      Spddia.RepText "Simulating dialing newly assigned speed dial 5...";
      Spddia.RepDialing "9998887777" 5 "Friend";
      Spddia.RepText "--- End of Demonstration ---"],
     (Spddia.assignSpeedDial 5 "9998887777" (Some "Friend")
        (Spddia.initializeSpeedDial Spddia.speedDialList0).2).2).
Proof. reflexivity. Qed.
